(** * SysAcad portal: the request handlers of [users/views.py] and the
      student-file service of [users/services.py], embedded as functions
      over an explicit store.

    Every view is a function from the store it reads and writes (the rows
    of the tables it touches, plus the flash messages queued for the
    user) to an outcome: an HTTP response, or the exception that escapes
    the view.  ORM calls are spelled out on tables: [get] is a filter
    that fails on zero or several rows, [get_or_create] is a [get]
    followed by an insert when nothing matched, [transaction.atomic]
    restores the tables when its body raises and keeps them otherwise. *)

From stdpp Require Import gmap strings list pretty sorting.

#[global] Set Warnings "-clear-no-such-hyp".

Open Scope Z_scope.
Open Scope string_scope.
Open Scope list_scope.

(** ** Outcomes shared by all views *)

Inductive Exc :=
  | Http404
  | DoesNotExist
  | MultipleObjectsReturned
  | RelatedObjectDoesNotExist
  | IntegrityError
  | ValueError
  | NoReverseMatch.

Inductive Res (A : Type) :=
  | Ok (a : A)
  | Raise (e : Exc).
Arguments Ok {A} a.
Arguments Raise {A} e.

Inductive Method := GET | POST.

(** [CustomUser.Role] *)
Inductive Role := ADMIN | STUDENT | PROFESSOR.

Inductive Level := SUCCESS | INFO | ERROR.

Definition Message : Type := Level * string.

Inductive Response :=
  | Render (template : string)
  | Redirect (url_name : string)
  | RedirectArg (url_name : string) (arg : string)
  | LoginRedirect
  | JsonResponse (status : Z) (body : list (string * string)).

#[global] Instance Exc_eq_dec : EqDecision Exc.
Proof. solve_decision. Defined.
#[global] Instance Role_eq_dec : EqDecision Role.
Proof. solve_decision. Defined.
#[global] Instance Method_eq_dec : EqDecision Method.
Proof. solve_decision. Defined.
#[global] Instance Level_eq_dec : EqDecision Level.
Proof. solve_decision. Defined.
#[global] Instance Response_eq_dec : EqDecision Response.
Proof. solve_decision. Defined.

(** [queryset.get()]: the single matching row, or the exception Django
    raises when the filter matched none or several. *)
Definition qs_get {A} (rows : list A) : Res A :=
  match rows with
  | [] => Raise DoesNotExist
  | [r] => Ok r
  | _ :: _ :: _ => Raise MultipleObjectsReturned
  end.

(** [get_object_or_404]: [get], with [DoesNotExist] turned into a 404. *)
Definition get_object_or_404 {A} (rows : list A) : Res A :=
  match qs_get rows with
  | Raise DoesNotExist => Raise Http404
  | r => r
  end.

(** [queryset.first()] *)
Definition qs_first {A} (rows : list A) : option A := head rows.

(** ** Users and their role profiles ([UserUpdateView]) *)

Module Profiles.

Record CustomUser := mkUser {
  role : Role;
  first_name : string;
  last_name : string;
  dni : string
}.

(** The cleaned fields of a profile form, as the row that is saved. *)
Definition ProfileData : Type := list (string * string).

(** The four tables the view touches.  A profile is one-to-one with its
    user, so each profile table is keyed by the user's primary key. *)
Record DB := mkDB {
  users : gmap Z CustomUser;
  student : gmap Z ProfileData;
  professor : gmap Z ProfileData;
  administrator : gmap Z ProfileData
}.

Record World := mkWorld {
  db : DB;
  messages : list Message
}.

(** An update request once [UserForm] has validated: the user's key from
    the URL, the cleaned user fields, and what each profile form bound to
    the POST data yields ([None]: [is_valid()] is false). *)
Record Request := mkRequest {
  pk : Z;
  form : CustomUser;
  StudentProfileForm : option ProfileData;
  ProfessorProfileForm : option ProfileData;
  AdministratorProfileForm : option ProfileData
}.

Definition set_users (f : gmap Z CustomUser → gmap Z CustomUser) (d : DB) : DB :=
  mkDB (f (users d)) (student d) (professor d) (administrator d).
Definition set_student (f : gmap Z ProfileData → gmap Z ProfileData) (d : DB) : DB :=
  mkDB (users d) (f (student d)) (professor d) (administrator d).
Definition set_professor (f : gmap Z ProfileData → gmap Z ProfileData) (d : DB) : DB :=
  mkDB (users d) (student d) (f (professor d)) (administrator d).
Definition set_administrator (f : gmap Z ProfileData → gmap Z ProfileData) (d : DB) : DB :=
  mkDB (users d) (student d) (professor d) (f (administrator d)).

Definition add_message (m : Message) (w : World) : World :=
  mkWorld (db w) (messages w ++ [m]).

(** [with transaction.atomic(): body]: the tables are restored when the
    body raises; any other way out of the block, a [return] included,
    commits. *)
Definition atomic {A} (body : DB → Res A * DB) (d : DB) : Res A * DB :=
  match body d with
  | (Ok a, d') => (Ok a, d')
  | (Raise e, _) => (Raise e, d)
  end.

(** [profile.save()] of a fresh profile instance for user [k]: an insert,
    refused by the one-to-one constraint when the user has a row. *)
Definition save_profile (k : Z) (p : ProfileData)
    (tbl : gmap Z ProfileData) : Res (gmap Z ProfileData) :=
  match tbl !! k with
  | Some _ => Raise IntegrityError
  | None => Ok (<[k := p]> tbl)
  end.

Definition form_invalid : Response := Render "users/user_form.html".
Definition success_url : string := "users:user-list".

(** The three [if getattr(user, ..., None): ....delete()] statements. *)
Definition delete_profiles (k : Z) (d : DB) : DB :=
  set_administrator (delete k) (set_professor (delete k) (set_student (delete k) d)).

(** The body of the [with transaction.atomic()] block of
    [UserUpdateView.form_valid].  [Some r]: the block is left by
    [return r]; [None]: it runs to its end. *)
Definition form_valid_block (rq : Request) (d : DB) : Res (option Response) * DB :=
  let d1 := set_users <[pk rq := form rq]> d in
  let k := pk rq in
  match role (form rq) with
  | STUDENT =>
      match StudentProfileForm rq with
      | Some p =>
          match save_profile k p (student d1) with
          | Ok t => (Ok None, set_student (λ _, t) d1)
          | Raise e => (Raise e, d1)
          end
      | None => (Ok (Some form_invalid), d1)
      end
  | PROFESSOR =>
      match ProfessorProfileForm rq with
      | Some p =>
          match save_profile k p (professor d1) with
          | Ok t => (Ok None, set_professor (λ _, t) d1)
          | Raise e => (Raise e, d1)
          end
      | None => (Ok (Some form_invalid), d1)
      end
  | ADMIN =>
      match AdministratorProfileForm rq with
      | Some p =>
          match save_profile k p (administrator d1) with
          | Ok t => (Ok None, set_administrator (λ _, t) d1)
          | Raise e => (Raise e, d1)
          end
      | None => (Ok (Some form_invalid), d1)
      end
  end.

(** [UserUpdateView.form_valid] *)
Definition form_valid (rq : Request) (w : World) : Res Response * World :=
  match users (db w) !! pk rq with
  | None => (Raise Http404, w)
  | Some user =>
      let w1 :=
        if decide (role (form rq) ≠ role user) then
          add_message
            (INFO, "El perfil anterior ha sido eliminado debido al cambio de rol.")
            (mkWorld (delete_profiles (pk rq) (db w)) (messages w))
        else w in
      match atomic (form_valid_block rq) (db w1) with
      | (Raise e, d) => (Raise e, mkWorld d (messages w1))
      | (Ok (Some r), d) => (Ok r, mkWorld d (messages w1))
      | (Ok None, d) =>
          (Ok (Redirect success_url),
           add_message (SUCCESS, "Usuario actualizado correctamente.")
             (mkWorld d (messages w1)))
      end
  end.

(** The profile table a role selects, and whether user [k] has the
    profile of role [r] / any profile of another role. *)
Definition profile_table (r : Role) (d : DB) : gmap Z ProfileData :=
  match r with
  | STUDENT => student d
  | PROFESSOR => professor d
  | ADMIN => administrator d
  end.

Definition profile_form (r : Role) (rq : Request) : option ProfileData :=
  match r with
  | STUDENT => StudentProfileForm rq
  | PROFESSOR => ProfessorProfileForm rq
  | ADMIN => AdministratorProfileForm rq
  end.

Definition has_profile (r : Role) (k : Z) (d : DB) : bool :=
  bool_decide (is_Some (profile_table r d !! k)).

(** A stored state and an update request used to exercise the view: user 7
    is a student with a student profile; the request changes the role to
    PROFESSOR and its professor profile form does not validate. *)
Definition student_7 : World :=
  mkWorld
    (mkDB {[ 7 := mkUser STUDENT "Ana" "Paz" "30111222" ]}
          {[ 7 := [("student_id", "L-100")] ]} ∅ ∅)
    [].

Definition to_professor_invalid : Request :=
  mkRequest 7 (mkUser PROFESSOR "Ana" "Paz" "30111222") None None None.

(** The same change with a professor profile form that validates. *)
Definition to_professor_valid : Request :=
  mkRequest 7 (mkUser PROFESSOR "Ana" "Paz" "30111222")
    None (Some [("degree", "Lic.")]) None.

End Profiles.

(** ** Professor assignment ([assign_subject_professors],
       [assign_final_professors]) *)

Module Assignments.

(** The Python values that meet in the two sets the views subtract:
    [request.POST.getlist] yields [str] objects, [values_list("pk")]
    yields the stored keys as the key field's Python type. *)
Inductive PyVal :=
  | PyInt (n : Z)
  | PyStr (s : string).

#[global] Instance PyVal_eq_dec : EqDecision PyVal.
Proof. solve_decision. Defined.

#[global] Instance PyVal_countable : Countable PyVal :=
  inj_countable'
    (λ v, match v with PyInt n => inl n | PyStr s => inr s end)
    (λ x, match x with inl n => PyInt n | inr s => PyStr s end)
    (λ v, match v with PyInt _ => eq_refl | PyStr _ => eq_refl end).

Record Subject := mkSubject {
  subject_pk : Z;
  code : string
}.

Record FinalExam := mkFinalExam {
  final_pk : Z
}.

(** [Professor] rows are represented by their primary key, as stored.
    The many-to-many relations are their through tables: pairs of an
    entity key and a professor key. *)
Record DB := mkDB {
  subjects : list Subject;
  finals : list FinalExam;
  professors : gset PyVal;
  subject_professors : gset (Z * PyVal);
  final_professors : gset (Z * PyVal)
}.

Record World := mkWorld {
  db : DB;
  messages : list Message
}.

Record Request := mkRequest {
  user : option Role;
  method : Method;
  POST_professors : list string
}.

(** [is_admin]: [None] is the anonymous user. *)
Definition is_admin (u : option Role) : bool :=
  match u with
  | Some ADMIN => true
  | _ => false
  end.

Definition add_message (m : Message) (w : World) : World :=
  mkWorld (db w) (messages w ++ [m]).

Definition set_subject_professors (r : gset (Z * PyVal)) (d : DB) : DB :=
  mkDB (subjects d) (finals d) (professors d) r (final_professors d).
Definition set_final_professors (r : gset (Z * PyVal)) (d : DB) : DB :=
  mkDB (subjects d) (finals d) (professors d) (subject_professors d) r.

(** [with transaction.atomic()] *)
Definition atomic {A} (body : DB → Res A * DB) (d : DB) : Res A * DB :=
  match body d with
  | (Ok a, d') => (Ok a, d')
  | (Raise e, _) => (Raise e, d)
  end.

(** [entity.professors.values_list("pk", flat=True)] on a through table *)
Definition values_list_pk (e : Z) (rel : gset (Z * PyVal)) : gset PyVal :=
  set_map snd (filter (λ x, x.1 = e) rel).

Section KeyField.

(** The [Professor] model is declared outside these sources: the
    conversion its key field applies to a value handed to the ORM
    ([get_prep_value]) is a parameter.  [None]: the conversion raises. *)
Variable get_prep_value : PyVal → option PyVal.

(** The keys a call [add( *objs )] or [remove( *objs )] refers to. *)
Definition target_ids (objs : gset PyVal) : option (gset PyVal) :=
  if decide (set_Forall (λ v, is_Some (get_prep_value v)) objs)
  then Some (set_omap get_prep_value objs)
  else None.

(** [entity.professors.add( *objs )]: links that exist are kept, the
    others are inserted; a key without a [Professor] row violates the
    foreign key. *)
Definition m2m_add (e : Z) (objs : gset PyVal) (profs : gset PyVal)
    (rel : gset (Z * PyVal)) : Res (gset (Z * PyVal)) :=
  match target_ids objs with
  | None => Raise ValueError
  | Some ids =>
      if decide (ids ⊆ profs)
      then Ok (rel ∪ set_map (λ p, (e, p)) ids)
      else Raise IntegrityError
  end.

(** [entity.professors.remove( *objs )] *)
Definition m2m_remove (e : Z) (objs : gset PyVal)
    (rel : gset (Z * PyVal)) : Res (gset (Z * PyVal)) :=
  match target_ids objs with
  | None => Raise ValueError
  | Some ids => Ok (rel ∖ set_map (λ p, (e, p)) ids)
  end.

(** The [if to_add: add; if to_remove: remove] pair on a through table *)
Definition apply_diff (e : Z) (to_add to_remove : gset PyVal)
    (profs : gset PyVal) (rel : gset (Z * PyVal)) : Res (gset (Z * PyVal)) :=
  match (if decide (to_add ≠ ∅) then m2m_add e to_add profs rel else Ok rel) with
  | Raise x => Raise x
  | Ok rel1 =>
      if decide (to_remove ≠ ∅) then m2m_remove e to_remove rel1 else Ok rel1
  end.

(** [assign_subject_professors(request, code)] *)
Definition assign_subject_professors (rq : Request) (c : string) (w : World)
    : Res Response * World :=
  if negb (is_admin (user rq)) then (Ok LoginRedirect, w) else
  match get_object_or_404 (filter (λ s, code s = c) (subjects (db w))) with
  | Raise x => (Raise x, w)
  | Ok subject =>
      match method rq with
      | POST =>
          let selected_ids : gset PyVal := list_to_set (PyStr <$> POST_professors rq) in
          let current_ids : gset PyVal :=
            values_list_pk (subject_pk subject) (subject_professors (db w)) in
          let to_add := selected_ids ∖ current_ids in
          let to_remove := current_ids ∖ selected_ids in
          if decide (to_add ≠ ∅ ∨ to_remove ≠ ∅) then
            match atomic (λ d,
                    match apply_diff (subject_pk subject) to_add to_remove
                            (professors d) (subject_professors d) with
                    | Ok r => (Ok (), set_subject_professors r d)
                    | Raise x => (Raise x, d)
                    end) (db w) with
            | (Raise x, d) => (Raise x, mkWorld d (messages w))
            | (Ok _, d) =>
                (Ok (Redirect "users:subject-list"),
                 add_message (SUCCESS, "Asignaciones actualizadas correctamente.")
                   (mkWorld d (messages w)))
            end
          else
            (Ok (Redirect "users:subject-list"),
             add_message (INFO, "No hubo cambios en las asignaciones.") w)
      | GET => (Ok (Render "users/assign_professors.html"), w)
      end
  end.

(** [assign_final_professors(request, pk)] *)
Definition assign_final_professors (rq : Request) (pk : Z) (w : World)
    : Res Response * World :=
  if negb (is_admin (user rq)) then (Ok LoginRedirect, w) else
  match get_object_or_404 (filter (λ f, final_pk f = pk) (finals (db w))) with
  | Raise x => (Raise x, w)
  | Ok final =>
      match method rq with
      | POST =>
          let selected_ids : gset PyVal := list_to_set (PyStr <$> POST_professors rq) in
          let current_ids : gset PyVal :=
            values_list_pk (final_pk final) (final_professors (db w)) in
          let to_add := selected_ids ∖ current_ids in
          let to_remove := current_ids ∖ selected_ids in
          if decide (to_add ≠ ∅ ∨ to_remove ≠ ∅) then
            match atomic (λ d,
                    match apply_diff (final_pk final) to_add to_remove
                            (professors d) (final_professors d) with
                    | Ok r => (Ok (), set_final_professors r d)
                    | Raise x => (Raise x, d)
                    end) (db w) with
            | (Raise x, d) => (Raise x, mkWorld d (messages w))
            | (Ok _, d) =>
                (Ok (Redirect "users:final-list"),
                 add_message (SUCCESS, "Asignaciones del final actualizadas correctamente.")
                   (mkWorld d (messages w)))
            end
          else
            (Ok (Redirect "users:final-list"),
             add_message (INFO, "No hubo cambios en las asignaciones.") w)
      | GET => (Ok (Render "users/assign_professors.html"), w)
      end
  end.

End KeyField.

(** Reading a non-empty run of the digits 0 to 9: what the route converter
    [<int:...>] accepts (its pattern is [[0-9]+]) before it calls [int]. *)
Definition digit_of (a : Ascii.ascii) : option Z :=
  let n := Z.of_nat (Ascii.nat_of_ascii a) in
  if decide (48 ≤ n ≤ 57)%Z then Some (n - 48) else None.

Fixpoint int_digits (acc : Z) (s : string) : option Z :=
  match s with
  | EmptyString => Some acc
  | String a s' =>
      match digit_of a with
      | Some d => int_digits (10 * acc + d) s'
      | None => None
      end
  end.

Definition int_of_str (s : string) : option Z :=
  match s with
  | EmptyString => None
  | _ => int_digits 0 s
  end.

(** [int(s)] of Python on a string of ASCII characters: blanks around the
    numeral are dropped, a sign may come first, and single underscores may
    stand between digits; anything else is a [ValueError] ([None]).
    Digits outside ASCII, which [int] reads as well, are not modelled. *)
Definition is_space (a : Ascii.ascii) : bool :=
  let n := Z.of_nat (Ascii.nat_of_ascii a) in
  bool_decide (9 ≤ n ≤ 13 ∨ 28 ≤ n ≤ 32)%Z.

Fixpoint lstrip (s : string) : string :=
  match s with
  | EmptyString => EmptyString
  | String a s' => if is_space a then lstrip s' else s
  end.

Definition strip (s : string) : string :=
  String.rev (lstrip (String.rev (lstrip s))).

(** The digits of a numeral; [after_digit] tells whether the character
    before was a digit, which is where an underscore or the end may come. *)
Fixpoint int_body (after_digit : bool) (acc : Z) (s : string) : option Z :=
  match s with
  | EmptyString => if after_digit then Some acc else None
  | String a s' =>
      match digit_of a with
      | Some d => int_body true (10 * acc + d) s'
      | None =>
          if bool_decide (a = Ascii.ascii_of_nat 95) && after_digit
          then int_body false acc s'
          else None
      end
  end.

Definition python_int (s : string) : option Z :=
  match strip s with
  | String a rest =>
      if bool_decide (a = Ascii.ascii_of_nat 43) then int_body false 0 rest
      else if bool_decide (a = Ascii.ascii_of_nat 45) then Z.opp <$> int_body false 0 rest
      else int_body false 0 (String a rest)
  | EmptyString => None
  end.

(** [get_prep_value] of an integer key field: [int(value)] *)
Definition int_prep_value (v : PyVal) : option PyVal :=
  match v with
  | PyInt n => Some (PyInt n)
  | PyStr s => PyInt <$> python_int s
  end.

(** [get_prep_value] of a character key field *)
Definition char_prep_value (v : PyVal) : option PyVal :=
  match v with
  | PyStr s => Some (PyStr s)
  | PyInt n => Some (PyStr (pretty n))
  end.

(** The state of the specification's example, on integer keys: professors
    1, 2 and 3 exist, professors 1 and 2 are assigned to subject 10 (code
    MAT1) and to final exam 20; the administrator posts the selection 2, 3. *)
Definition two_assigned : World :=
  mkWorld
    (mkDB [mkSubject 10 "MAT1"] [mkFinalExam 20]
          {[PyInt 1; PyInt 2; PyInt 3]}
          {[(10, PyInt 1); (10, PyInt 2)]}
          {[(20, PyInt 1); (20, PyInt 2)]})
    [].

Definition post_2_3 : Request := mkRequest (Some ADMIN) POST ["2"; "3"].

(** The same example on character keys. *)
Definition two_assigned_char : World :=
  mkWorld
    (mkDB [mkSubject 10 "MAT1"] [mkFinalExam 20]
          {[PyStr "1"; PyStr "2"; PyStr "3"]}
          {[(10, PyStr "1"); (10, PyStr "2")]}
          {[(20, PyStr "1"); (20, PyStr "2")]})
    [].

End Assignments.


(** ** The route table ([users/urls.py]) *)

Module Urls.

(** A route of [path()], cut at its slashes: literal segments and the
    converters [<int:name>] and [<str:name>].  Every route of the table
    ends with a slash, which is left implicit. *)
Inductive Segment :=
  | Lit (s : string)
  | IntConv (name : string)
  | StrConv (name : string).

Record Route := mkRoute {
  pattern : list Segment;
  view : string;
  name : string
}.

#[global] Instance Segment_eq_dec : EqDecision Segment.
Proof. solve_decision. Defined.
#[global] Instance Route_eq_dec : EqDecision Route.
Proof. solve_decision. Defined.

Definition app_name : string := "users".

(** [urlpatterns] *)
Definition urlpatterns : list Route := [
  mkRoute [Lit "admin"; Lit "dashboard"] "admin_dashboard" "admin-dashboard";
  mkRoute [Lit "admin"; Lit "users"] "UserListView" "user-list";
  mkRoute [Lit "admin"; Lit "users"; Lit "create"] "UserCreateView" "user-create";
  mkRoute [Lit "admin"; Lit "users"; IntConv "pk"; Lit "edit"] "UserUpdateView" "user-edit";
  mkRoute [Lit "admin"; Lit "users"; IntConv "pk"; Lit "delete"]
    "UserDeleteView" "user-delete";

  mkRoute [Lit "admin"; Lit "faculties"] "FacultyListView" "faculty-list";
  mkRoute [Lit "admin"; Lit "faculties"; Lit "create"] "FacultyCreateView" "faculty-create";
  mkRoute [Lit "admin"; Lit "faculties"; StrConv "code"; Lit "edit"]
    "FacultyUpdateView" "faculty-edit";
  mkRoute [Lit "admin"; Lit "faculties"; StrConv "code"; Lit "delete"]
    "FacultyDeleteView" "faculty-delete";

  mkRoute [Lit "admin"; Lit "careers"] "CareerListView" "career-list";
  mkRoute [Lit "admin"; Lit "careers"; Lit "create"] "CareerCreateView" "career-create";
  mkRoute [Lit "admin"; Lit "careers"; StrConv "code"; Lit "edit"]
    "CareerUpdateView" "career-edit";
  mkRoute [Lit "admin"; Lit "careers"; StrConv "code"; Lit "delete"]
    "CareerDeleteView" "career-delete";

  mkRoute [Lit "admin"; Lit "subjects"] "SubjectListView" "subject-list";
  mkRoute [Lit "admin"; Lit "subjects"; Lit "create"] "SubjectCreateView" "subject-create";
  mkRoute [Lit "admin"; Lit "subjects"; StrConv "code"; Lit "edit"]
    "SubjectUpdateView" "subject-edit";
  mkRoute [Lit "admin"; Lit "subjects"; StrConv "code"; Lit "delete"]
    "SubjectDeleteView" "subject-delete";
  mkRoute [Lit "admin"; Lit "subjects"; StrConv "code"; Lit "assign-professors"]
    "assign_subject_professors" "assign-subject-professors";

  mkRoute [Lit "admin"; Lit "finals"] "FinalExamListView" "final-list";
  mkRoute [Lit "admin"; Lit "finals"; Lit "create"] "FinalExamCreateView" "final-create";
  mkRoute [Lit "admin"; Lit "finals"; IntConv "pk"; Lit "edit"]
    "FinalExamUpdateView" "final-edit";
  mkRoute [Lit "admin"; Lit "finals"; IntConv "pk"; Lit "delete"]
    "FinalExamDeleteView" "final-delete";
  mkRoute [Lit "admin"; Lit "finals"; IntConv "pk"; Lit "assign-professors"]
    "assign_final_professors" "assign-final-professors";

  mkRoute [Lit "student"; Lit "dashboard"] "student_dashboard" "student-dashboard";
  mkRoute [Lit "student"; Lit "subject"; StrConv "subject_code"; Lit "inscribe"]
    "subject_inscribe" "subject-inscribe";
  mkRoute [Lit "student"; Lit "final"; IntConv "final_exam_id"; Lit "inscribe"]
    "final_exam_inscribe" "final-inscribe";
  mkRoute [Lit "student"; Lit "certificate"; Lit "regular"]
    "download_regular_certificate" "student-regular-certificate";

  mkRoute [Lit "student"; StrConv "student_id"; Lit "file"; Lit "docx"]
    "StudentFileDocxView" "student-file-docx";
  mkRoute [Lit "student"; StrConv "student_id"; Lit "file"; Lit "json"]
    "StudentFileJSONView" "student-file-json";

  mkRoute [Lit "professor"; Lit "dashboard"] "professor_dashboard" "professor-dashboard";
  mkRoute [Lit "professor"; Lit "grades"; StrConv "subject_code"] "grade_list" "grade-list";
  mkRoute [Lit "professor"; Lit "grade"; IntConv "pk"; Lit "edit"] "grade_edit" "grade-edit";
  mkRoute [Lit "professor"; Lit "final"; IntConv "final_exam_id"; Lit "inscriptions"]
    "professor_final_inscriptions" "professor-final-inscriptions"
].

(** A captured argument, as its converter hands it to the view; also a
    keyword argument given to [reverse]. *)
Inductive Arg :=
  | ArgInt (n : Z)
  | ArgStr (s : string).

#[global] Instance Arg_eq_dec : EqDecision Arg.
Proof. solve_decision. Defined.

Definition slash : Ascii.ascii := Ascii.ascii_of_nat 47.

(** A request path cut at its slashes: ["a/b/"] gives [a], [b] and the
    empty rest after the last slash. *)
Fixpoint segments (path : string) : list string :=
  match path with
  | EmptyString => [""]
  | String c rest =>
      if decide (c = slash) then "" :: segments rest
      else match segments rest with
           | s :: ss => String c s :: ss
           | [] => [String c ""]
           end
  end.

(** Matching a route against the segments of a path.  [<int:...>] takes a
    non-empty run of digits and converts it with [int]; [<str:...>] takes
    any non-empty segment; the route's final slash must end the path. *)
Fixpoint match_segments (p : list Segment) (segs : list string)
    : option (list (string * Arg)) :=
  match p, segs with
  | [], [s] => if decide (s = "") then Some [] else None
  | Lit l :: p', s :: segs' =>
      if decide (l = s) then match_segments p' segs' else None
  | IntConv n :: p', s :: segs' =>
      match Assignments.int_of_str s with
      | Some z => ((n, ArgInt z) ::.) <$> match_segments p' segs'
      | None => None
      end
  | StrConv n :: p', s :: segs' =>
      if decide (s = "") then None
      else ((n, ArgStr s) ::.) <$> match_segments p' segs'
  | _, _ => None
  end.

Definition match_route (r : Route) (path : string) : option (list (string * Arg)) :=
  match_segments (pattern r) (segments path).

(** [resolve]: the first route of the table that matches. *)
Fixpoint resolve_in (rs : list Route) (path : string)
    : option (Route * list (string * Arg)) :=
  match rs with
  | [] => None
  | r :: rs' =>
      match match_route r path with
      | Some kwargs => Some (r, kwargs)
      | None => resolve_in rs' path
      end
  end.

Definition resolve (path : string) : option (Route * list (string * Arg)) :=
  resolve_in urlpatterns path.

(** Whether two routes can match one path, read off their segments. *)
Definition segment_overlap (a b : Segment) : bool :=
  match a, b with
  | Lit x, Lit y => bool_decide (x = y)
  | Lit x, IntConv _ | IntConv _, Lit x => bool_decide (is_Some (Assignments.int_of_str x))
  | Lit x, StrConv _ | StrConv _, Lit x => bool_decide (x ≠ "")
  | _, _ => true
  end.

Fixpoint overlap (p q : list Segment) : bool :=
  match p, q with
  | [], [] => true
  | a :: p', b :: q' => segment_overlap a b && overlap p' q'
  | _, _ => false
  end.

(** *** [reverse]

    Paths are taken relative to the place where the project includes the
    application's table under the namespace [users]. *)

Definition full_name (r : Route) : string := app_name +:+ ":" +:+ name r.

(** The names of the parameters of a route. *)
Definition params (p : list Segment) : list string :=
  omap (λ s, match s with
             | Lit _ => None
             | IntConv n | StrConv n => Some n
             end) p.

(** [to_url] of both converters is [str(value)]. *)
Definition to_url (a : Arg) : string :=
  match a with
  | ArgInt n => pretty n
  | ArgStr s => s
  end.

Definition kwargs_get (n : string) (kwargs : list (string * Arg)) : option Arg :=
  snd <$> find (λ kv, bool_decide (kv.1 = n)) kwargs.

(** The path a route offers for keyword arguments: its segments, each
    converter replaced by the text of the argument of its name. *)
Fixpoint candidate (p : list Segment) (kwargs : list (string * Arg)) : option string :=
  match p with
  | [] => Some ""
  | Lit l :: p' => (λ rest, l +:+ "/" +:+ rest) <$> candidate p' kwargs
  | IntConv n :: p' | StrConv n :: p' =>
      match kwargs_get n kwargs with
      | Some a => (λ rest, to_url a +:+ "/" +:+ rest) <$> candidate p' kwargs
      | None => None
      end
  end.

(** A route is a possibility for [reverse] when the keywords are exactly
    its parameters and the candidate path matches the route's own
    pattern, which it does not when an argument is empty or holds a
    slash. *)
Definition reverse_route (r : Route) (kwargs : list (string * Arg)) : option string :=
  if forallb (λ k, bool_decide (k ∈ params (pattern r))) kwargs.*1
     && forallb (λ n, bool_decide (n ∈ kwargs.*1)) (params (pattern r))
  then
    match candidate (pattern r) kwargs with
    | Some path =>
        match match_route r path with
        | Some _ => Some path
        | None => None
        end
    | None => None
    end
  else None.

(** [reverse(target, kwargs=kwargs)]: the path of the route with that
    name ([None]: [NoReverseMatch]).  The names of the table are unique. *)
Definition reverse (target : string) (kwargs : list (string * Arg)) : option string :=
  match find (λ r, bool_decide (target = full_name r)) urlpatterns with
  | Some r => reverse_route r kwargs
  | None => None
  end.

(** The route of the grade list, the one the views redirect to with an
    argument. *)
Definition grade_list_route : Route :=
  mkRoute [Lit "professor"; Lit "grades"; StrConv "subject_code"] "grade_list" "grade-list".

(** A string that can stand for a [<str:...>] parameter: not empty, and
    without a slash. *)
Fixpoint no_slash (s : string) : bool :=
  match s with
  | EmptyString => true
  | String c rest => negb (bool_decide (c = slash)) && no_slash rest
  end.

Definition url_segment (s : string) : Prop := s ≠ "" ∧ no_slash s = true.

#[global] Instance url_segment_dec s : Decision (url_segment s).
Proof. unfold url_segment. apply _. Defined.

(** Whether a target with its arguments leads back to itself: [reverse]
    gives a path, and the path resolves to the route of that name with
    the same arguments. *)
Definition round_trip (target : string) (kwargs : list (string * Arg)) : bool :=
  match reverse target kwargs with
  | Some path =>
      match resolve path with
      | Some (r, k) => bool_decide (target = full_name r ∧ k = kwargs)
      | None => false
      end
  | None => false
  end.

(** Whether the target of a redirect a view returns leads somewhere: the
    round trip through this table, or the name [home], which the project
    declares outside the application.  The one keyword the views pass to
    [redirect] is [subject_code]. *)
Definition redirect_resolves (r : Response) : bool :=
  match r with
  | Redirect target => bool_decide (target = "home") || round_trip target []
  | RedirectArg target arg => round_trip target [("subject_code", ArgStr arg)]
  | _ => true
  end.

End Urls.

(** ** Enrollment and grades ([subject_inscribe], [final_exam_inscribe],
       [grade_list], [grade_edit]) *)

Module Academics.

Record Subject := mkSubject {
  subject_id : Z;
  code : string;
  career : Z
}.

(** [subject]: the foreign key to [Subject] *)
Record FinalExam := mkFinalExam {
  final_id : Z;
  subject : Z
}.

Record Student := mkStudent {
  student_pk : Z;
  student_career : Z
}.

Record SubjectInscription := mkSubjectInscription {
  si_id : Z;
  si_student : Z;
  si_subject : Z
}.

(** [fields]: the columns of a grade other than its keys and its status
    (the scores), by column name. *)
Record Grade := mkGrade {
  grade_id : Z;
  grade_student : Z;
  grade_subject : Z;
  status : string;
  fields : list (string * string)
}.

Record FinalExamInscription := mkFinalExamInscription {
  fi_id : Z;
  fi_student : Z;
  fi_final_exam : Z
}.

#[global] Instance Subject_eq_dec : EqDecision Subject.
Proof. solve_decision. Defined.
#[global] Instance FinalExam_eq_dec : EqDecision FinalExam.
Proof. solve_decision. Defined.
#[global] Instance SubjectInscription_eq_dec : EqDecision SubjectInscription.
Proof. solve_decision. Defined.
#[global] Instance Grade_eq_dec : EqDecision Grade.
Proof. solve_decision. Defined.
#[global] Instance FinalExamInscription_eq_dec : EqDecision FinalExamInscription.
Proof. solve_decision. Defined.

(** [subject_professors]: the through table of [Subject.professors], pairs
    of a subject key and a professor key. *)
Record DB := mkDB {
  subjects : list Subject;
  final_exams : list FinalExam;
  subject_inscriptions : list SubjectInscription;
  grades : list Grade;
  final_exam_inscriptions : list FinalExamInscription;
  subject_professors : gset (Z * Z)
}.

(** The writes a view issues, in order. *)
Inductive Call :=
  | CreateSubjectInscription (r : SubjectInscription)
  | CreateGrade (g : Grade)
  | CreateFinalExamInscription (r : FinalExamInscription)
  | BulkCreateGrade (gs : list Grade)
  | SaveGrade (g : Grade)
  | UpdateStatus (g : Grade).

Record World := mkWorld {
  db : DB;
  messages : list Message;
  calls : list Call
}.

(** [request.user]: the role, and the profile rows reachable from the user
    ([None]: the reverse one-to-one accessor raises). *)
Record User := mkUser {
  role : Role;
  student : option Student;
  professor : option Z
}.

(** [user]: [None] is the anonymous user. *)
Record Request := mkRequest {
  user : option User;
  method : Method;
  POST_data : list (string * string)
}.

(** What [GradeForm(request.POST, instance=grade)] exposes once bound:
    its validity, the names of the fields whose submitted value differs
    from the instance's, and the status and score columns of the instance
    after the cleaned data has been written to it by [form.save()].  The
    form is declared outside these sources; it is taken to edit the
    status and the scores of a grade, as the specification describes a
    grade edit, and not the student or the subject the grade belongs to. *)
Record BoundForm := mkBoundForm {
  is_valid : bool;
  changed_data : list string;
  cleaned_status : string;
  cleaned_fields : list (string * string)
}.

Definition is_student (u : option User) : bool :=
  match u with
  | Some x => bool_decide (role x = STUDENT)
  | None => false
  end.

Definition is_professor (u : option User) : bool :=
  match u with
  | Some x => bool_decide (role x = PROFESSOR)
  | None => false
  end.

(** *** The view monad: a store, exceptions *)

Definition M (A : Type) : Type := World → Res A * World.

Definition ret {A} (a : A) : M A := λ w, (Ok a, w).
Definition raise {A} (e : Exc) : M A := λ w, (Raise e, w).
Definition lift {A} (r : Res A) : M A := λ w, (r, w).
Definition bind {A B} (m : M A) (k : A → M B) : M B :=
  λ w, match m w with
       | (Ok a, w') => k a w'
       | (Raise e, w') => (Raise e, w')
       end.

Notation "'do' x <- m ; k" := (bind m (λ x, k))
  (at level 20, x pattern, m at level 100, k at level 200, only parsing).
Notation "m ;; k" := (bind m (λ _, k))
  (at level 100, k at level 200, right associativity, only parsing).

Definition query {A} (f : DB → A) : M A := λ w, (Ok (f (db w)), w).

Definition message (l : Level) (s : string) : M unit :=
  λ w, (Ok (), mkWorld (db w) (messages w ++ [(l, s)]) (calls w)).

Definition write (f : DB → DB) (c : Call) : M unit :=
  λ w, (Ok (), mkWorld (f (db w)) (messages w) (calls w ++ [c])).

(** [login_required] and [user_passes_test(test)] around a view: both
    send a user who fails to the login page. *)
Definition user_passes_test (test : option User → bool) (rq : Request)
    (view : M Response) : M Response :=
  if test (user rq) then view else ret LoginRedirect.

(** [request.user.student], [request.user.professor] *)
Definition request_student (rq : Request) : M Student :=
  match user rq with
  | Some u =>
      match student u with
      | Some s => ret s
      | None => raise RelatedObjectDoesNotExist
      end
  | None => raise RelatedObjectDoesNotExist
  end.

Definition request_professor (rq : Request) : M Z :=
  match user rq with
  | Some u =>
      match professor u with
      | Some p => ret p
      | None => raise RelatedObjectDoesNotExist
      end
  | None => raise RelatedObjectDoesNotExist
  end.

(** *** Table updates *)

Definition add_subject_inscription (r : SubjectInscription) (d : DB) : DB :=
  mkDB (subjects d) (final_exams d) (subject_inscriptions d ++ [r]) (grades d)
       (final_exam_inscriptions d) (subject_professors d).

Definition add_grades (gs : list Grade) (d : DB) : DB :=
  mkDB (subjects d) (final_exams d) (subject_inscriptions d) (grades d ++ gs)
       (final_exam_inscriptions d) (subject_professors d).

Definition add_final_exam_inscription (r : FinalExamInscription) (d : DB) : DB :=
  mkDB (subjects d) (final_exams d) (subject_inscriptions d) (grades d)
       (final_exam_inscriptions d ++ [r]) (subject_professors d).

(** [instance.save()] of a stored grade: the row with its key is replaced. *)
Definition store_grade (g : Grade) (d : DB) : DB :=
  mkDB (subjects d) (final_exams d) (subject_inscriptions d)
       ((λ r, if decide (grade_id r = grade_id g) then g else r) <$> grades d)
       (final_exam_inscriptions d) (subject_professors d).

(** The key an insert receives: above every key of the table. *)
Definition next_id (ids : list Z) : Z := 1 + foldr Z.max 0 ids.

(** *** Queries *)

Definition inscriptions_of (st sb : Z) (d : DB) : list SubjectInscription :=
  filter (λ r, si_student r = st ∧ si_subject r = sb) (subject_inscriptions d).

Definition grades_of (st sb : Z) (d : DB) : list Grade :=
  filter (λ g, grade_student g = st ∧ grade_subject g = sb) (grades d).

Definition final_inscriptions_of (st fe : Z) (d : DB) : list FinalExamInscription :=
  filter (λ r, fi_student r = st ∧ fi_final_exam r = fe) (final_exam_inscriptions d).

(** [Subject.objects.filter(code=c, career=k)] *)
Definition subjects_in_career (c : string) (k : Z) (d : DB) : list Subject :=
  filter (λ s, code s = c ∧ career s = k) (subjects d).

(** The career of the subject a final exam points to (the join
    [subject__career]). *)
Definition subject__career (f : FinalExam) (d : DB) : option Z :=
  career <$> head (filter (λ s, subject_id s = subject f) (subjects d)).

(** [FinalExam.objects.filter(pk=i, subject__career=k)] *)
Definition finals_in_career (i : Z) (k : Z) (d : DB) : list FinalExam :=
  filter (λ f, final_id f = i ∧ subject__career f d = Some k) (final_exams d).

(** [.order_by("-id").first()]: the row with the greatest key. *)
Fixpoint latest (gs : list Grade) : option Grade :=
  match gs with
  | [] => None
  | g :: gs' =>
      match latest gs' with
      | None => Some g
      | Some h => if decide (grade_id h < grade_id g)%Z then Some g else Some h
      end
  end.

(** [for sid in missing_ids] over a Python [set] of keys: every element
    once, in an order that follows from the set's hash table and that the
    language leaves open. *)
Record SetIter := mkSetIter {
  iter : gset Z → list Z;
  iter_perm : ∀ X, iter X ≡ₚ elements X
}.

(** [redirect("users:grade-list", subject_code=code)]: the URL is built
    by [reverse], which raises when the code cannot stand in the route. *)
Definition redirect_grade_list (subject_code : string) : M Response :=
  match Urls.reverse "users:grade-list" [("subject_code", Urls.ArgStr subject_code)] with
  | Some _ => ret (RedirectArg "users:grade-list" subject_code)
  | None => raise NoReverseMatch
  end.

Section Model.

(** Declared by [academics.models.Grade] and [academics.forms.GradeForm],
    outside these sources: the status constant the final-exam gate tests,
    the column values a new [Grade(student_id=..., subject=...)] starts
    with, the binding of the grade form to POST data and an instance, and
    the status [Grade.update_status()] leaves on a row.  [set_iter] is the
    order in which the interpreter walks a set. *)
Variable REGULAR : string.
Variable default_status : string.
Variable default_fields : list (string * string).
Variable GradeForm : list (string * string) → Grade → BoundForm.
Variable update_status : Grade → string.
Variable set_iter : SetIter.

(** [SubjectInscription.objects.get_or_create(student=st, subject=sb)] *)
Definition SubjectInscription_get_or_create (st sb : Z) : M (SubjectInscription * bool) :=
  do rows <- query (inscriptions_of st sb);
  match rows with
  | [] =>
      do ids <- query (λ d, si_id <$> subject_inscriptions d);
      let r := mkSubjectInscription (next_id ids) st sb in
      write (add_subject_inscription r) (CreateSubjectInscription r) ;;
      ret (r, true)
  | [r] => ret (r, false)
  | _ :: _ :: _ => raise MultipleObjectsReturned
  end.

(** [Grade.objects.get_or_create(student=st, subject=sb)] *)
Definition Grade_get_or_create (st sb : Z) : M (Grade * bool) :=
  do rows <- query (grades_of st sb);
  match rows with
  | [] =>
      do ids <- query (λ d, grade_id <$> grades d);
      let g := mkGrade (next_id ids) st sb default_status default_fields in
      write (add_grades [g]) (CreateGrade g) ;;
      ret (g, true)
  | [g] => ret (g, false)
  | _ :: _ :: _ => raise MultipleObjectsReturned
  end.

(** [FinalExamInscription.objects.get_or_create(student=st, final_exam=fe)] *)
Definition FinalExamInscription_get_or_create (st fe : Z)
    : M (FinalExamInscription * bool) :=
  do rows <- query (final_inscriptions_of st fe);
  match rows with
  | [] =>
      do ids <- query (λ d, fi_id <$> final_exam_inscriptions d);
      let r := mkFinalExamInscription (next_id ids) st fe in
      write (add_final_exam_inscription r) (CreateFinalExamInscription r) ;;
      ret (r, true)
  | [r] => ret (r, false)
  | _ :: _ :: _ => raise MultipleObjectsReturned
  end.

(** [subject_inscribe(request, subject_code)] *)
Definition subject_inscribe (rq : Request) (subject_code : string) : M Response :=
  user_passes_test is_student rq (
    do student <- request_student rq;
    do rows <- query (subjects_in_career subject_code (student_career student));
    do subject <- lift (get_object_or_404 rows);
    match method rq with
    | POST =>
        do oc <- SubjectInscription_get_or_create (student_pk student) (subject_id subject);
        Grade_get_or_create (student_pk student) (subject_id subject) ;;
        (if oc.2
         then message SUCCESS "Inscripción a la materia realizada."
         else message INFO "Ya estabas inscripto en esta materia.") ;;
        ret (Redirect "users:student-dashboard")
    | GET => ret (Render "users/inscribe_confirm.html")
    end).

(** [final_exam_inscribe(request, final_exam_id)] *)
Definition final_exam_inscribe (rq : Request) (final_exam_id : Z) : M Response :=
  user_passes_test is_student rq (
    do student <- request_student rq;
    do rows <- query (finals_in_career final_exam_id (student_career student));
    do final_exam <- lift (get_object_or_404 rows);
    do grade <- query (λ d, latest (grades_of (student_pk student) (subject final_exam) d));
    if (match grade with
        | None => true
        | Some g => bool_decide (status g ∉ [REGULAR])
        end)
    then
      message ERROR "Solo puedes inscribirte si la materia está regular." ;;
      ret (Redirect "users:student-dashboard")
    else
      match method rq with
      | POST =>
          FinalExamInscription_get_or_create (student_pk student) (final_id final_exam) ;;
          message SUCCESS "Inscripción al final realizada." ;;
          ret (Redirect "users:student-dashboard")
      | GET => ret (Render "users/inscribe_confirm.html")
      end).

(** The sets [grade_list] subtracts. *)
Definition enrolled_student_ids (sb : Z) (d : DB) : gset Z :=
  list_to_set (si_student <$> filter (λ r, si_subject r = sb) (subject_inscriptions d)).

Definition existing_grade_student_ids (sb : Z) (d : DB) : gset Z :=
  list_to_set (grade_student <$> filter (λ g, grade_subject g = sb) (grades d)).

(** [[Grade(student_id=sid, subject=subject) for sid in missing_ids]], with
    the keys the insert gives the rows, from [first] on. *)
Fixpoint new_grades (first : Z) (sb : Z) (sids : list Z) : list Grade :=
  match sids with
  | [] => []
  | sid :: rest =>
      mkGrade first sid sb default_status default_fields
        :: new_grades (first + 1) sb rest
  end.

(** [grade_list(request, subject_code)].  The comprehension walks the set
    [missing_ids] in the order [set_iter] gives; the rows of the batch
    receive their keys in that order. *)
Definition grade_list (rq : Request) (subject_code : string) : M Response :=
  user_passes_test is_professor rq (
    do professor <- request_professor rq;
    do rows <- query (λ d, filter (λ s, code s = subject_code
                                      ∧ (subject_id s, professor) ∈ subject_professors d)
                             (subjects d));
    do subject <- lift (get_object_or_404 rows);
    do enrolled <- query (enrolled_student_ids (subject_id subject));
    do existing <- query (existing_grade_student_ids (subject_id subject));
    let missing_ids := enrolled ∖ existing in
    (if decide (missing_ids ≠ ∅) then
       do ids <- query (λ d, grade_id <$> grades d);
       let gs := new_grades (next_id ids) (subject_id subject)
                   (iter set_iter missing_ids) in
       write (add_grades gs) (BulkCreateGrade gs)
     else ret ()) ;;
    ret (Render "users/grade_list.html")).

(** [grade_edit(request, pk)] *)
Definition grade_edit (rq : Request) (pk : Z) : M Response :=
  user_passes_test is_professor rq (
    do rows <- query (λ d, filter (λ g, grade_id g = pk) (grades d));
    do grade <- lift (get_object_or_404 rows);
    do srows <- query (λ d, filter (λ s, subject_id s = grade_subject grade) (subjects d));
    do grade_subject_row <- lift (qs_get srows);
    do professor <- request_professor rq;
    do assigned <- query (λ d, bool_decide
                                 ((subject_id grade_subject_row, professor)
                                    ∈ subject_professors d));
    if negb assigned then
      message ERROR "No puede editar notas de materias no asignadas." ;;
      ret (Redirect "users:professor-dashboard")
    else
      do inscribed <- query (inscriptions_of (grade_student grade) (grade_subject grade));
      if bool_decide (inscribed = []) then
        message ERROR "Solo puede calificar a estudiantes inscriptos en la materia." ;;
        redirect_grade_list (code grade_subject_row)
      else
        match method rq with
        | POST =>
            let form := GradeForm (POST_data rq) grade in
            if is_valid form then
              let status_was_changed := bool_decide ("status" ∈ changed_data form) in
              let saved := mkGrade (grade_id grade) (grade_student grade)
                             (grade_subject grade) (cleaned_status form)
                             (cleaned_fields form) in
              write (store_grade saved) (SaveGrade saved) ;;
              (if negb status_was_changed then
                 let updated := mkGrade (grade_id saved) (grade_student saved)
                                  (grade_subject saved) (update_status saved)
                                  (fields saved) in
                 write (store_grade updated) (UpdateStatus saved)
               else ret ()) ;;
              redirect_grade_list (code grade_subject_row)
            else ret (Render "users/grade_form.html")
        | GET => ret (Render "users/grade_form.html")
        end).

End Model.

(** *** Notions the statements about the views use *)

(** The store after [n] runs of a view in a row. *)
Fixpoint run_times {A} (n : nat) (view : M A) (w : World) : World :=
  match n with
  | O => w
  | S k => run_times k view (view w).2
  end.

(** The final-exam gate, as a property of the store: the student has no
    grade for the subject, or the most recent one is not REGULAR. *)
Definition ineligible (REGULAR : string) (st sb : Z) (d : DB) : Prop :=
  match latest (grades_of st sb d) with
  | None => True
  | Some g => status g ≠ REGULAR
  end.

#[global] Instance ineligible_dec REGULAR st sb d : Decision (ineligible REGULAR st sb d).
Proof. unfold ineligible. destruct (latest _); apply _. Defined.

(** The most recent of some grades: one of them, with a key that none
    of them exceeds. *)
Definition most_recent (g : Grade) (gs : list Grade) : Prop :=
  g ∈ gs ∧ Forall (λ h, (grade_id h ≤ grade_id g)%Z) gs.

(** The outcome [final_exam_inscribe] gives an ineligible student: back
    to the dashboard with an error message, the tables as they were. *)
Definition IneligibleState (w : World) : Res Response * World :=
  (Ok (Redirect "users:student-dashboard"),
   mkWorld (db w)
     (messages w ++ [(ERROR, "Solo puedes inscribirte si la materia está regular.")])
     (calls w)).

Definition is_redirect (r : Response) : bool :=
  match r with
  | Redirect _ | RedirectArg _ _ => true
  | _ => false
  end.

(** A small institution used to exercise the views.  Career 1 has the
    subjects ALG (key 10) and FIS (key 11), career 2 has QUI (key 12);
    final exam 100 is on ALG, 102 on QUI.  Student 5 of career 1 is
    inscribed in ALG with a REGULAR grade and in FIS without any grade;
    student 6 of career 1 is inscribed in FIS without any grade.
    Professor 50 teaches ALG and FIS. *)
Definition campus : World :=
  mkWorld
    (mkDB [mkSubject 10 "ALG" 1; mkSubject 11 "FIS" 1; mkSubject 12 "QUI" 2]
          [mkFinalExam 100 10; mkFinalExam 102 12]
          [mkSubjectInscription 1 5 10; mkSubjectInscription 2 5 11;
           mkSubjectInscription 3 6 11]
          [mkGrade 1 5 10 "REGULAR" [("nota", "7")]]
          []
          {[(10, 50); (11, 50)]})
    [] [].

Definition student_5 : User := mkUser STUDENT (Some (mkStudent 5 1)) None.
Definition student_6 : User := mkUser STUDENT (Some (mkStudent 6 1)) None.
Definition professor_50 : User := mkUser PROFESSOR None (Some 50).

Definition get_by (u : User) : Request := mkRequest (Some u) GET [].
Definition post_by (u : User) (data : list (string * string)) : Request :=
  mkRequest (Some u) POST data.

(** A grade form with the two fields [nota] and [status]: a field is
    changed when its posted value differs from the instance's. *)
Definition nota_of (fs : list (string * string)) : string :=
  default "" (snd <$> head (filter (λ kv, kv.1 = "nota") fs)).

Definition example_GradeForm (data : list (string * string)) (g : Grade) : BoundForm :=
  let nota := nota_of data in
  let st := default "" (snd <$> head (filter (λ kv, kv.1 = "status") data)) in
  mkBoundForm true
    ((if decide (nota = nota_of (fields g)) then [] else ["nota"])
       ++ (if decide (st = status g) then [] else ["status"]))
    st [("nota", nota)].

(** A status rule for the example: REGULAR from a [nota] of 6 to 9. *)
Definition example_update_status (g : Grade) : string :=
  if bool_decide (nota_of (fields g) ∈ ["6"; "7"; "8"; "9"]) then "REGULAR" else "LIBRE".

(** Two iteration orders for the examples: by rising and by falling key. *)
Definition ascending : SetIter :=
  mkSetIter (λ X, merge_sort Z.le (elements X))
    (λ X, merge_sort_Permutation Z.le (elements X)).

Definition descending : SetIter :=
  mkSetIter (λ X, reverse (merge_sort Z.le (elements X)))
    (λ X, transitivity (reverse_Permutation _) (merge_sort_Permutation Z.le (elements X))).


(** An institution whose one subject has a code with a slash in it:
    student 5 has a grade for it and no inscription; professor 50
    teaches it. *)
Definition slash_campus : World :=
  mkWorld
    (mkDB [mkSubject 10 "A/B" 1] [] []
          [mkGrade 1 5 10 "REGULAR" [("nota", "7")]]
          []
          {[(10, 50)]})
    [] [].

End Academics.

(** ** The student file ([StudentFileService], [StudentFileJSONView]) *)

Module StudentFile.

Record Date := mkDate {
  year : Z;
  month : Z;
  day : Z
}.

Record Faculty := mkFaculty {
  faculty_name : string
}.

Record Career := mkCareer {
  career_name : string;
  faculty : Faculty
}.

Record CustomUser := mkUser {
  first_name : string;
  last_name : string;
  dni : string
}.

(** A [Student] row with the rows [select_related('user',
    'career__faculty')] joins to it.  The model is declared outside these
    sources; as in the data model of the specification, a student has a
    textual institutional id (the route takes it as [<str:student_id>]),
    a career and an enrollment date. *)
Record Student := mkStudent {
  student_id : string;
  user : CustomUser;
  career : Career;
  enrollment_date : Date
}.

Record DB := mkDB {
  students : list Student
}.

(** What [datetime.date] holds: a year from [MINYEAR] = 1 to [MAXYEAR] =
    9999, a month, and a day (the length of the month is not needed
    here). *)
Definition valid_date (d : Date) : Prop :=
  (1 ≤ year d ≤ 9999 ∧ 1 ≤ month d ≤ 12 ∧ 1 ≤ day d ≤ 31)%Z.

Definition digit (n : Z) : Ascii.ascii :=
  Ascii.ascii_of_nat (48 + Z.to_nat (n `mod` 10)).

(** The [w] low decimal digits of [n]: the zero-padded rendering of
    width [w] of a number [0 <= n < 10^w]. *)
Fixpoint zfill (w : nat) (n : Z) : string :=
  match w with
  | O => ""
  | S w' => zfill w' (n `div` 10) +:+ String (digit n) ""
  end.

(** The number of digits of a year of a date. *)
Definition year_width (y : Z) : nat :=
  if decide (y < 10)%Z then 1
  else if decide (y < 100)%Z then 2
  else if decide (y < 1000)%Z then 3
  else 4.

(** [d.strftime("%d/%m/%Y")] with the C library of Linux, which the
    interpreter hands the format to: [%d] and [%m] are padded to two
    digits, [%Y] is the year as a plain decimal number, so a year below
    1000 comes out with fewer than four digits. *)
Definition strftime_dmY (d : Date) : string :=
  zfill 2 (day d) +:+ "/" +:+ zfill 2 (month d) +:+ "/"
    +:+ zfill (year_width (year d)) (year d).

(** Reading a run of decimal digits back, left to right. *)
Fixpoint read_digits (acc : Z) (s : string) : option Z :=
  match s with
  | EmptyString => Some acc
  | String a s' =>
      let n := Z.of_nat (Ascii.nat_of_ascii a) in
      if decide (48 ≤ n ≤ 57)%Z then read_digits (10 * acc + (n - 48)) s' else None
  end.

(** [s] is the date [d] written DD/MM/YYYY: two digits, a slash, two
    digits, a slash, four digits, which read back as the day, the month
    and the year. *)
Definition is_dd_mm_yyyy (s : string) (d : Date) : Prop :=
  ∃ dd mm yyyy,
    s = dd +:+ "/" +:+ mm +:+ "/" +:+ yyyy
    ∧ String.length dd = 2%nat ∧ String.length mm = 2%nat
    ∧ String.length yyyy = 4%nat
    ∧ read_digits 0 dd = Some (day d)
    ∧ read_digits 0 mm = Some (month d)
    ∧ read_digits 0 yyyy = Some (year d).


Section Service.

(** [CustomUser.get_full_name()], declared by the user model outside
    these sources. *)
Variable get_full_name : CustomUser → string.

(** [StudentFileService.get_student_file_data(student_id)]: [Ok None] is
    the [return None] of the [except Student.DoesNotExist] clause. *)
Definition get_student_file_data (sid : string) (d : DB)
    : Res (option (list (string * string))) * DB :=
  match qs_get (filter (λ s, student_id s = sid) (students d)) with
  | Ok student =>
      (Ok (Some [ ("nro_legajo", student_id student);
                  ("apellido_nombre", get_full_name (user student));
                  ("dni", dni (user student));
                  ("facultad_nombre", faculty_name (faculty (career student)));
                  ("carrera_nombre", career_name (career student));
                  ("fecha_inscripcion", strftime_dmY (enrollment_date student)) ]), d)
  | Raise DoesNotExist => (Ok None, d)
  | Raise e => (Raise e, d)
  end.

(** [StudentFileJSONView.get(request, student_id)] *)
Definition StudentFileJSONView_get (sid : string) (d : DB) : Res Response * DB :=
  match get_student_file_data sid d with
  | (Raise e, d') => (Raise e, d')
  | (Ok None, d') | (Ok (Some []), d') =>
      (Ok (JsonResponse 404 [("error", "Ficha de Alumno no encontrada.")]), d')
  | (Ok (Some student_data), d') => (Ok (JsonResponse 200 student_data), d')
  end.

End Service.

(** [AbstractUser.get_full_name()] of Django, for the examples: the first
    and the last name with a blank between them (its final [strip()]
    changes nothing when both are present). *)
Definition django_get_full_name (u : CustomUser) : string :=
  first_name u +:+ " " +:+ last_name u.


(** A registry whose student has an enrollment date in the year 999. *)
Definition old_registry : DB :=
  mkDB [mkStudent "L-1" (mkUser "Ana" "Paz" "30111222")
          (mkCareer "Ingeniería en Sistemas" (mkFaculty "Facultad Regional"))
          (mkDate 999 12 31)].

End StudentFile.

(** ** Creating a user with its profile ([UserCreateView]) *)

Module UserCreateView.
Import Profiles.

(** A creation request once [UserForm] has validated.  [POST_role] is
    [request.POST.get("role")] as the view compares it with the three role
    constants ([None]: it equals none of them); [user_form] holds the
    cleaned user fields; each profile form is what it yields when bound to
    the POST data ([None]: [is_valid()] is false). *)
Record Request := mkRequest {
  POST_role : option Role;
  user_form : CustomUser;
  StudentProfileForm : option ProfileData;
  ProfessorProfileForm : option ProfileData;
  AdministratorProfileForm : option ProfileData
}.

(** The key [user_form.save()] gives the inserted row: above every key
    of the table. *)
Definition new_pk (us : gmap Z CustomUser) : Z :=
  1 + foldr Z.max 0 (map_to_list us).*1.

Definition set_profile_table (r : Role) (t : gmap Z ProfileData) (d : DB) : DB :=
  match r with
  | STUDENT => set_student (λ _, t) d
  | PROFESSOR => set_professor (λ _, t) d
  | ADMIN => set_administrator (λ _, t) d
  end.

(** The [profile_form] variable of the view: [None] when no branch of the
    [if]/[elif] chain assigned it, else the selected role with what its
    form yields. *)
Definition selected_form (rq : Request) : option (Role * option ProfileData) :=
  match POST_role rq with
  | Some STUDENT => Some (STUDENT, StudentProfileForm rq)
  | Some PROFESSOR => Some (PROFESSOR, ProfessorProfileForm rq)
  | Some ADMIN => Some (ADMIN, AdministratorProfileForm rq)
  | None => None
  end.

(** The body of the [with transaction.atomic()] block. *)
Definition form_valid_block (rq : Request) (d : DB) : Res unit * DB :=
  let k := new_pk (users d) in
  let d1 := set_users <[k := user_form rq]> d in
  match selected_form rq with
  | Some (r, Some p) =>
      match save_profile k p (profile_table r d1) with
      | Ok t => (Ok (), set_profile_table r t d1)
      | Raise e => (Raise e, d1)
      end
  | _ => (Ok (), d1)
  end.

(** [UserCreateView.form_valid] *)
Definition form_valid (rq : Request) (w : World) : Res Response * World :=
  match selected_form rq with
  | Some (_, None) => (Ok form_invalid, w)
  | _ =>
      match atomic (form_valid_block rq) (db w) with
      | (Raise e, d) => (Raise e, mkWorld d (messages w))
      | (Ok _, d) =>
          (Ok (Redirect success_url),
           add_message (SUCCESS, "Usuario creado correctamente.")
             (mkWorld d (messages w)))
      end
  end.

End UserCreateView.

(** ** What the stored users and profiles should satisfy *)

Module ProfilesInv.
Import Profiles.

(** No profile lingers for a role its user does not have: a profile row
    of role [r] keyed by [k] belongs to a stored user [k] of role [r]. *)
Definition no_mismatched_profile (d : DB) : Prop :=
  ∀ k r, is_Some (profile_table r d !! k) →
         ∃ u, users d !! k = Some u ∧ role u = r.

(** A second stored state: user 7 as before, and an administrator 3. *)
Definition two_users : World :=
  mkWorld
    (mkDB {[ 7 := mkUser STUDENT "Ana" "Paz" "30111222";
             3 := mkUser ADMIN "Eva" "Sol" "20999888" ]}
          {[ 7 := [("student_id", "L-100")] ]} ∅
          {[ 3 := [("position", "Decana")] ]})
    [].

(** Creation of a professor with a valid profile form. *)
Definition create_professor : UserCreateView.Request :=
  UserCreateView.mkRequest (Some PROFESSOR) (mkUser PROFESSOR "Luz" "Rey" "28123456")
    None (Some [("degree", "Dra.")]) None.

(** An update of user 7 that keeps the role STUDENT, with a valid
    student profile form. *)
Definition same_role_valid : Request :=
  mkRequest 7 (mkUser STUDENT "Ana María" "Paz" "30111222")
    (Some [("student_id", "L-100")]) None None.

End ProfilesInv.

(** ** More example data for the assignment views *)

Module AssignmentsExamples.
Import Assignments.

(** Professors 1, 2 and 3 exist; nobody is assigned to subject 10 or to
    final exam 20 yet. *)
Definition none_assigned : World :=
  mkWorld
    (mkDB [mkSubject 10 "MAT1"] [mkFinalExam 20]
          {[PyInt 1; PyInt 2; PyInt 3]} ∅ ∅)
    [].

(** A selection with a value that is no number, and one with the key of
    no professor. *)
Definition post_abc : Request := mkRequest (Some ADMIN) POST ["2"; "abc"].
Definition post_9 : Request := mkRequest (Some ADMIN) POST ["9"].

(** Nothing selected. *)
Definition post_none : Request := mkRequest (Some ADMIN) POST [].

End AssignmentsExamples.

(** ** The shape of a consistent academic store *)

Module AcademicsInv.
Import Academics.

(** Primary keys are unique in the three tables the views insert into,
    and each of them holds at most one row per pair it is keyed by:
    a student and a subject, or a student and a final exam. *)
Record wf_db (d : DB) : Prop := mk_wf_db {
  wf_si_keys : NoDup (si_id <$> subject_inscriptions d);
  wf_grade_keys : NoDup (grade_id <$> grades d);
  wf_fi_keys : NoDup (fi_id <$> final_exam_inscriptions d);
  wf_si_pairs : ∀ st sb, (length (inscriptions_of st sb d) ≤ 1)%nat;
  wf_grade_pairs : ∀ st sb, (length (grades_of st sb d) ≤ 1)%nat;
  wf_fi_pairs : ∀ st fe, (length (final_inscriptions_of st fe d) ≤ 1)%nat
}.

(** The columns of a grade row that identify it. *)
Definition grade_identity (g : Grade) : Z * Z * Z :=
  (grade_id g, grade_student g, grade_subject g).

(** Student 7 of career 1, who has no inscription and no grade yet. *)
Definition student_7 : User := mkUser STUDENT (Some (mkStudent 7 1)) None.

(** The institution of the examples with the grade of student 5 in ALG
    not yet regular. *)
Definition campus_libre : World :=
  mkWorld
    (mkDB (subjects (db campus)) (final_exams (db campus))
          (subject_inscriptions (db campus))
          [mkGrade 1 5 10 "LIBRE" [("nota", "7")]]
          [] (subject_professors (db campus)))
    [] [].

End AcademicsInv.

(** ** The dashboards and the final-exam roster ([student_dashboard],
       [professor_dashboard], [professor_final_inscriptions]) *)

Module Dashboards.
Import Academics.

(** The context [student_dashboard] hands to its template. *)
Record StudentDashboard := mkStudentDashboard {
  ctx_subjects : list Subject;
  ctx_inscriptions : list SubjectInscription;
  ctx_grades : list Grade;
  ctx_eligible_finals : list FinalExam;
  ctx_final_inscriptions : list FinalExamInscription;
  ctx_inscribed_final_ids : list Z;
  ctx_inscribed_subject_codes : list string
}.

(** The context of [professor_dashboard]. *)
Record ProfessorDashboard := mkProfessorDashboard {
  ctx_assigned_subjects : list Subject;
  ctx_assigned_finals : list FinalExam
}.

(** [values_list("subject__code", flat=True)]: the code of the subject
    each inscription joins to. *)
Definition subject__code (rows : list SubjectInscription) (d : DB) : list string :=
  omap (λ r, code <$> head (filter (λ s, subject_id s = si_subject r) (subjects d))) rows.

Section Views.

(** Declared outside these sources: the status constant; the date of the
    final exam an inscription joins to, as a day number (the column
    [final_exam__date]); the order of two inscriptions by the last and
    first name of their students in the collation of the database; and
    the through table of [FinalExam.professors], which no view modelled
    here writes. *)
Variable REGULAR : string.
Variable final_exam__date : FinalExamInscription → Z.
Variable by_student_name : FinalExamInscription → FinalExamInscription → Prop.
Context `{!RelDecision by_student_name}.
Variable final_professors : gset (Z * Z).

(** [.order_by("final_exam__date")] compares two inscriptions by that
    column. *)
Definition by_final_exam_date (a b : FinalExamInscription) : Prop :=
  (final_exam__date a ≤ final_exam__date b)%Z.

#[local] Instance by_final_exam_date_dec : RelDecision by_final_exam_date.
Proof. intros a b. unfold by_final_exam_date. apply _. Defined.

(** [student_dashboard(request)].  Rows without an [order_by] come in
    table order; rows that tie in an [order_by] keep that order. *)
Definition student_dashboard (rq : Request) : M (Response * option StudentDashboard) :=
  if is_student (user rq) then
    match user rq ≫= student with
    | None =>
        message ERROR
          "Tu perfil de estudiante no está configurado. Contactá a un administrador." ;;
        ret (Redirect "home", @None StudentDashboard)
    | Some st =>
        do d <- query (λ d, d);
        let subjects := filter (λ s, career s = student_career st) (subjects d) in
        let inscriptions :=
          filter (λ r, si_student r = student_pk st) (subject_inscriptions d) in
        let inscribed_subject_codes := subject__code inscriptions d in
        let grades := filter (λ g, grade_student g = student_pk st) (grades d) in
        let eligible_subject_ids :=
          remove_dups (grade_subject <$> filter (λ g, status g = REGULAR) grades) in
        let eligible_finals :=
          filter (λ f, subject f ∈ eligible_subject_ids) (final_exams d) in
        let final_inscriptions :=
          merge_sort by_final_exam_date
            (filter (λ r, fi_student r = student_pk st) (final_exam_inscriptions d)) in
        let inscribed_final_ids := fi_final_exam <$> final_inscriptions in
        ret (Render "users/student_dashboard.html",
             Some (mkStudentDashboard subjects inscriptions grades eligible_finals
                     final_inscriptions inscribed_final_ids inscribed_subject_codes))
    end
  else ret (LoginRedirect, @None StudentDashboard).

(** [professor_dashboard(request)] *)
Definition professor_dashboard (rq : Request) : M (Response * option ProfessorDashboard) :=
  if is_professor (user rq) then
    match user rq ≫= professor with
    | None =>
        message ERROR
          "Tu perfil de profesor no está configurado. Contactá a un administrador." ;;
        ret (Redirect "home", @None ProfessorDashboard)
    | Some p =>
        do d <- query (λ d, d);
        let subjects :=
          filter (λ s, (subject_id s, p) ∈ subject_professors d) (subjects d) in
        let finals :=
          filter (λ f, (final_id f, p) ∈ final_professors) (final_exams d) in
        ret (Render "users/professor_dashboard.html",
             Some (mkProfessorDashboard subjects finals))
    end
  else ret (LoginRedirect, @None ProfessorDashboard).

(** [professor_final_inscriptions(request, final_exam_id)]: the context
    is the final exam and its inscriptions by student name. *)
Definition professor_final_inscriptions (rq : Request) (final_exam_id : Z)
    : M (Response * option (FinalExam * list FinalExamInscription)) :=
  if is_professor (user rq) then
    do p <- request_professor rq;
    do rows <- query (λ d, filter (λ f, final_id f = final_exam_id
                                        ∧ (final_id f, p) ∈ final_professors)
                             (final_exams d));
    do final_exam <- lift (get_object_or_404 rows);
    do found <- query (λ d, filter (λ r, fi_final_exam r = final_id final_exam)
                              (final_exam_inscriptions d));
    let inscriptions := merge_sort by_student_name found in
    ret (Render "users/professor_final_inscriptions.html",
         Some (final_exam, inscriptions))
  else ret (LoginRedirect, @None (FinalExam * list FinalExamInscription)).

End Views.

(** For the examples: final exams by their key as date, students by
    their key as name order, professor 50 on final exam 100. *)
Definition example_date (r : FinalExamInscription) : Z := fi_final_exam r.
Definition example_by_name (a b : FinalExamInscription) : Prop :=
  (fi_student a ≤ fi_student b)%Z.
#[global] Instance example_by_name_dec : RelDecision example_by_name.
Proof. intros a b. unfold example_by_name. apply _. Defined.
Definition example_final_professors : gset (Z * Z) := {[ (100, 50) ]}.

End Dashboards.

(** ** The student file as a document ([StudentFileDocxView]) *)

Module StudentFileDocx.
Import StudentFile.

Record World := mkWorld {
  db : DB;
  messages : list Message
}.




Section View.

(** Outside these sources: the user model's [get_full_name]; whether the
    template file [ficha_alumno.docx] exists under [BASE_DIR]; and what
    rendering the template with a mapping and saving it gives, the bytes
    of the document or the text of the exception raised. *)
Variable get_full_name : CustomUser → string.
Variable doc_path_exists : bool.
Variable render : list (string * string) → string + string.



End View.



End StudentFileDocx.

(** ** The route table *)

Module UrlsFacts.
Import Urls.

Lemma match_segments_nil p : match_segments p [] = None.
Proof. by destruct p as [|[]]. Qed.

(** Two routes that match the same path overlap segment by segment. *)
Lemma overlap_sound p : ∀ q segs k1 k2,
  match_segments p segs = Some k1 →
  match_segments q segs = Some k2 →
  overlap p q = true.
Proof.
  induction p as [|a p IH]; intros q segs k1 k2 Hp Hq.
  - destruct segs as [|s [|? ?]]; try done. cbn in Hp. case_decide; [subst|done].
    destruct q as [|b q]; [done|]. exfalso.
    destruct b; cbn in Hq; repeat case_match; simplify_eq;
      rewrite ?match_segments_nil in *; simplify_eq/=; done.
  - destruct segs as [|s segs]; [by rewrite match_segments_nil in Hp|].
    destruct q as [|b q].
    { exfalso. cbn in Hq. destruct segs; [|done]. case_decide; [subst|done].
      destruct a; cbn in Hp; repeat case_match; simplify_eq;
        rewrite ?match_segments_nil in *; simplify_eq/=; done. }
    cbn [overlap]. apply andb_true_iff.
    assert (Hrest : ∃ k1' k2', match_segments p segs = Some k1'
                               ∧ match_segments q segs = Some k2').
    { destruct a, b; cbn in Hp, Hq; repeat case_match; simplify_eq/=;
        repeat match goal with
               | H : _ <$> ?x = Some _ |- _ => destruct x eqn:?; simplify_eq/=
               end; eauto. }
    destruct Hrest as (k1' & k2' & Hp' & Hq'). split; [|by eapply IH].
    destruct a, b; cbn in Hp, Hq |- *; repeat case_match; simplify_eq/=;
      try done; try (apply bool_decide_eq_true; done);
      try (apply bool_decide_eq_true; eauto; congruence).
Qed.

(** No two distinct routes of the table overlap. *)
Lemma urlpatterns_disjoint :
  forallb (λ r1, forallb (λ r2, implb (overlap (pattern r1) (pattern r2))
                                  (bool_decide (r1 = r2))) urlpatterns)
    urlpatterns = true.
Proof. by vm_compute. Qed.

Lemma resolve_in_sound rs path r k :
  resolve_in rs path = Some (r, k) → r ∈ rs ∧ match_route r path = Some k.
Proof.
  induction rs as [|x rs IH]; [done|]. cbn [resolve_in].
  destruct (match_route x path) as [kx|] eqn:Hx.
  - intros [= <- <-]. split; [left|done].
  - intros [Hin Hm]%IH. split; [by right|done].
Qed.

Lemma resolve_in_complete rs path r k :
  r ∈ rs → match_route r path = Some k → is_Some (resolve_in rs path).
Proof.
  induction rs as [|x rs IH]; [by intros ?%not_elem_of_nil|].
  intros [->|Hin]%elem_of_cons Hm; cbn [resolve_in].
  - rewrite Hm. eauto.
  - destruct (match_route x path); [eauto|by apply IH].
Qed.

(** A path that two routes of the table match is matched by one route. *)
Lemma match_route_unique path r1 r2 :
  r1 ∈ urlpatterns → r2 ∈ urlpatterns →
  is_Some (match_route r1 path) → is_Some (match_route r2 path) →
  r1 = r2.
Proof.
  intros H1 H2 [k1 Hk1] [k2 Hk2].
  pose proof (overlap_sound _ _ _ _ _ Hk1 Hk2) as Hov.
  pose proof urlpatterns_disjoint as Hall.
  rewrite forallb_forall in Hall.
  specialize (Hall r1 (proj1 (list_elem_of_In _ _) H1)).
  rewrite forallb_forall in Hall.
  specialize (Hall r2 (proj1 (list_elem_of_In _ _) H2)).
  rewrite Hov in Hall. cbn in Hall. by apply bool_decide_eq_true in Hall.
Qed.

Lemma resolve_iff path r k :
  resolve path = Some (r, k) ↔ r ∈ urlpatterns ∧ match_route r path = Some k.
Proof.
  split.
  - apply resolve_in_sound.
  - intros [Hin Hm].
    destruct (resolve_in_complete _ _ _ _ Hin Hm) as [[r' k'] Hres].
    unfold resolve. rewrite Hres.
    apply resolve_in_sound in Hres as [Hin' Hm'].
    assert (r' = r) as -> by (eapply match_route_unique; eauto).
    congruence.
Qed.

(** X15: the route table is unambiguous.  No request path is matched by
    two different routes, so a path resolves to a route with captured
    arguments exactly when that route of the table matches it with those
    arguments, wherever the route stands in the table. *)
Theorem routes_unambiguous (path : string) :
  (∀ r1 r2, r1 ∈ urlpatterns → r2 ∈ urlpatterns →
            is_Some (match_route r1 path) → is_Some (match_route r2 path) →
            r1 = r2)
  ∧ (∀ r k, resolve path = Some (r, k)
            ↔ r ∈ urlpatterns ∧ match_route r path = Some k).
Proof.
  split.
  - intros r1 r2. apply match_route_unique.
  - intros r k. apply resolve_iff.
Qed.

(** Some paths and what they resolve to. *)
Lemma resolve_examples :
  resolve "admin/users/7/edit/"
  = Some (mkRoute [Lit "admin"; Lit "users"; IntConv "pk"; Lit "edit"]
            "UserUpdateView" "user-edit", [("pk", ArgInt 7)])
  ∧ resolve "student/L-100/file/json/"
    = Some (mkRoute [Lit "student"; StrConv "student_id"; Lit "file"; Lit "json"]
              "StudentFileJSONView" "student-file-json", [("student_id", ArgStr "L-100")])
  ∧ resolve "admin/users/x7/edit/" = None
  ∧ resolve "admin/users/7/edit" = None
  ∧ resolve "student/subject//inscribe/" = None.
Proof. repeat split; by vm_compute. Qed.

(** *** [reverse] of the grade list *)

Lemma names_unique : NoDup (name <$> urlpatterns).
Proof. apply (bool_decide_unpack _). by vm_compute. Qed.

(** A text without a slash is one segment of a path. *)
Lemma segments_no_slash c rest :
  no_slash c = true → segments (c +:+ String slash rest) = c :: segments rest.
Proof.
  induction c as [|a c IH]; intros Hc.
  - change ("" +:+ String slash rest) with (String slash rest).
    cbn [segments]. by rewrite decide_True.
  - cbn in Hc. apply andb_true_iff in Hc as [Ha Hc].
    apply negb_true_iff, bool_decide_eq_false in Ha.
    change (String a c +:+ String slash rest) with (String a (c +:+ String slash rest)).
    cbn [segments]. rewrite decide_False by done. by rewrite IH.
Qed.

Lemma segments_slash_length x : (2 ≤ length (segments (x +:+ String slash "")))%nat.
Proof.
  induction x as [|a x IH].
  - change ("" +:+ String slash "") with (String slash "").
    cbn [segments]. rewrite decide_True by done. cbn. lia.
  - change (String a x +:+ String slash "") with (String a (x +:+ String slash "")).
    cbn [segments]. case_decide; [cbn; lia|].
    destruct (segments _) as [|s ss]; cbn in *; lia.
Qed.

(** When a text followed by a slash is a single segment, it has no slash. *)
Lemma segments_single c s :
  segments (c +:+ String slash "") = [s; ""] → s = c ∧ no_slash c = true.
Proof.
  revert s. induction c as [|a c IH]; intros s.
  - change ("" +:+ String slash "") with (String slash "").
    cbn [segments]. rewrite decide_True by done. by intros [= <-].
  - change (String a c +:+ String slash "") with (String a (c +:+ String slash "")).
    cbn [segments no_slash]. pose proof (segments_slash_length c) as Hlen.
    case_decide as Ha.
    + intros [= _ Hrest]. rewrite Hrest in Hlen. cbn in Hlen. lia.
    + destruct (segments (c +:+ String slash "")) as [|s' ss] eqn:Hseg; [cbn in Hlen; lia|].
      intros [= <- ->]. destruct (IH s' eq_refl) as [-> Hc].
      split; [done|]. rewrite Hc, bool_decide_eq_false_2 by done. done.
Qed.

(** Matching a [<str:...>] parameter that ends the route. *)
Lemma match_str_segment n c :
  match_segments [StrConv n] (segments (c +:+ String slash ""))
  = if decide (url_segment c) then Some [(n, ArgStr c)] else None.
Proof.
  destruct (decide (url_segment c)) as [[Hne Hc]|Hno].
  - rewrite (segments_no_slash _ _ Hc). cbn. rewrite decide_False by done.
    by rewrite decide_True.
  - destruct (match_segments _ _) as [k|] eqn:Hm; [exfalso|done]. apply Hno.
    destruct (segments (c +:+ String slash "")) as [|s [|t [|? ?]]] eqn:Hseg;
      cbn in Hm; repeat case_decide; simplify_eq/=.
    destruct (segments_single _ _ Hseg) as [-> Hc]. by split.
Qed.

Lemma match_grade_list_route c :
  match_route grade_list_route ("professor/grades/" +:+ c +:+ "/")
  = if decide (url_segment c) then Some [("subject_code", ArgStr c)] else None.
Proof.
  unfold match_route, grade_list_route. cbn [pattern].
  change ("professor/grades/" +:+ c +:+ "/")
    with ("professor" +:+ String slash ("grades" +:+ String slash (c +:+ String slash ""))).
  rewrite !segments_no_slash by reflexivity.
  cbn [match_segments]. rewrite !decide_True by reflexivity.
  apply match_str_segment.
Qed.

(** [reverse] of the grade list succeeds exactly for a code that can
    stand for a path segment: not empty, without a slash. *)
Lemma reverse_grade_list c :
  reverse "users:grade-list" [("subject_code", ArgStr c)]
  = if decide (url_segment c) then Some ("professor/grades/" +:+ c +:+ "/") else None.
Proof.
  unfold reverse.
  replace (find _ urlpatterns) with (Some grade_list_route) by (by vm_compute).
  unfold reverse_route.
  replace (forallb _ _ && forallb _ _) with true by (by vm_compute).
  change (candidate (pattern grade_list_route) [("subject_code", ArgStr c)])
    with (Some ("professor/grades/" +:+ c +:+ "/")).
  cbv iota beta. rewrite match_grade_list_route. by destruct (decide _).
Qed.

(** ... and then the path leads back to the grade list with that code. *)
Lemma round_trip_grade_list c :
  round_trip "users:grade-list" [("subject_code", ArgStr c)]
  = bool_decide (url_segment c).
Proof.
  unfold round_trip. rewrite reverse_grade_list.
  destruct (decide (url_segment c)) as [Hc|Hc].
  - assert (Hres : resolve ("professor/grades/" +:+ c +:+ "/")
                   = Some (grade_list_route, [("subject_code", ArgStr c)])).
    { apply resolve_iff. split.
      - apply (bool_decide_unpack _). by vm_compute.
      - rewrite match_grade_list_route. by rewrite decide_True. }
    rewrite Hres. rewrite bool_decide_eq_true_2 by done.
    by rewrite bool_decide_eq_true_2.
  - by rewrite bool_decide_eq_false_2.
Qed.

(** A redirect to the grade list that [reverse] accepts leads to the
    grade list of that code. *)
Lemma reverse_grade_list_resolves c path :
  reverse "users:grade-list" [("subject_code", ArgStr c)] = Some path →
  redirect_resolves (RedirectArg "users:grade-list" c) = true.
Proof.
  rewrite reverse_grade_list. intros Hrev. cbn [redirect_resolves].
  rewrite round_trip_grade_list. apply bool_decide_eq_true.
  by destruct (decide (url_segment c)).
Qed.

End UrlsFacts.

(** * Properties *)

(** ** Role-conditioned profile management *)

Module ProfilesFacts.
Import Profiles.

Lemma atomic_commits_on_return {A} (body : DB → Res A * DB) d a d' :
  body d = (Ok a, d') → atomic body d = (Ok a, d').
Proof. intros H. unfold atomic. by rewrite H. Qed.

Lemma atomic_restores_on_raise {A} (body : DB → Res A * DB) d e d' :
  body d = (Raise e, d') → atomic body d = (Raise e, d).
Proof. intros H. unfold atomic. by rewrite H. Qed.

(** Leaving the block through the [return self.form_invalid(form)] of an
    invalid profile form keeps the user row the block has saved. *)
Lemma form_valid_block_invalid rq d :
  profile_form (role (form rq)) rq = None →
  form_valid_block rq d
  = (Ok (Some form_invalid), set_users <[pk rq := form rq]> d).
Proof.
  unfold form_valid_block, profile_form.
  destruct (role (form rq)); intros ->; reflexivity.
Qed.

(** A role change whose new profile form is invalid: the profiles are
    gone, the new role is stored, and the form is shown again. *)
Lemma form_valid_role_change_invalid_form rq w u :
  users (db w) !! pk rq = Some u →
  role (form rq) ≠ role u →
  profile_form (role (form rq)) rq = None →
  form_valid rq w
  = (Ok form_invalid,
     mkWorld (set_users <[pk rq := form rq]> (delete_profiles (pk rq) (db w)))
       (messages w
          ++ [(INFO, "El perfil anterior ha sido eliminado debido al cambio de rol.")])).
Proof.
  intros Hu Hrole Hform. unfold form_valid. rewrite Hu.
  rewrite decide_True by done. cbn [db messages add_message].
  by rewrite (atomic_commits_on_return _ _ _ _ (form_valid_block_invalid rq _ Hform)).
Qed.

Lemma delete_profiles_no_profile r k d :
  has_profile r k (delete_profiles k d) = false.
Proof.
  unfold has_profile. apply bool_decide_eq_false. intros [p Hp]. revert Hp.
  destruct r; cbn; by rewrite lookup_delete_eq.
Qed.

(** After a role change with an invalid profile form the user has no
    profile at all, whatever the stored state was. *)
Lemma form_valid_role_change_invalid_no_profile rq w u r :
  users (db w) !! pk rq = Some u →
  role (form rq) ≠ role u →
  profile_form (role (form rq)) rq = None →
  has_profile r (pk rq) (db (form_valid rq w).2) = false.
Proof.
  intros Hu Hrole Hform.
  rewrite (form_valid_role_change_invalid_form rq w u Hu Hrole Hform).
  cbn [snd db]. pose proof (delete_profiles_no_profile r (pk rq) (db w)) as H.
  revert H. unfold has_profile. by destruct r.
Qed.

(** With a valid profile form the same role change swaps the profiles. *)
Lemma form_valid_swaps_profile_when_valid :
  (form_valid to_professor_valid student_7).1 = Ok (Redirect success_url)
  ∧ has_profile STUDENT 7 (db (form_valid to_professor_valid student_7).2) = false
  ∧ has_profile PROFESSOR 7 (db (form_valid to_professor_valid student_7).2) = true.
Proof. repeat split; by vm_compute. Qed.

(** C1 (fails on the code): a user update that changes the role deletes
    the old profile before the transaction opens, and the block that saves
    the new profile is left by a plain [return] when the profile form is
    invalid, which commits.  For the student 7 and a change to PROFESSOR
    with an invalid professor form, the view answers with the form again
    while the student profile is deleted, no professor profile is stored
    and the stored role is already PROFESSOR. *)
Theorem form_valid_leaves_partial_state :
  (form_valid to_professor_invalid student_7).1 = Ok form_invalid
  ∧ has_profile STUDENT 7 (db student_7) = true
  ∧ has_profile STUDENT 7 (db (form_valid to_professor_invalid student_7).2) = false
  ∧ has_profile PROFESSOR 7 (db (form_valid to_professor_invalid student_7).2) = false
  ∧ role <$> users (db (form_valid to_professor_invalid student_7).2) !! 7
    = Some PROFESSOR.
Proof. repeat split; by vm_compute. Qed.

End ProfilesFacts.

(** ** Professor assignment diffing *)

Module AssignmentsFacts.
Import Assignments.

Lemma elem_of_values_list_pk (e : Z) (rel : gset (Z * PyVal)) (p : PyVal) :
  p ∈ values_list_pk e rel ↔ (e, p) ∈ rel.
Proof.
  unfold values_list_pk. rewrite elem_of_map. split.
  - intros [[e' p'] [-> [He Hin]%elem_of_filter]]. cbn in *. by subst.
  - intros Hin. exists (e, p). split; [done|]. by apply elem_of_filter.
Qed.

Lemma values_list_pk_add (e : Z) (rel : gset (Z * PyVal)) (ids : gset PyVal) :
  values_list_pk e (rel ∪ set_map (λ p, (e, p)) ids) = values_list_pk e rel ∪ ids.
Proof.
  apply set_eq. intros p.
  rewrite elem_of_union, !elem_of_values_list_pk, elem_of_union, elem_of_map.
  split; [intros [?|[q [[= ->] ?]]]; auto | intros [?|?]; eauto].
Qed.

Lemma values_list_pk_remove (e : Z) (rel : gset (Z * PyVal)) (ids : gset PyVal) :
  values_list_pk e (rel ∖ set_map (λ p, (e, p)) ids) = values_list_pk e rel ∖ ids.
Proof.
  apply set_eq. intros p.
  rewrite elem_of_difference, !elem_of_values_list_pk, elem_of_difference, elem_of_map.
  split.
  - intros [? Hn]. split; [done|]. intros ?. apply Hn. eauto.
  - intros [? Hn]. split; [done|]. intros [q [[= ->] ?]]. done.
Qed.

Lemma values_list_pk_difference_add_remove (e : Z) (rel : gset (Z * PyVal))
    (a r : gset PyVal) :
  values_list_pk e ((rel ∪ set_map (λ p, (e, p)) a) ∖ set_map (λ p, (e, p)) r)
  = (values_list_pk e rel ∪ a) ∖ r.
Proof. by rewrite values_list_pk_remove, values_list_pk_add. Qed.

(** A posted value is a [str], so it is in a set of integer keys never. *)
Lemma posted_not_integer (posted : list string) (v : PyVal) :
  v ∈ (list_to_set (PyStr <$> posted) : gset PyVal) → ∃ s, v = PyStr s ∧ s ∈ posted.
Proof.
  rewrite elem_of_list_to_set, list_elem_of_fmap. intros [s [-> ?]]. eauto.
Qed.

Section KeyField.

Variable get_prep_value : PyVal → option PyVal.

Lemma target_ids_empty : target_ids get_prep_value ∅ = Some ∅.
Proof.
  unfold target_ids. rewrite decide_True.
  - first [reflexivity | f_equal; set_solver].
  - intros v Hv. set_solver.
Qed.

Lemma target_ids_fixed (X : gset PyVal) :
  (∀ v, v ∈ X → get_prep_value v = Some v) →
  target_ids get_prep_value X = Some X.
Proof.
  intros Hfix. unfold target_ids. rewrite decide_True.
  - f_equal. apply set_eq. intros y. rewrite elem_of_set_omap. split.
    + intros [x [Hx Hy]]. rewrite (Hfix x Hx) in Hy. by simplify_eq.
    + intros Hy. exists y. auto.
  - intros v Hv. rewrite (Hfix v Hv). eauto.
Qed.

(** The guards [if to_add:] and [if to_remove:] only skip calls that
    would change nothing. *)
Lemma apply_diff_unguarded (e : Z) (a r profs : gset PyVal) (rel : gset (Z * PyVal)) :
  apply_diff get_prep_value e a r profs rel
  = match m2m_add get_prep_value e a profs rel with
    | Raise x => Raise x
    | Ok rel1 => m2m_remove get_prep_value e r rel1
    end.
Proof.
  unfold apply_diff.
  assert (Hadd : a = ∅ → m2m_add get_prep_value e a profs rel = Ok rel).
  { intros ->. unfold m2m_add. rewrite target_ids_empty.
    rewrite decide_True by set_solver. f_equal. set_solver. }
  assert (Hrem : ∀ rel1, r = ∅ → m2m_remove get_prep_value e r rel1 = Ok rel1).
  { intros rel1 ->. unfold m2m_remove. rewrite target_ids_empty. f_equal. set_solver. }
  destruct (decide (a ≠ ∅)) as [Ha|Ha].
  - destruct (m2m_add _ _ _ _ _); [|done].
    destruct (decide (r ≠ ∅)) as [Hr|Hr]; [done|].
    apply dec_stable in Hr. by rewrite Hrem.
  - apply dec_stable in Ha. rewrite (Hadd Ha).
    destruct (decide (r ≠ ∅)) as [Hr|Hr]; [done|].
    apply dec_stable in Hr. by rewrite Hrem.
Qed.

(** The diff on keys the key field leaves as they are, all of them keys
    of existing professors: the relation of [e] becomes the selection. *)
Lemma apply_diff_fixed_keys (e : Z) (sel cur profs : gset PyVal) (rel : gset (Z * PyVal)) :
  cur = values_list_pk e rel →
  (∀ v, v ∈ sel ∪ cur → get_prep_value v = Some v) →
  sel ⊆ profs →
  ∃ rel', apply_diff get_prep_value e (sel ∖ cur) (cur ∖ sel) profs rel = Ok rel'
          ∧ rel' = (rel ∪ set_map (λ p, (e, p)) (sel ∖ cur)) ∖ set_map (λ p, (e, p)) (cur ∖ sel)
          ∧ values_list_pk e rel' = sel.
Proof.
  intros HC Hfix Hsub.
  assert (Ha : target_ids get_prep_value (sel ∖ cur) = Some (sel ∖ cur)).
  { apply target_ids_fixed. intros v Hv. apply Hfix. set_solver. }
  assert (Hr : target_ids get_prep_value (cur ∖ sel) = Some (cur ∖ sel)).
  { apply target_ids_fixed. intros v Hv. apply Hfix. set_solver. }
  assert (Hin : sel ∖ cur ⊆ profs) by set_solver.
  eexists. rewrite apply_diff_unguarded.
  unfold m2m_add, m2m_remove. rewrite Ha, Hr, decide_True by done.
  split; [reflexivity|]. split; [reflexivity|].
  rewrite values_list_pk_difference_add_remove, <- HC.
  clear HC Hfix Ha Hr Hin Hsub.
  apply set_eq. intros p.
  destruct (decide (p ∈ cur)), (decide (p ∈ sel)); set_solver.
Qed.

(** On integer keys nothing posted is found among the current keys: the
    whole selection is added, then every key that was current is removed. *)
Lemma apply_diff_integer_keys (e : Z) (posted : list string)
    (cur ids profs : gset PyVal) (rel : gset (Z * PyVal)) :
  let sel : gset PyVal := list_to_set (PyStr <$> posted) in
  cur = values_list_pk e rel →
  (∀ v, v ∈ cur → ∃ n, v = PyInt n ∧ get_prep_value v = Some v) →
  target_ids get_prep_value sel = Some ids →
  ids ⊆ profs →
  sel ∖ cur = sel ∧ cur ∖ sel = cur
  ∧ ∃ rel', apply_diff get_prep_value e (sel ∖ cur) (cur ∖ sel) profs rel = Ok rel'
            ∧ values_list_pk e rel' = ids ∖ cur.
Proof.
  intros sel HC Hint Hids Hsub.
  assert (Hdisj : ∀ v, v ∈ sel → v ∈ cur → False).
  { intros v [s [-> _]]%posted_not_integer [n [? _]]%Hint. done. }
  assert (HSC : sel ∖ cur = sel) by (apply set_eq; intros v; set_solver).
  assert (HCS : cur ∖ sel = cur) by (apply set_eq; intros v; set_solver).
  split; [done|]. split; [done|].
  assert (Hcur : target_ids get_prep_value cur = Some cur).
  { apply target_ids_fixed. intros v [n [_ ?]]%Hint. done. }
  rewrite HSC, HCS, apply_diff_unguarded. unfold m2m_add, m2m_remove.
  rewrite Hids, decide_True by done. rewrite Hcur.
  eexists. split; [reflexivity|].
  rewrite values_list_pk_difference_add_remove, <- HC. set_solver.
Qed.

(** [assign_subject_professors] on integer keys, in general: whenever
    something is selected or assigned the view reports an update, and the
    subject is left with the selected keys that were not assigned before. *)
Lemma assign_subject_professors_integer_keys (rq : Request) (c : string) (w : World)
    (sb : Subject) (ids : gset PyVal) :
  let cur := values_list_pk (subject_pk sb) (subject_professors (db w)) in
  let sel : gset PyVal := list_to_set (PyStr <$> POST_professors rq) in
  is_admin (user rq) = true →
  method rq = POST →
  filter (λ s, code s = c) (subjects (db w)) = [sb] →
  (∀ v, v ∈ cur → ∃ n, v = PyInt n ∧ get_prep_value v = Some v) →
  target_ids get_prep_value sel = Some ids →
  ids ⊆ professors (db w) →
  sel ≠ ∅ ∨ cur ≠ ∅ →
  ∃ w', assign_subject_professors get_prep_value rq c w
        = (Ok (Redirect "users:subject-list"), w')
        ∧ values_list_pk (subject_pk sb) (subject_professors (db w')) = ids ∖ cur
        ∧ messages w'
          = (messages w ++ [(SUCCESS, "Asignaciones actualizadas correctamente.")]).
Proof.
  intros cur sel Hadm Hm Hsb Hint Hids Hsub Hne.
  destruct (apply_diff_integer_keys (subject_pk sb) (POST_professors rq) cur ids
              (professors (db w)) (subject_professors (db w)) eq_refl Hint Hids Hsub)
    as (Ha & Hr & rel' & Hdiff & Hfinal).
  subst cur sel.
  unfold assign_subject_professors. rewrite Hadm, Hsb, Hm.
  cbn [negb]. unfold get_object_or_404, qs_get. cbv zeta.
  rewrite decide_True by (rewrite Ha, Hr; done).
  unfold atomic. rewrite Hdiff. eexists. split; [reflexivity|].
  cbn [db messages add_message set_subject_professors subject_professors]. done.
Qed.

End KeyField.

(** C2 (fails on the code): the selection is a set of [str] values and
    the current keys are the stored integers, so the two differences never
    cancel anything.  With professors 1 and 2 assigned and 2, 3 selected,
    both views add 2 and 3, remove 1 and 2, and leave only professor 3;
    the same request once more leaves only professor 2; both runs report
    an update. *)
Theorem sync_assignments_integer_keys :
  let run1 := assign_subject_professors int_prep_value post_2_3 "MAT1" two_assigned in
  let run2 := assign_subject_professors int_prep_value post_2_3 "MAT1" run1.2 in
  let fin1 := assign_final_professors int_prep_value post_2_3 20 two_assigned in
  let fin2 := assign_final_professors int_prep_value post_2_3 20 fin1.2 in
  values_list_pk 10 (subject_professors (db two_assigned)) = {[PyInt 1; PyInt 2]}
  ∧ values_list_pk 10 (subject_professors (db run1.2)) = {[PyInt 3]}
  ∧ values_list_pk 10 (subject_professors (db run2.2)) = {[PyInt 2]}
  ∧ messages run2.2
    = [(SUCCESS, "Asignaciones actualizadas correctamente.");
       (SUCCESS, "Asignaciones actualizadas correctamente.")]
  ∧ values_list_pk 20 (final_professors (db fin1.2)) = {[PyInt 3]}
  ∧ values_list_pk 20 (final_professors (db fin2.2)) = {[PyInt 2]}
  ∧ messages fin2.2
    = [(SUCCESS, "Asignaciones del final actualizadas correctamente.");
       (SUCCESS, "Asignaciones del final actualizadas correctamente.")].
Proof. cbv zeta. repeat split; by vm_compute. Qed.

(** On keys that compare equal to the posted values the same run gives
    the selection, and the second run reports that nothing changed. *)
Lemma sync_assignments_character_keys :
  let run1 := assign_subject_professors char_prep_value post_2_3 "MAT1" two_assigned_char in
  let run2 := assign_subject_professors char_prep_value post_2_3 "MAT1" run1.2 in
  values_list_pk 10 (subject_professors (db run1.2)) = {[PyStr "2"; PyStr "3"]}
  ∧ db run2.2 = db run1.2
  ∧ messages run2.2
    = [(SUCCESS, "Asignaciones actualizadas correctamente.");
       (INFO, "No hubo cambios en las asignaciones.")].
Proof. cbv zeta. repeat split; by vm_compute. Qed.

End AssignmentsFacts.

(** ** Enrollment and grade rules *)

Module AcademicsFacts.
Import Academics.

(** Running the monad: unfold its operations down to the store. *)
Ltac run :=
  unfold bind, ret, raise, lift, query, message, write;
  cbn [fst snd db messages calls].

Ltac run_in H :=
  unfold bind, ret, raise, lift, query, message, write in H;
  cbn [fst snd db messages calls] in H.

Lemma user_passes_test_pass (test : option User → bool) rq (view : M Response) :
  test (user rq) = true → user_passes_test test rq view = view.
Proof. intros H. unfold user_passes_test. by rewrite H. Qed.

Lemma user_passes_test_fail (test : option User → bool) rq (view : M Response) w :
  test (user rq) = false → user_passes_test test rq view w = (Ok LoginRedirect, w).
Proof. intros H. unfold user_passes_test. by rewrite H. Qed.

Lemma is_student_intro rq u :
  user rq = Some u → role u = STUDENT → is_student (user rq) = true.
Proof. intros -> H. cbn. by apply bool_decide_eq_true. Qed.

Lemma is_professor_intro rq u :
  user rq = Some u → role u = PROFESSOR → is_professor (user rq) = true.
Proof. intros -> H. cbn. by apply bool_decide_eq_true. Qed.

Lemma request_student_ok rq u st w :
  user rq = Some u → student u = Some st → request_student rq w = (Ok st, w).
Proof. intros Hu Hs. unfold request_student. by rewrite Hu, Hs. Qed.

Lemma request_professor_ok rq u p w :
  user rq = Some u → professor u = Some p → request_professor rq w = (Ok p, w).
Proof. intros Hu Hs. unfold request_professor. by rewrite Hu, Hs. Qed.

(** A list of length at most one is empty or a singleton. *)
Lemma at_most_one {A} (l : list A) :
  (length l ≤ 1)%nat → l = [] ∨ ∃ x, l = [x].
Proof. destruct l as [|x [|y l]]; cbn; intros; eauto; lia. Qed.

(** *** How the inserts show in the queries *)

Lemma inscriptions_of_add st sb r d :
  inscriptions_of st sb (add_subject_inscription r d)
  = inscriptions_of st sb d
      ++ (if decide (si_student r = st ∧ si_subject r = sb) then [r] else []).
Proof.
  unfold inscriptions_of, add_subject_inscription. cbn.
  rewrite filter_app. f_equal.
Qed.

Lemma grades_of_add st sb gs d :
  grades_of st sb (add_grades gs d)
  = grades_of st sb d ++ filter (λ g, grade_student g = st ∧ grade_subject g = sb) gs.
Proof. unfold grades_of, add_grades. cbn. by rewrite filter_app. Qed.

Lemma final_inscriptions_of_add st fe r d :
  final_inscriptions_of st fe (add_final_exam_inscription r d)
  = final_inscriptions_of st fe d
      ++ (if decide (fi_student r = st ∧ fi_final_exam r = fe) then [r] else []).
Proof.
  unfold final_inscriptions_of, add_final_exam_inscription. cbn.
  rewrite filter_app. f_equal.
Qed.

Lemma grades_of_add_subject_inscription st sb r d :
  grades_of st sb (add_subject_inscription r d) = grades_of st sb d.
Proof. reflexivity. Qed.

Lemma inscriptions_of_add_grades st sb gs d :
  inscriptions_of st sb (add_grades gs d) = inscriptions_of st sb d.
Proof. reflexivity. Qed.

(** *** The most recent grade *)

Lemma latest_None gs : latest gs = None → gs = [].
Proof.
  destruct gs as [|g gs]; [done|]. cbn.
  destruct (latest gs); [case_decide|]; done.
Qed.

(** [latest] picks a row of the list with the greatest key. *)
Lemma latest_most_recent gs g : latest gs = Some g → most_recent g gs.
Proof.
  revert g. induction gs as [|x gs IH]; intros g; [done|]. cbn [latest].
  destruct (latest gs) as [h|] eqn:Hl.
  - destruct (IH h eq_refl) as [Hin Hall]. case_decide; intros [= <-].
    + split; [left|]. constructor; [lia|].
      eapply Forall_impl; [exact Hall|]. cbn. intros. lia.
    + split; [by right|]. constructor; [lia|done].
  - intros [= <-]. apply latest_None in Hl as ->.
    split; [left|]. by repeat constructor.
Qed.

Lemma NoDup_fmap_elem_inj {A B} (f : A → B) (l : list A) x y :
  NoDup (f <$> l) → x ∈ l → y ∈ l → f x = f y → x = y.
Proof.
  induction l as [|a l IH]; [by intros _ ?%not_elem_of_nil|].
  rewrite fmap_cons, NoDup_cons.
  intros [Ha Hnd] [->|Hx]%elem_of_cons [->|Hy]%elem_of_cons Heq; auto.
  - exfalso. apply Ha. rewrite Heq. by apply list_elem_of_fmap_2.
  - exfalso. apply Ha. rewrite <- Heq. by apply list_elem_of_fmap_2.
Qed.

(** With unique keys there is one most recent grade. *)
Lemma most_recent_unique (all gs : list Grade) g h :
  NoDup (grade_id <$> all) → gs ⊆ all →
  most_recent g gs → most_recent h gs → g = h.
Proof.
  intros Hnd Hsub [Hg Hgall] [Hh Hhall]. rewrite Forall_forall in Hgall, Hhall.
  apply (NoDup_fmap_elem_inj grade_id all); auto.
  specialize (Hgall h Hh). specialize (Hhall g Hg). lia.
Qed.

(** The gate of [final_exam_inscribe], read on the table of grades: closed
    when the student has no grade for the subject or the most recent one
    is not REGULAR, open when the most recent one is REGULAR. *)
Lemma gate_on_table REGULAR st sb d :
  NoDup (grade_id <$> grades d) →
  let gs := filter (λ g, grade_student g = st ∧ grade_subject g = sb) (grades d) in
  (ineligible REGULAR st sb d ↔ gs = [] ∨ ∃ g, most_recent g gs ∧ status g ≠ REGULAR)
  ∧ (¬ ineligible REGULAR st sb d ↔ ∃ g, most_recent g gs ∧ status g = REGULAR).
Proof.
  intros Hnd gs. unfold ineligible, grades_of. fold gs.
  assert (Hsub : gs ⊆ grades d) by (intros x [_ ?]%list_elem_of_filter; done).
  destruct (latest gs) as [h|] eqn:Hl.
  - pose proof (latest_most_recent _ _ Hl) as Hh. split; split.
    + intros Hst. right. by exists h.
    + intros [Hnil|(g & Hg & Hst)].
      * destruct Hh as [Hin _]. rewrite Hnil in Hin. by apply not_elem_of_nil in Hin.
      * by rewrite (most_recent_unique _ _ _ _ Hnd Hsub Hh Hg).
    + intros Hst. exists h. split; [done|]. by apply dec_stable.
    + intros (g & Hg & Hst) Hne.
      by rewrite (most_recent_unique _ _ _ _ Hnd Hsub Hh Hg) in Hne.
  - apply latest_None in Hl. split; split; try done.
    + by left.
    + intros (g & [Hin _] & _). rewrite Hl in Hin. by apply not_elem_of_nil in Hin.
Qed.

(** *** [redirect] to the grade list *)

Lemma redirect_grade_list_run c w :
  redirect_grade_list c w
  = (if decide (Urls.url_segment c)
     then Ok (RedirectArg "users:grade-list" c)
     else Raise NoReverseMatch, w).
Proof.
  unfold redirect_grade_list. rewrite UrlsFacts.reverse_grade_list.
  by destruct (decide _).
Qed.

Lemma redirect_grade_list_snd c w : (redirect_grade_list c w).2 = w.
Proof. rewrite redirect_grade_list_run. reflexivity. Qed.

Section Model.

Variable REGULAR : string.
Variable default_status : string.
Variable default_fields : list (string * string).
Variable GradeForm : list (string * string) → Grade → BoundForm.
Variable update_status : Grade → string.
Variable set_iter : SetIter.

(** *** [get_or_create] *)

Lemma SubjectInscription_get_or_create_existing st sb w r :
  inscriptions_of st sb (db w) = [r] →
  SubjectInscription_get_or_create st sb w = (Ok (r, false), w).
Proof. intros H. unfold SubjectInscription_get_or_create. run. by rewrite H. Qed.

Lemma SubjectInscription_get_or_create_missing st sb w :
  inscriptions_of st sb (db w) = [] →
  let r := mkSubjectInscription (next_id (si_id <$> subject_inscriptions (db w))) st sb in
  SubjectInscription_get_or_create st sb w
  = (Ok (r, true),
     mkWorld (add_subject_inscription r (db w)) (messages w)
       (calls w ++ [CreateSubjectInscription r])).
Proof. intros H. unfold SubjectInscription_get_or_create. run. by rewrite H. Qed.

Lemma Grade_get_or_create_existing st sb w g :
  grades_of st sb (db w) = [g] →
  Grade_get_or_create default_status default_fields st sb w = (Ok (g, false), w).
Proof. intros H. unfold Grade_get_or_create. run. by rewrite H. Qed.

Lemma Grade_get_or_create_missing st sb w :
  grades_of st sb (db w) = [] →
  let g := mkGrade (next_id (grade_id <$> grades (db w))) st sb
             default_status default_fields in
  Grade_get_or_create default_status default_fields st sb w
  = (Ok (g, true),
     mkWorld (add_grades [g] (db w)) (messages w) (calls w ++ [CreateGrade g])).
Proof. intros H. unfold Grade_get_or_create. run. by rewrite H. Qed.

Lemma FinalExamInscription_get_or_create_existing st fe w r :
  final_inscriptions_of st fe (db w) = [r] →
  FinalExamInscription_get_or_create st fe w = (Ok (r, false), w).
Proof. intros H. unfold FinalExamInscription_get_or_create. run. by rewrite H. Qed.

Lemma FinalExamInscription_get_or_create_missing st fe w :
  final_inscriptions_of st fe (db w) = [] →
  let r := mkFinalExamInscription
             (next_id (fi_id <$> final_exam_inscriptions (db w))) st fe in
  FinalExamInscription_get_or_create st fe w
  = (Ok (r, true),
     mkWorld (add_final_exam_inscription r (db w)) (messages w)
       (calls w ++ [CreateFinalExamInscription r])).
Proof. intros H. unfold FinalExamInscription_get_or_create. run. by rewrite H. Qed.

(** *** [subject_inscribe] *)

(** The view up to its branch on the method, for a student whose career
    has exactly one subject with the code. *)
Lemma subject_inscribe_found rq code w u st sb :
  user rq = Some u → role u = STUDENT → student u = Some st →
  subjects_in_career code (student_career st) (db w) = [sb] →
  subject_inscribe default_status default_fields rq code w
  = match method rq with
    | POST =>
        (do oc <- SubjectInscription_get_or_create (student_pk st) (subject_id sb);
         Grade_get_or_create default_status default_fields
           (student_pk st) (subject_id sb) ;;
         (if oc.2
          then message SUCCESS "Inscripción a la materia realizada."
          else message INFO "Ya estabas inscripto en esta materia.") ;;
         ret (Redirect "users:student-dashboard")) w
    | GET => (Ok (Render "users/inscribe_confirm.html"), w)
    end.
Proof.
  intros Hu Hr Hs Hsb. unfold subject_inscribe.
  rewrite (user_passes_test_pass _ _ _ (is_student_intro _ _ Hu Hr)).
  unfold bind at 1. rewrite (request_student_ok _ _ _ _ Hu Hs).
  unfold bind at 1, query at 1. rewrite Hsb.
  unfold bind at 1, lift at 1. cbn [get_object_or_404 qs_get].
  by destruct (method rq).
Qed.

(** A POST by an eligible student: it succeeds, afterwards the pair has
    exactly one inscription and one grade, and when both were there the
    tables are untouched and the student is told so. *)
Lemma subject_inscribe_post rq code w u st sb :
  user rq = Some u → role u = STUDENT → student u = Some st →
  method rq = POST →
  subjects_in_career code (student_career st) (db w) = [sb] →
  (length (inscriptions_of (student_pk st) (subject_id sb) (db w)) ≤ 1)%nat →
  (length (grades_of (student_pk st) (subject_id sb) (db w)) ≤ 1)%nat →
  ∃ w',
    subject_inscribe default_status default_fields rq code w
    = (Ok (Redirect "users:student-dashboard"), w')
    ∧ length (inscriptions_of (student_pk st) (subject_id sb) (db w')) = 1%nat
    ∧ length (grades_of (student_pk st) (subject_id sb) (db w')) = 1%nat
    ∧ subjects (db w') = subjects (db w)
    ∧ (length (inscriptions_of (student_pk st) (subject_id sb) (db w)) = 1%nat →
       length (grades_of (student_pk st) (subject_id sb) (db w)) = 1%nat →
       w' = mkWorld (db w)
              (messages w ++ [(INFO, "Ya estabas inscripto en esta materia.")])
              (calls w)).
Proof.
  intros Hu Hr Hs Hm Hsb Hi Hg.
  rewrite (subject_inscribe_found _ _ _ _ _ _ Hu Hr Hs Hsb), Hm.
  destruct (at_most_one _ Hi) as [Hi0|[r Hi1]], (at_most_one _ Hg) as [Hg0|[g Hg1]].
  - unfold bind at 1. rewrite (SubjectInscription_get_or_create_missing _ _ _ Hi0).
    unfold bind at 1.
    rewrite Grade_get_or_create_missing by exact Hg0.
    run. eexists. split; [reflexivity|]. cbn [db].
    rewrite inscriptions_of_add_grades, inscriptions_of_add, Hi0.
    rewrite grades_of_add, grades_of_add_subject_inscription, Hg0. cbn [si_student si_subject].
    rewrite decide_True by done.
    rewrite filter_cons_True by done. rewrite filter_nil.
    repeat split; try done. all: rewrite Hi0; cbn; lia.
  - unfold bind at 1. rewrite (SubjectInscription_get_or_create_missing _ _ _ Hi0).
    unfold bind at 1.
    erewrite Grade_get_or_create_existing by exact Hg1.
    run. eexists. split; [reflexivity|]. cbn [db].
    rewrite inscriptions_of_add, Hi0, grades_of_add_subject_inscription, Hg1.
    cbn [si_student si_subject]. rewrite decide_True by done.
    repeat split; try done. all: rewrite Hi0; cbn; lia.
  - unfold bind at 1. rewrite (SubjectInscription_get_or_create_existing _ _ _ _ Hi1).
    unfold bind at 1. rewrite (Grade_get_or_create_missing _ _ _ Hg0).
    run. eexists. split; [reflexivity|]. cbn [db].
    rewrite inscriptions_of_add_grades, Hi1, grades_of_add, Hg0.
    rewrite filter_cons_True by done. rewrite filter_nil.
    repeat split; try done. all: rewrite Hg0; cbn; lia.
  - unfold bind at 1. rewrite (SubjectInscription_get_or_create_existing _ _ _ _ Hi1).
    unfold bind at 1. rewrite (Grade_get_or_create_existing _ _ _ _ Hg1).
    run. eexists. split; [reflexivity|]. cbn [db]. rewrite Hi1, Hg1. done.
Qed.

Lemma subjects_in_career_frame code k d d' :
  subjects d' = subjects d →
  subjects_in_career code k d' = subjects_in_career code k d.
Proof. unfold subjects_in_career. by intros ->. Qed.

(** The same POST, with the rows it appends and the message it queues. *)
Lemma subject_inscribe_post_rows rq code w u st sb :
  user rq = Some u → role u = STUDENT → student u = Some st →
  method rq = POST →
  subjects_in_career code (student_career st) (db w) = [sb] →
  (length (inscriptions_of (student_pk st) (subject_id sb) (db w)) ≤ 1)%nat →
  (length (grades_of (student_pk st) (subject_id sb) (db w)) ≤ 1)%nat →
  let new_si := mkSubjectInscription (next_id (si_id <$> subject_inscriptions (db w)))
                  (student_pk st) (subject_id sb) in
  let new_g := mkGrade (next_id (grade_id <$> grades (db w)))
                 (student_pk st) (subject_id sb) default_status default_fields in
  let out := subject_inscribe default_status default_fields rq code w in
  subject_inscriptions (db out.2)
  = subject_inscriptions (db w)
      ++ (if decide (inscriptions_of (student_pk st) (subject_id sb) (db w) = [])
          then [new_si] else [])
  ∧ grades (db out.2)
    = grades (db w)
        ++ (if decide (grades_of (student_pk st) (subject_id sb) (db w) = [])
            then [new_g] else [])
  ∧ messages out.2
    = messages w
        ++ [if decide (inscriptions_of (student_pk st) (subject_id sb) (db w) = [])
            then (SUCCESS, "Inscripción a la materia realizada.")
            else (INFO, "Ya estabas inscripto en esta materia.")].
Proof.
  intros Hu Hr Hs Hm Hsb Hi Hg new_si new_g out.
  assert (Hout : out = subject_inscribe default_status default_fields rq code w)
    by reflexivity.
  clearbody out.
  rewrite (subject_inscribe_found _ _ _ _ _ _ Hu Hr Hs Hsb), Hm in Hout.
  destruct (at_most_one _ Hi) as [Hi0|[r Hi1]], (at_most_one _ Hg) as [Hg0|[g Hg1]].
  - unfold bind at 1 in Hout.
    rewrite (SubjectInscription_get_or_create_missing _ _ _ Hi0) in Hout.
    unfold bind at 1 in Hout. rewrite Grade_get_or_create_missing in Hout by exact Hg0.
    run_in Hout. subst out. rewrite Hi0, Hg0. done.
  - unfold bind at 1 in Hout.
    rewrite (SubjectInscription_get_or_create_missing _ _ _ Hi0) in Hout.
    unfold bind at 1 in Hout. erewrite Grade_get_or_create_existing in Hout by exact Hg1.
    run_in Hout. subst out. rewrite Hi0, Hg1. cbn. by rewrite app_nil_r.
  - unfold bind at 1 in Hout.
    rewrite (SubjectInscription_get_or_create_existing _ _ _ _ Hi1) in Hout.
    unfold bind at 1 in Hout. rewrite (Grade_get_or_create_missing _ _ _ Hg0) in Hout.
    run_in Hout. subst out. rewrite Hi1, Hg0. cbn. by rewrite app_nil_r.
  - unfold bind at 1 in Hout.
    rewrite (SubjectInscription_get_or_create_existing _ _ _ _ Hi1) in Hout.
    unfold bind at 1 in Hout. rewrite (Grade_get_or_create_existing _ _ _ _ Hg1) in Hout.
    run_in Hout. subst out. rewrite Hi1, Hg1. cbn. by rewrite !app_nil_r.
Qed.

(** C4: for a student and a subject of the student's career, with at
    most one inscription and one grade stored for the pair, two POSTs of
    [subject_inscribe] both succeed.  The first appends to the table of
    inscriptions the row of the pair when there was none, and likewise a
    grade with the default columns to the table of grades, and tells the
    student which of the two happened; after it the tables hold exactly
    one [SubjectInscription] and exactly one [Grade] for the pair.  The
    second changes no table, writes nothing and tells the student that
    the inscription already existed. *)
Theorem subject_inscribe_twice rq code w u st sb :
  user rq = Some u → role u = STUDENT → student u = Some st →
  method rq = POST →
  subjects_in_career code (student_career st) (db w) = [sb] →
  (length (filter (λ r, si_student r = student_pk st ∧ si_subject r = subject_id sb)
             (subject_inscriptions (db w))) ≤ 1)%nat →
  (length (filter (λ g, grade_student g = student_pk st ∧ grade_subject g = subject_id sb)
             (grades (db w))) ≤ 1)%nat →
  let rows (x : World) :=
    filter (λ r, si_student r = student_pk st ∧ si_subject r = subject_id sb)
      (subject_inscriptions (db x)) in
  let grade_rows (x : World) :=
    filter (λ g, grade_student g = student_pk st ∧ grade_subject g = subject_id sb)
      (grades (db x)) in
  let new_si := mkSubjectInscription (next_id (si_id <$> subject_inscriptions (db w)))
                  (student_pk st) (subject_id sb) in
  let new_g := mkGrade (next_id (grade_id <$> grades (db w)))
                 (student_pk st) (subject_id sb) default_status default_fields in
  let run1 := subject_inscribe default_status default_fields rq code w in
  let run2 := subject_inscribe default_status default_fields rq code run1.2 in
  run1.1 = Ok (Redirect "users:student-dashboard")
  ∧ subject_inscriptions (db run1.2)
    = subject_inscriptions (db w) ++ (if decide (rows w = []) then [new_si] else [])
  ∧ grades (db run1.2)
    = grades (db w) ++ (if decide (grade_rows w = []) then [new_g] else [])
  ∧ messages run1.2
    = messages w
        ++ [if decide (rows w = [])
            then (SUCCESS, "Inscripción a la materia realizada.")
            else (INFO, "Ya estabas inscripto en esta materia.")]
  ∧ length (rows run1.2) = 1%nat
  ∧ length (grade_rows run1.2) = 1%nat
  ∧ run2 = (Ok (Redirect "users:student-dashboard"),
            mkWorld (db run1.2)
              (messages run1.2 ++ [(INFO, "Ya estabas inscripto en esta materia.")])
              (calls run1.2))
  ∧ length (rows run2.2) = 1%nat
  ∧ length (grade_rows run2.2) = 1%nat.
Proof.
  intros Hu Hr Hs Hm Hsb Hi Hg rows grade_rows new_si new_g run1 run2.
  destruct (subject_inscribe_post rq code w u st sb Hu Hr Hs Hm Hsb Hi Hg)
    as (w1 & Hrun1 & Hi1 & Hg1 & Hsubj & _).
  destruct (subject_inscribe_post_rows rq code w u st sb Hu Hr Hs Hm Hsb Hi Hg)
    as (Hrows & Hgrades & Hmsg).
  assert (Hsb1 : subjects_in_career code (student_career st) (db w1) = [sb])
    by (by rewrite (subjects_in_career_frame _ _ _ _ Hsubj)).
  destruct (subject_inscribe_post rq code w1 u st sb Hu Hr Hs Hm Hsb1) as
    (w2 & Hrun2 & _ & _ & _ & Hsame); [lia..|].
  specialize (Hsame Hi1 Hg1).
  split; [by subst run1; rewrite Hrun1|].
  split; [exact Hrows|]. split; [exact Hgrades|]. split; [exact Hmsg|].
  subst run2 run1 rows grade_rows. cbv beta.
  rewrite Hrun1. cbn [fst snd]. rewrite Hrun2, Hsame. cbn [snd db].
  done.
Qed.

(** *** What the two inscription views can write *)

Ltac cases_of_view :=
  run; repeat (case_match; simplify_eq/=).

(** [subject_inscribe] leaves the inscriptions as they are or appends one
    row: for the student of the request and the subject found in the
    student's career, on a POST. *)
Lemma subject_inscribe_creates rq code w :
  let w' := (subject_inscribe default_status default_fields rq code w).2 in
  subject_inscriptions (db w') = subject_inscriptions (db w)
  ∨ ∃ u st sb,
      user rq = Some u ∧ student u = Some st ∧ method rq = POST
      ∧ subjects_in_career code (student_career st) (db w) = [sb]
      ∧ subject_inscriptions (db w')
        = subject_inscriptions (db w)
            ++ [mkSubjectInscription (next_id (si_id <$> subject_inscriptions (db w)))
                  (student_pk st) (subject_id sb)].
Proof.
  cbv zeta. unfold subject_inscribe, user_passes_test, request_student,
    SubjectInscription_get_or_create, Grade_get_or_create, get_object_or_404, qs_get.
  cases_of_view; try (by left).
  all: right; do 3 eexists; repeat split; eauto.
Qed.

Lemma gate_open_regular (g : Grade) :
  bool_decide (status g ∉ [REGULAR]) = false → status g = REGULAR.
Proof.
  intros H%bool_decide_eq_false. apply dec_stable in H.
  by apply list_elem_of_singleton in H.
Qed.

(** [final_exam_inscribe] leaves the final-exam inscriptions as they are
    or appends one row: for the student of the request and the final exam
    found in the student's career, with a REGULAR latest grade, on a POST. *)
Lemma final_exam_inscribe_creates rq i w :
  let w' := (final_exam_inscribe REGULAR rq i w).2 in
  final_exam_inscriptions (db w') = final_exam_inscriptions (db w)
  ∨ ∃ u st fe g,
      user rq = Some u ∧ student u = Some st ∧ method rq = POST
      ∧ finals_in_career i (student_career st) (db w) = [fe]
      ∧ latest (grades_of (student_pk st) (subject fe) (db w)) = Some g
      ∧ status g = REGULAR
      ∧ final_exam_inscriptions (db w')
        = final_exam_inscriptions (db w)
            ++ [mkFinalExamInscription
                  (next_id (fi_id <$> final_exam_inscriptions (db w)))
                  (student_pk st) (final_id fe)].
Proof.
  cbv zeta. unfold final_exam_inscribe, user_passes_test, request_student,
    FinalExamInscription_get_or_create, get_object_or_404, qs_get.
  cases_of_view; try (by left).
  all: right; do 4 eexists; repeat split; eauto using gate_open_regular.
Qed.

Lemma subject_inscribe_not_found rq code w u st :
  user rq = Some u → role u = STUDENT → student u = Some st →
  subjects_in_career code (student_career st) (db w) = [] →
  subject_inscribe default_status default_fields rq code w = (Raise Http404, w).
Proof.
  intros Hu Hr Hs Hnone. unfold subject_inscribe.
  rewrite (user_passes_test_pass _ _ _ (is_student_intro _ _ Hu Hr)).
  unfold bind at 1. rewrite (request_student_ok _ _ _ _ Hu Hs).
  unfold bind at 1, query at 1. rewrite Hnone. reflexivity.
Qed.

Lemma final_exam_inscribe_not_found rq i w u st :
  user rq = Some u → role u = STUDENT → student u = Some st →
  finals_in_career i (student_career st) (db w) = [] →
  final_exam_inscribe REGULAR rq i w = (Raise Http404, w).
Proof.
  intros Hu Hr Hs Hnone. unfold final_exam_inscribe.
  rewrite (user_passes_test_pass _ _ _ (is_student_intro _ _ Hu Hr)).
  unfold bind at 1. rewrite (request_student_ok _ _ _ _ Hu Hs).
  unfold bind at 1, query at 1. rewrite Hnone. reflexivity.
Qed.

(** C8: for a student of career [student_career st], [subject_inscribe]
    raises the 404 when the career has no subject with the code, and
    [final_exam_inscribe] raises it when no final exam with the key
    belongs to a subject of the career, both without touching the store;
    and any inscription row either view adds is of this student and of a
    subject, respectively a final exam, of the student's career. *)
Theorem inscriptions_stay_in_career rq code i w u st :
  user rq = Some u → role u = STUDENT → student u = Some st →
  (subjects_in_career code (student_career st) (db w) = [] →
   subject_inscribe default_status default_fields rq code w = (Raise Http404, w))
  ∧ (finals_in_career i (student_career st) (db w) = [] →
     final_exam_inscribe REGULAR rq i w = (Raise Http404, w))
  ∧ (∀ r,
       r ∈ subject_inscriptions
             (db (subject_inscribe default_status default_fields rq code w).2) →
       r ∉ subject_inscriptions (db w) →
       si_student r = student_pk st
       ∧ ∃ sb, sb ∈ subjects (db w) ∧ subject_id sb = si_subject r
               ∧ career sb = student_career st)
  ∧ (∀ r,
       r ∈ final_exam_inscriptions (db (final_exam_inscribe REGULAR rq i w).2) →
       r ∉ final_exam_inscriptions (db w) →
       fi_student r = student_pk st
       ∧ ∃ fe, fe ∈ final_exams (db w) ∧ final_id fe = fi_final_exam r
               ∧ subject__career fe (db w) = Some (student_career st)).
Proof.
  intros Hu Hr Hs. split; [|split; [|split]].
  - by apply subject_inscribe_not_found with u.
  - by apply final_exam_inscribe_not_found with u.
  - intros r Hin Hnew.
    destruct (subject_inscribe_creates rq code w)
      as [Hsame|(u' & st' & sb & Hu' & Hs' & _ & Hsb & Happ)].
    { by rewrite Hsame in Hin. }
    rewrite Happ in Hin. simplify_eq.
    apply elem_of_app in Hin as [?|Hin]; [done|].
    apply list_elem_of_singleton in Hin as ->.
    split; [done|]. exists sb.
    pose proof (list_elem_of_here sb []) as Hmem. rewrite <- Hsb in Hmem.
    apply list_elem_of_filter in Hmem as [[_ Hc] Hmem]. done.
  - intros r Hin Hnew.
    destruct (final_exam_inscribe_creates rq i w)
      as [Hsame|(u' & st' & fe & g & Hu' & Hs' & _ & Hfe & _ & _ & Happ)].
    { by rewrite Hsame in Hin. }
    rewrite Happ in Hin. simplify_eq.
    apply elem_of_app in Hin as [?|Hin]; [done|].
    apply list_elem_of_singleton in Hin as ->.
    split; [done|]. exists fe.
    pose proof (list_elem_of_here fe []) as Hmem. rewrite <- Hfe in Hmem.
    apply list_elem_of_filter in Hmem as [[_ Hc] Hmem]. done.
Qed.

(** A request that is not a student's writes nothing at all. *)
Lemma subject_inscribe_requires_student rq code w :
  is_student (user rq) = false →
  subject_inscribe default_status default_fields rq code w = (Ok LoginRedirect, w).
Proof. intros H. unfold subject_inscribe. by rewrite user_passes_test_fail. Qed.

(** C10: on a GET, [subject_inscribe] and [final_exam_inscribe] write
    nothing: the tables and the list of writes are as before ([subject_inscribe]
    leaves the whole store as it was; [final_exam_inscribe] may queue
    its error message). *)
Theorem inscribe_get_reads_only rq code i w :
  method rq = GET →
  (subject_inscribe default_status default_fields rq code w).2 = w
  ∧ db (final_exam_inscribe REGULAR rq i w).2 = db w
  ∧ calls (final_exam_inscribe REGULAR rq i w).2 = calls w.
Proof.
  intros Hm. split; [|split].
  - unfold subject_inscribe, user_passes_test, request_student,
      get_object_or_404, qs_get. rewrite Hm. by cases_of_view.
  - unfold final_exam_inscribe, user_passes_test, request_student,
      get_object_or_404, qs_get. rewrite Hm. by cases_of_view.
  - unfold final_exam_inscribe, user_passes_test, request_student,
      get_object_or_404, qs_get. rewrite Hm. by cases_of_view.
Qed.

(** *** [final_exam_inscribe] *)

Lemma finals_in_career_frame i k d d' :
  subjects d' = subjects d → final_exams d' = final_exams d →
  finals_in_career i k d' = finals_in_career i k d.
Proof.
  unfold finals_in_career, subject__career. intros -> ->. reflexivity.
Qed.

Lemma ineligible_frame st sb d d' :
  grades d' = grades d →
  ineligible REGULAR st sb d' ↔ ineligible REGULAR st sb d.
Proof. unfold ineligible, grades_of. by intros ->. Qed.

Lemma final_exam_inscribe_ineligible rq i w u st fe :
  user rq = Some u → role u = STUDENT → student u = Some st →
  finals_in_career i (student_career st) (db w) = [fe] →
  ineligible REGULAR (student_pk st) (subject fe) (db w) →
  final_exam_inscribe REGULAR rq i w = IneligibleState w.
Proof.
  intros Hu Hr Hs Hfe Hin. unfold final_exam_inscribe.
  rewrite (user_passes_test_pass _ _ _ (is_student_intro _ _ Hu Hr)).
  unfold bind at 1. rewrite (request_student_ok _ _ _ _ Hu Hs).
  unfold bind at 1, query at 1. rewrite Hfe.
  unfold bind at 1, lift at 1. cbn [get_object_or_404 qs_get].
  unfold bind at 1, query at 1. unfold ineligible in Hin.
  destruct (latest _) as [g|]; [|reflexivity].
  rewrite bool_decide_eq_true_2; [reflexivity|].
  by intros ?%list_elem_of_singleton.
Qed.

Lemma final_exam_inscribe_eligible rq i w u st fe :
  user rq = Some u → role u = STUDENT → student u = Some st →
  finals_in_career i (student_career st) (db w) = [fe] →
  ¬ ineligible REGULAR (student_pk st) (subject fe) (db w) →
  final_exam_inscribe REGULAR rq i w
  = match method rq with
    | POST =>
        (FinalExamInscription_get_or_create (student_pk st) (final_id fe) ;;
         message SUCCESS "Inscripción al final realizada." ;;
         ret (Redirect "users:student-dashboard")) w
    | GET => (Ok (Render "users/inscribe_confirm.html"), w)
    end.
Proof.
  intros Hu Hr Hs Hfe Hin. unfold final_exam_inscribe.
  rewrite (user_passes_test_pass _ _ _ (is_student_intro _ _ Hu Hr)).
  unfold bind at 1. rewrite (request_student_ok _ _ _ _ Hu Hs).
  unfold bind at 1, query at 1. rewrite Hfe.
  unfold bind at 1, lift at 1. cbn [get_object_or_404 qs_get].
  unfold bind at 1, query at 1. unfold ineligible in Hin.
  destruct (latest _) as [g|]; [|done].
  rewrite bool_decide_eq_false_2.
  - by destruct (method rq).
  - intros Hne. apply Hin. intros Heq. apply Hne. rewrite Heq. apply list_elem_of_here.
Qed.

(** One run for an eligible student: the response, the tables the gate
    reads, and the two ways the inscriptions can come out. *)
Lemma final_exam_inscribe_eligible_step rq i w u st fe :
  user rq = Some u → role u = STUDENT → student u = Some st →
  finals_in_career i (student_career st) (db w) = [fe] →
  ¬ ineligible REGULAR (student_pk st) (subject fe) (db w) →
  (length (final_inscriptions_of (student_pk st) (final_id fe) (db w)) ≤ 1)%nat →
  let out := final_exam_inscribe REGULAR rq i w in
  out.1 = Ok (match method rq with
              | POST => Redirect "users:student-dashboard"
              | GET => Render "users/inscribe_confirm.html"
              end)
  ∧ subjects (db out.2) = subjects (db w)
  ∧ final_exams (db out.2) = final_exams (db w)
  ∧ grades (db out.2) = grades (db w)
  ∧ (length (final_inscriptions_of (student_pk st) (final_id fe) (db out.2)) ≤ 1)%nat
  ∧ (method rq = POST →
     length (final_inscriptions_of (student_pk st) (final_id fe) (db out.2)) = 1%nat)
  ∧ (length (final_exam_inscriptions (db out.2))
      + length (final_inscriptions_of (student_pk st) (final_id fe) (db w))
     = length (final_exam_inscriptions (db w))
      + length (final_inscriptions_of (student_pk st) (final_id fe) (db out.2)))%nat
  ∧ (method rq = POST → messages out.2 ≠ messages (IneligibleState w).2).
Proof.
  intros Hu Hr Hs Hfe Hin Hlen out. subst out.
  rewrite (final_exam_inscribe_eligible _ _ _ _ _ _ Hu Hr Hs Hfe Hin).
  destruct (method rq).
  { cbn [fst snd]. repeat split; try done. all: lia. }
  destruct (at_most_one _ Hlen) as [H0|[r H1]].
  - unfold bind.
    rewrite (FinalExamInscription_get_or_create_missing _ _ _ H0). run.
    rewrite final_inscriptions_of_add, H0. cbn [fi_student fi_final_exam].
    rewrite decide_True by done.
    repeat split; try done.
    + unfold add_final_exam_inscription. cbn. rewrite length_app. cbn. lia.
    + intros _ [=]%app_inv_head.
  - unfold bind.
    rewrite (FinalExamInscription_get_or_create_existing _ _ _ _ H1). run.
    rewrite H1. repeat split; try done. intros _ [=]%app_inv_head.
Qed.

(** Any number of runs for an eligible student. *)
Lemma final_exam_inscribe_repeated rq i u st fe n : ∀ w,
  user rq = Some u → role u = STUDENT → student u = Some st →
  finals_in_career i (student_career st) (db w) = [fe] →
  ¬ ineligible REGULAR (student_pk st) (subject fe) (db w) →
  (length (final_inscriptions_of (student_pk st) (final_id fe) (db w)) ≤ 1)%nat →
  let wn := run_times n (final_exam_inscribe REGULAR rq i) w in
  (length (final_inscriptions_of (student_pk st) (final_id fe) (db wn)) ≤ 1)%nat
  ∧ (length (final_exam_inscriptions (db wn))
      + length (final_inscriptions_of (student_pk st) (final_id fe) (db w))
     = length (final_exam_inscriptions (db w))
      + length (final_inscriptions_of (student_pk st) (final_id fe) (db wn)))%nat
  ∧ (method rq = POST → (1 ≤ n)%nat →
     length (final_inscriptions_of (student_pk st) (final_id fe) (db wn)) = 1%nat).
Proof.
  induction n as [|n IH]; intros w Hu Hr Hs Hfe Hin Hlen; cbn [run_times].
  { cbv zeta. split; [done|]. split; [done|]. intros _ ?. lia. }
  destruct (final_exam_inscribe_eligible_step rq i w u st fe Hu Hr Hs Hfe Hin Hlen)
    as (_ & Hsb & Hfx & Hgr & Hlen1 & Hpost & Hcount & _).
  set (w1 := (final_exam_inscribe REGULAR rq i w).2) in *.
  assert (Hfe1 : finals_in_career i (student_career st) (db w1) = [fe])
    by (by rewrite (finals_in_career_frame _ _ _ _ Hsb Hfx)).
  assert (Hin1 : ¬ ineligible REGULAR (student_pk st) (subject fe) (db w1))
    by (by rewrite (ineligible_frame _ _ _ _ Hgr)).
  destruct (IH w1 Hu Hr Hs Hfe1 Hin1 Hlen1) as (Hle & Hcnt & Hone).
  cbv zeta. split; [done|]. split; [lia|].
  intros Hm _. destruct n as [|n]; [by apply Hpost|]. apply Hone; [done|lia].
Qed.

(** A POST by a student the gate lets through: the row it appends and the
    message it queues. *)
Lemma final_exam_inscribe_eligible_post rq i w u st fe :
  user rq = Some u → role u = STUDENT → student u = Some st →
  finals_in_career i (student_career st) (db w) = [fe] →
  ¬ ineligible REGULAR (student_pk st) (subject fe) (db w) →
  (length (final_inscriptions_of (student_pk st) (final_id fe) (db w)) ≤ 1)%nat →
  method rq = POST →
  let new := mkFinalExamInscription (next_id (fi_id <$> final_exam_inscriptions (db w)))
               (student_pk st) (final_id fe) in
  let out := final_exam_inscribe REGULAR rq i w in
  final_exam_inscriptions (db out.2)
  = final_exam_inscriptions (db w)
      ++ (if decide (final_inscriptions_of (student_pk st) (final_id fe) (db w) = [])
          then [new] else [])
  ∧ messages out.2 = messages w ++ [(SUCCESS, "Inscripción al final realizada.")].
Proof.
  intros Hu Hr Hs Hfe Hin Hlen Hm new out.
  assert (Hout : out = final_exam_inscribe REGULAR rq i w) by reflexivity.
  clearbody out.
  rewrite (final_exam_inscribe_eligible _ _ _ _ _ _ Hu Hr Hs Hfe Hin), Hm in Hout.
  destruct (at_most_one _ Hlen) as [H0|[r H1]].
  - unfold bind in Hout.
    rewrite (FinalExamInscription_get_or_create_missing _ _ _ H0) in Hout.
    run_in Hout. subst out. by rewrite H0.
  - unfold bind in Hout.
    rewrite (FinalExamInscription_get_or_create_existing _ _ _ _ H1) in Hout.
    run_in Hout. subst out. rewrite H1. cbn. by rewrite app_nil_r.
Qed.

(** C3: for a student and a final exam of the student's career, in a
    store with unique grade keys.  The view gives the ineligible outcome
    (redirect to the dashboard with the error message, tables untouched)
    exactly when the table of grades has no row for the student and the
    exam's subject, or the row with the greatest key among them has a
    status other than REGULAR.  When that row is REGULAR the view
    succeeds: a POST appends the inscription of the pair to the table
    when there was none and queues the success message, and starting from
    at most one stored inscription for the pair, any number of runs
    leaves at most one inscription for the pair and adds at most one row
    to the table; after a POST there is exactly one. *)
Theorem final_exam_inscribe_gate rq i w u st fe :
  user rq = Some u → role u = STUDENT → student u = Some st →
  finals_in_career i (student_career st) (db w) = [fe] →
  NoDup (grade_id <$> grades (db w)) →
  (length (filter (λ r, fi_student r = student_pk st ∧ fi_final_exam r = final_id fe)
             (final_exam_inscriptions (db w))) ≤ 1)%nat →
  let gs := filter (λ g, grade_student g = student_pk st ∧ grade_subject g = subject fe)
              (grades (db w)) in
  let rows (x : World) :=
    filter (λ r, fi_student r = student_pk st ∧ fi_final_exam r = final_id fe)
      (final_exam_inscriptions (db x)) in
  let new := mkFinalExamInscription (next_id (fi_id <$> final_exam_inscriptions (db w)))
               (student_pk st) (final_id fe) in
  let view := final_exam_inscribe REGULAR rq i in
  (view w = IneligibleState w
   ↔ gs = [] ∨ ∃ g, most_recent g gs ∧ status g ≠ REGULAR)
  ∧ (∀ g, most_recent g gs → status g = REGULAR →
     (view w).1 = Ok (match method rq with
                      | POST => Redirect "users:student-dashboard"
                      | GET => Render "users/inscribe_confirm.html"
                      end)
     ∧ (method rq = POST →
        final_exam_inscriptions (db (view w).2)
        = final_exam_inscriptions (db w) ++ (if decide (rows w = []) then [new] else [])
        ∧ messages (view w).2
          = messages w ++ [(SUCCESS, "Inscripción al final realizada.")])
     ∧ ∀ n, let wn := run_times n view w in
         (length (rows wn) ≤ 1)%nat
         ∧ (length (final_exam_inscriptions (db wn))
            ≤ length (final_exam_inscriptions (db w)) + 1)%nat
         ∧ (method rq = POST → (1 ≤ n)%nat → length (rows wn) = 1%nat)).
Proof.
  intros Hu Hr Hs Hfe Hnd Hlen gs rows new view. subst view.
  destruct (gate_on_table REGULAR (student_pk st) (subject fe) (db w) Hnd)
    as [Hclosed Hopen]. fold gs in Hclosed, Hopen.
  split.
  - rewrite <- Hclosed. split.
    + intros Hout.
      destruct (decide (ineligible REGULAR (student_pk st) (subject fe) (db w)))
        as [|Hin]; [done|]. exfalso.
      destruct (final_exam_inscribe_eligible_step rq i w u st fe Hu Hr Hs Hfe Hin Hlen)
        as (Hresp & _ & _ & _ & _ & _ & _ & Hmsg).
      rewrite Hout in Hresp, Hmsg. destruct (method rq); [done|]. by apply Hmsg.
    + by apply final_exam_inscribe_ineligible with u.
  - intros g Hg Hst.
    assert (Hin : ¬ ineligible REGULAR (student_pk st) (subject fe) (db w))
      by (apply Hopen; eauto).
    split; [|split].
    + by destruct (final_exam_inscribe_eligible_step rq i w u st fe Hu Hr Hs Hfe Hin Hlen)
        as (Hresp & _).
    + intros Hm.
      exact (final_exam_inscribe_eligible_post rq i w u st fe Hu Hr Hs Hfe Hin Hlen Hm).
    + intros n.
      destruct (final_exam_inscribe_repeated rq i u st fe n w Hu Hr Hs Hfe Hin Hlen)
        as (Hle & Hcnt & Hone).
      cbv zeta. split; [done|]. split; [|done].
      unfold final_inscriptions_of in Hcnt, Hle, Hlen. lia.
Qed.

(** *** [grade_edit] *)

(** The view once the professor, the grade and its subject are found. *)
Lemma grade_edit_found rq pk w u p g sb :
  user rq = Some u → role u = PROFESSOR → professor u = Some p →
  filter (λ r, grade_id r = pk) (grades (db w)) = [g] →
  filter (λ s, subject_id s = grade_subject g) (subjects (db w)) = [sb] →
  grade_edit GradeForm update_status rq pk w
  = if negb (bool_decide ((subject_id sb, p) ∈ subject_professors (db w))) then
      (Ok (Redirect "users:professor-dashboard"),
       mkWorld (db w)
         (messages w ++ [(ERROR, "No puede editar notas de materias no asignadas.")])
         (calls w))
    else if bool_decide (inscriptions_of (grade_student g) (grade_subject g) (db w) = [])
    then
      redirect_grade_list (code sb)
        (mkWorld (db w)
           (messages w
              ++ [(ERROR, "Solo puede calificar a estudiantes inscriptos en la materia.")])
           (calls w))
    else
      match method rq with
      | POST =>
          let form := GradeForm (POST_data rq) g in
          if is_valid form then
            let saved := mkGrade (grade_id g) (grade_student g) (grade_subject g)
                           (cleaned_status form) (cleaned_fields form) in
            if negb (bool_decide ("status" ∈ changed_data form)) then
              let updated := mkGrade (grade_id saved) (grade_student saved)
                               (grade_subject saved) (update_status saved)
                               (fields saved) in
              redirect_grade_list (code sb)
                (mkWorld (store_grade updated (store_grade saved (db w))) (messages w)
                   (calls w ++ [SaveGrade saved; UpdateStatus saved]))
            else
              redirect_grade_list (code sb)
                (mkWorld (store_grade saved (db w)) (messages w)
                   (calls w ++ [SaveGrade saved]))
          else (Ok (Render "users/grade_form.html"), w)
      | GET => (Ok (Render "users/grade_form.html"), w)
      end.
Proof.
  intros Hu Hr Hp Hg Hsb. unfold grade_edit.
  rewrite (user_passes_test_pass _ _ _ (is_professor_intro _ _ Hu Hr)).
  unfold bind at 1, query at 1. rewrite Hg.
  unfold bind at 1, lift at 1. cbn [get_object_or_404 qs_get].
  unfold bind at 1, query at 1. rewrite Hsb.
  unfold bind at 1, lift at 1. cbn [qs_get].
  unfold bind at 1. rewrite (request_professor_ok _ _ _ _ Hu Hp).
  unfold bind at 1, query at 1.
  destruct (bool_decide ((subject_id sb, p) ∈ subject_professors (db w))); cbn [negb].
  2: { reflexivity. }
  unfold bind at 1, query at 1.
  destruct (bool_decide (inscriptions_of _ _ (db w) = [])).
  { reflexivity. }
  destruct (method rq); [reflexivity|]. cbv zeta.
  destruct (is_valid _); [|reflexivity].
  destruct (bool_decide ("status" ∈ _)); cbn [negb]; run; by rewrite <- ?app_assoc.
Qed.


(** C5: on a valid POST that passes both checks, the form is saved, and
    then exactly one of two things happens.  When [status] is among the
    changed fields nothing else is written: the stored row carries the
    form's status.  Otherwise [update_status] runs on the saved row, and
    the stored row carries the status it computes.  The writes are made
    before the view builds its answer: the redirect to the grade list of
    the subject, or [NoReverseMatch] when the subject's code cannot stand
    in the route. *)
Theorem grade_edit_status_rule rq pk w u p g sb :
  user rq = Some u → role u = PROFESSOR → professor u = Some p →
  filter (λ r, grade_id r = pk) (grades (db w)) = [g] →
  filter (λ s, subject_id s = grade_subject g) (subjects (db w)) = [sb] →
  (subject_id sb, p) ∈ subject_professors (db w) →
  inscriptions_of (grade_student g) (grade_subject g) (db w) ≠ [] →
  method rq = POST →
  is_valid (GradeForm (POST_data rq) g) = true →
  let form := GradeForm (POST_data rq) g in
  let saved := mkGrade (grade_id g) (grade_student g) (grade_subject g)
                 (cleaned_status form) (cleaned_fields form) in
  let updated := mkGrade (grade_id g) (grade_student g) (grade_subject g)
                   (update_status saved) (cleaned_fields form) in
  let out := grade_edit GradeForm update_status rq pk w in
  out.1 = (if decide (Urls.url_segment (code sb))
           then Ok (RedirectArg "users:grade-list" (code sb))
           else Raise NoReverseMatch)
  ∧ ("status" ∈ changed_data form →
     calls out.2 = calls w ++ [SaveGrade saved]
     ∧ db out.2 = store_grade saved (db w)
     ∧ saved ∈ grades (db out.2))
  ∧ ("status" ∉ changed_data form →
     calls out.2 = calls w ++ [SaveGrade saved; UpdateStatus saved]
     ∧ db out.2 = store_grade updated (store_grade saved (db w))
     ∧ updated ∈ grades (db out.2))
  ∧ (∃ new, calls out.2 = calls w ++ new
            ∧ (UpdateStatus saved ∈ new ↔ "status" ∉ changed_data form)).
Proof.
  intros Hu Hr Hp Hg Hsb Hass Hins Hm Hval form saved updated out. subst out.
  rewrite (grade_edit_found _ _ _ _ _ _ _ Hu Hr Hp Hg Hsb).
  rewrite (bool_decide_eq_true_2 _ Hass), (bool_decide_eq_false_2 _ Hins), Hm.
  cbn [negb]. cbv zeta. rewrite Hval. fold form. fold saved.
  assert (Hmem : g ∈ grades (db w)).
  { pose proof (list_elem_of_here g []) as H. rewrite <- Hg in H.
    by apply list_elem_of_filter in H as [_ ?]. }
  assert (Hsaved : saved ∈ grades (store_grade saved (db w))).
  { unfold store_grade. cbn [grades]. apply list_elem_of_fmap. exists g.
    split; [|done]. by rewrite decide_True. }
  destruct (bool_decide_reflect ("status" ∈ changed_data form)) as [Hch|Hch];
    cbn [negb]; rewrite redirect_grade_list_run; cbn [fst snd db calls].
  - split; [done|]. split; [done|]. split; [done|].
    exists [SaveGrade saved]. split; [done|]. split; [|done].
    intros Hin. apply list_elem_of_singleton in Hin. done.
  - split; [done|]. split; [done|]. split.
    + intros _. split; [done|]. split; [done|].
      unfold store_grade at 1. cbn [grades]. apply list_elem_of_fmap. exists saved.
      split; [|done]. by rewrite decide_True.
    + exists [SaveGrade saved; UpdateStatus saved]. split; [done|].
      split; [done|]. intros _. apply list_elem_of_further, list_elem_of_here.
Qed.

(** *** [grade_list] and the backfill of missing grades *)

Lemma elem_of_enrolled_student_ids sid sb d :
  sid ∈ enrolled_student_ids sb d
  ↔ ∃ r, r ∈ subject_inscriptions d ∧ si_subject r = sb ∧ si_student r = sid.
Proof.
  unfold enrolled_student_ids. rewrite elem_of_list_to_set, list_elem_of_fmap. split.
  - intros [r [-> [? ?]%list_elem_of_filter]]. eauto.
  - intros [r (? & ? & ?)]. exists r. split; [done|]. by apply list_elem_of_filter.
Qed.

Lemma elem_of_existing_grade_student_ids sid sb d :
  sid ∈ existing_grade_student_ids sb d
  ↔ ∃ g, g ∈ grades d ∧ grade_subject g = sb ∧ grade_student g = sid.
Proof.
  unfold existing_grade_student_ids. rewrite elem_of_list_to_set, list_elem_of_fmap. split.
  - intros [g [-> [? ?]%list_elem_of_filter]]. eauto.
  - intros [g (? & ? & ?)]. exists g. split; [done|]. by apply list_elem_of_filter.
Qed.

Lemma new_grades_students first sb sids :
  grade_student <$> new_grades default_status default_fields first sb sids = sids.
Proof.
  revert first. induction sids as [|sid sids IH]; intros first; cbn; [done|].
  by rewrite IH.
Qed.

Lemma new_grades_default first sb sids :
  Forall (λ g, grade_subject g = sb ∧ status g = default_status
               ∧ fields g = default_fields)
    (new_grades default_status default_fields first sb sids).
Proof.
  revert first. induction sids as [|sid sids IH]; intros first; cbn; constructor; auto.
Qed.

Lemma new_grades_of_subject first sb sids :
  filter (λ g, grade_subject g = sb)
    (new_grades default_status default_fields first sb sids)
  = new_grades default_status default_fields first sb sids.
Proof.
  revert first. induction sids as [|sid sids IH]; intros first; cbn [new_grades]; [done|].
  rewrite filter_cons_True by done. by rewrite IH.
Qed.

(** The keys of a batch are consecutive from the first one. *)
Lemma new_grades_ids first sb sids :
  grade_id <$> new_grades default_status default_fields first sb sids
  = (λ k, first + Z.of_nat k) <$> seq 0 (length sids).
Proof.
  revert first. induction sids as [|sid sids IH]; intros first; [done|].
  cbn [new_grades fmap list_fmap length seq grade_id]. f_equal.
  - lia.
  - rewrite IH. rewrite <- (fmap_S_seq 0), <- list_fmap_compose.
    apply list_fmap_ext. intros _ k _. cbn. lia.
Qed.

Lemma existing_after_backfill first sb (missing : gset Z) d :
  existing_grade_student_ids sb
    (add_grades (new_grades default_status default_fields first sb (iter set_iter missing)) d)
  = existing_grade_student_ids sb d ∪ missing.
Proof.
  unfold existing_grade_student_ids, add_grades. cbn [grades].
  rewrite filter_app, fmap_app, list_to_set_app_L.
  rewrite new_grades_of_subject, new_grades_students.
  by rewrite (iter_perm set_iter missing), list_to_set_elements_L.
Qed.

(** The view for a professor the subject is assigned to. *)
Lemma grade_list_found rq c w u p sb :
  user rq = Some u → role u = PROFESSOR → professor u = Some p →
  filter (λ s, code s = c ∧ (subject_id s, p) ∈ subject_professors (db w))
    (subjects (db w)) = [sb] →
  let missing := enrolled_student_ids (subject_id sb) (db w)
                   ∖ existing_grade_student_ids (subject_id sb) (db w) in
  let gs := new_grades default_status default_fields
              (next_id (grade_id <$> grades (db w))) (subject_id sb)
              (iter set_iter missing) in
  grade_list default_status default_fields set_iter rq c w
  = (Ok (Render "users/grade_list.html"),
     if decide (missing ≠ ∅)
     then mkWorld (add_grades gs (db w)) (messages w) (calls w ++ [BulkCreateGrade gs])
     else w).
Proof.
  intros Hu Hr Hp Hsb missing gs. unfold grade_list.
  rewrite (user_passes_test_pass _ _ _ (is_professor_intro _ _ Hu Hr)).
  unfold bind at 1. rewrite (request_professor_ok _ _ _ _ Hu Hp).
  unfold bind at 1, query at 1. rewrite Hsb.
  unfold bind at 1, lift at 1. cbn [get_object_or_404 qs_get].
  unfold bind at 1, query at 1. unfold bind at 1, query at 1.
  fold missing. destruct (decide (missing ≠ ∅)); run; reflexivity.
Qed.

(** C6: for a professor of the subject and whatever the order in which
    the interpreter walks the set of missing students, [grade_list]
    appends one grade row with the default columns for each student that
    has an inscription in the subject and no grade row for it, and for
    nobody else; the rows take fresh consecutive keys in the order of the
    walk and go in as one [bulk_create] (none when nobody is missing); a
    second run right after finds nobody missing and writes nothing. *)
Theorem grade_list_backfill rq c w u p sb :
  user rq = Some u → role u = PROFESSOR → professor u = Some p →
  filter (λ s, code s = c ∧ (subject_id s, p) ∈ subject_professors (db w))
    (subjects (db w)) = [sb] →
  let missing := enrolled_student_ids (subject_id sb) (db w)
                   ∖ existing_grade_student_ids (subject_id sb) (db w) in
  let gs := new_grades default_status default_fields
              (next_id (grade_id <$> grades (db w))) (subject_id sb)
              (iter set_iter missing) in
  let run1 := grade_list default_status default_fields set_iter rq c w in
  let run2 := grade_list default_status default_fields set_iter rq c run1.2 in
  run1.1 = Ok (Render "users/grade_list.html")
  ∧ grades (db run1.2) = grades (db w) ++ gs
  ∧ calls run1.2 = calls w ++ (if decide (missing = ∅) then [] else [BulkCreateGrade gs])
  ∧ (∀ sid, sid ∈ grade_student <$> gs
            ↔ (∃ r, r ∈ subject_inscriptions (db w) ∧ si_subject r = subject_id sb
                    ∧ si_student r = sid)
              ∧ ¬ (∃ g, g ∈ grades (db w) ∧ grade_subject g = subject_id sb
                        ∧ grade_student g = sid))
  ∧ NoDup (grade_student <$> gs)
  ∧ grade_id <$> gs
    = (λ k, next_id (grade_id <$> grades (db w)) + Z.of_nat k) <$> seq 0 (length gs)
  ∧ Forall (λ g, grade_subject g = subject_id sb ∧ status g = default_status
                 ∧ fields g = default_fields) gs
  ∧ run2 = (Ok (Render "users/grade_list.html"), run1.2).
Proof.
  intros Hu Hr Hp Hsb missing gs run1 run2.
  assert (Hrun1 : run1 = (Ok (Render "users/grade_list.html"),
                          if decide (missing ≠ ∅)
                          then mkWorld (add_grades gs (db w)) (messages w)
                                 (calls w ++ [BulkCreateGrade gs])
                          else w))
    by apply (grade_list_found _ _ _ _ _ _ Hu Hr Hp Hsb).
  assert (Hstud : grade_student <$> gs = iter set_iter missing)
    by apply new_grades_students.
  assert (Hempty : missing = ∅ → gs = []).
  { intros Hm. subst gs.
    assert (Hnil : iter set_iter missing = []).
    { apply Permutation_nil_r. rewrite (iter_perm set_iter missing), Hm.
      by rewrite elements_empty. }
    by rewrite Hnil. }
  split; [by rewrite Hrun1|].
  split.
  { rewrite Hrun1. cbn [snd]. destruct (decide (missing ≠ ∅)) as [|Hm]; [done|].
    apply dec_stable in Hm. by rewrite (Hempty Hm), app_nil_r. }
  split.
  { rewrite Hrun1. cbn [snd].
    destruct (decide (missing ≠ ∅)) as [Hm|Hm].
    - by rewrite decide_False.
    - apply dec_stable in Hm. by rewrite decide_True, app_nil_r. }
  split.
  { intros sid. rewrite Hstud, (iter_perm set_iter missing), elem_of_elements.
    subst missing.
    rewrite elem_of_difference, elem_of_enrolled_student_ids,
      elem_of_existing_grade_student_ids. done. }
  split; [rewrite Hstud, (iter_perm set_iter missing); apply NoDup_elements|].
  split.
  { subst gs. rewrite new_grades_ids. f_equal.
    rewrite <- (length_fmap grade_student), new_grades_students. done. }
  split; [apply new_grades_default|].
  (* the second run *)
  subst run2. rewrite Hrun1. cbn [snd].
  destruct (decide (missing ≠ ∅)) as [Hm|Hm].
  - rewrite (grade_list_found rq c _ u p sb Hu Hr Hp) by exact Hsb.
    f_equal. rewrite decide_False; [done|].
    intros Hne. apply Hne. cbn [db].
    change (enrolled_student_ids (subject_id sb) (add_grades gs (db w)))
      with (enrolled_student_ids (subject_id sb) (db w)).
    subst gs. rewrite existing_after_backfill. fold missing. subst missing.
    apply set_eq. intros x. rewrite !elem_of_difference, elem_of_union, elem_of_difference.
    split; [|set_solver]. intros [Hx Hn]. exfalso. apply Hn.
    destruct (decide (x ∈ existing_grade_student_ids (subject_id sb) (db w))); auto.
  - rewrite (grade_list_found rq c w u p sb Hu Hr Hp Hsb).
    f_equal. fold missing. by rewrite decide_False.
Qed.

End Model.

(** Student 6 enrolls in ALG, where neither the inscription nor the grade
    exists: the first POST stores both, the second stores nothing. *)
Lemma subject_inscribe_twice_witness :
  let rq := post_by student_6 [] in
  let run1 := subject_inscribe "" [] rq "ALG" campus in
  let run2 := subject_inscribe "" [] rq "ALG" run1.2 in
  (subjects_in_career "ALG" 1 (db campus) = [mkSubject 10 "ALG" 1]
   ∧ filter (λ r, si_student r = 6 ∧ si_subject r = 10) (subject_inscriptions (db campus))
     = []
   ∧ filter (λ g, grade_student g = 6 ∧ grade_subject g = 10) (grades (db campus)) = [])
  ∧ run1.1 = Ok (Redirect "users:student-dashboard")
  ∧ subject_inscriptions (db run1.2)
    = subject_inscriptions (db campus) ++ [mkSubjectInscription 4 6 10]
  ∧ grades (db run1.2) = grades (db campus) ++ [mkGrade 2 6 10 "" []]
  ∧ messages run1.2 = [(SUCCESS, "Inscripción a la materia realizada.")]
  ∧ run2 = (Ok (Redirect "users:student-dashboard"),
            mkWorld (db run1.2)
              (messages run1.2 ++ [(INFO, "Ya estabas inscripto en esta materia.")])
              (calls run1.2)).
Proof.
  split; [repeat split; reflexivity|].
  destruct (subject_inscribe_twice "" [] (post_by student_6 []) "ALG" campus
              student_6 (mkStudent 6 1) (mkSubject 10 "ALG" 1))
    as (H1 & H2 & H3 & H4 & _ & _ & H5 & _);
    try reflexivity; [vm_compute; lia..|].
  repeat split; assumption.
Defined.

(** Student 5 asks for final exam 100, on ALG, where grade 1 is the most
    recent one and REGULAR: the inscription is stored.  Student 6 has no
    grade for ALG: the ineligible outcome. *)
Lemma final_exam_inscribe_gate_witness :
  let view := final_exam_inscribe "REGULAR" (post_by student_5 []) 100 in
  let g := mkGrade 1 5 10 "REGULAR" [("nota", "7")] in
  (finals_in_career 100 1 (db campus) = [mkFinalExam 100 10]
   ∧ NoDup (grade_id <$> grades (db campus))
   ∧ most_recent g (filter (λ g, grade_student g = 5 ∧ grade_subject g = 10)
                      (grades (db campus)))
   ∧ filter (λ g, grade_student g = 6 ∧ grade_subject g = 10) (grades (db campus)) = [])
  ∧ (view campus).1 = Ok (Redirect "users:student-dashboard")
  ∧ final_exam_inscriptions (db (view campus).2) = [mkFinalExamInscription 1 5 100]
  ∧ messages (view campus).2 = [(SUCCESS, "Inscripción al final realizada.")]
  ∧ final_exam_inscribe "REGULAR" (post_by student_6 []) 100 campus
    = IneligibleState campus.
Proof.
  assert (Hnd : NoDup (grade_id <$> grades (db campus)))
    by (apply (bool_decide_unpack _); by vm_compute).
  assert (Hg : most_recent (mkGrade 1 5 10 "REGULAR" [("nota", "7")])
                 (filter (λ g, grade_student g = 5 ∧ grade_subject g = 10)
                    (grades (db campus))))
    by (apply (bool_decide_unpack _); by vm_compute).
  split; [split; [reflexivity|split; [exact Hnd|split; [exact Hg|reflexivity]]]|].
  destruct (final_exam_inscribe_gate "REGULAR" (post_by student_5 []) 100 campus
              student_5 (mkStudent 5 1) (mkFinalExam 100 10))
    as (_ & Hopen); try reflexivity; [exact Hnd|vm_compute; lia|].
  destruct (Hopen _ Hg eq_refl) as (Hresp & Hpost & _).
  destruct (Hpost eq_refl) as (Hrows & Hmsg).
  destruct (final_exam_inscribe_gate "REGULAR" (post_by student_6 []) 100 campus
              student_6 (mkStudent 6 1) (mkFinalExam 100 10))
    as (Hclosed & _); try reflexivity; [exact Hnd|vm_compute; lia|].
  split; [exact Hresp|]. split; [exact Hrows|]. split; [exact Hmsg|].
  apply Hclosed. left. reflexivity.
Defined.

(** Student 5 asks for the subject QUI and the final exam 102, both of
    career 2. *)
Lemma inscriptions_stay_in_career_witness :
  (subjects_in_career "QUI" 1 (db campus) = []
   ∧ finals_in_career 102 1 (db campus) = [])
  ∧ subject_inscribe "" [] (post_by student_5 []) "QUI" campus = (Raise Http404, campus)
  ∧ final_exam_inscribe "REGULAR" (post_by student_5 []) 102 campus
    = (Raise Http404, campus).
Proof.
  split; [split; reflexivity|].
  destruct (inscriptions_stay_in_career "REGULAR" "" [] (post_by student_5 []) "QUI" 102
              campus student_5 (mkStudent 5 1) eq_refl eq_refl eq_refl)
    as (Hsubject & Hfinal & _).
  split; [apply Hsubject | apply Hfinal]; reflexivity.
Defined.

Lemma inscribe_get_reads_only_witness :
  method (get_by student_5) = GET
  ∧ (subject_inscribe "" [] (get_by student_5) "ALG" campus).2 = campus
  ∧ db (final_exam_inscribe "REGULAR" (get_by student_5) 100 campus).2 = db campus
  ∧ calls (final_exam_inscribe "REGULAR" (get_by student_5) 100 campus).2 = calls campus.
Proof.
  split; [reflexivity|].
  apply (inscribe_get_reads_only "REGULAR" "" [] (get_by student_5) "ALG" 100 campus).
  reflexivity.
Defined.


(** The claim as it was stated fails on a subject whose code holds a
    slash: professor 50 teaches the subject A/B, student 5 has a grade
    for it and no inscription, and the rejection is not a redirect:
    [redirect] raises. *)
Lemma grade_edit_rejects_counterexample :
  let rq := post_by professor_50 [("nota", "9")] in
  let out := grade_edit example_GradeForm example_update_status rq 1 slash_campus in
  (10, 50) ∈ subject_professors (db slash_campus)
  ∧ filter (λ r, si_student r = 5 ∧ si_subject r = 10)
      (subject_inscriptions (db slash_campus)) = []
  ∧ out.1 = Raise NoReverseMatch
  ∧ ¬ (∃ r, out.1 = Ok r ∧ is_redirect r = true).
Proof.
  cbv zeta.
  assert (Hout : (grade_edit example_GradeForm example_update_status
                    (post_by professor_50 [("nota", "9")]) 1 slash_campus).1
                 = Raise NoReverseMatch) by (by vm_compute).
  split; [apply (bool_decide_unpack _); by vm_compute|].
  split; [reflexivity|]. split; [exact Hout|].
  rewrite Hout. by intros (r & ? & _).
Qed.

(** Professor 50 edits grade 1 of [campus], a REGULAR grade with [nota]
    7.  Lowering the [nota] to 4 and leaving the status runs
    [update_status], and the row ends up LIBRE; setting the status to
    APROBADO stores that status and runs nothing else. *)
Lemma grade_edit_status_rule_witness :
  let g := mkGrade 1 5 10 "REGULAR" [("nota", "7")] in
  let rq := post_by professor_50 [("nota", "4"); ("status", "REGULAR")] in
  let out := grade_edit example_GradeForm example_update_status rq 1 campus in
  let rq' := post_by professor_50 [("nota", "7"); ("status", "APROBADO")] in
  let out' := grade_edit example_GradeForm example_update_status rq' 1 campus in
  ((10, 50) ∈ subject_professors (db campus)
   ∧ inscriptions_of 5 10 (db campus) ≠ []
   ∧ "status" ∉ changed_data (example_GradeForm (POST_data rq) g)
   ∧ "status" ∈ changed_data (example_GradeForm (POST_data rq') g))
  ∧ out.1 = Ok (RedirectArg "users:grade-list" "ALG")
  ∧ calls out.2 = [SaveGrade (mkGrade 1 5 10 "REGULAR" [("nota", "4")]);
                   UpdateStatus (mkGrade 1 5 10 "REGULAR" [("nota", "4")])]
  ∧ mkGrade 1 5 10 "LIBRE" [("nota", "4")] ∈ grades (db out.2)
  ∧ calls out'.2 = [SaveGrade (mkGrade 1 5 10 "APROBADO" [("nota", "7")])]
  ∧ mkGrade 1 5 10 "APROBADO" [("nota", "7")] ∈ grades (db out'.2).
Proof.
  assert (Hass : (10, 50) ∈ subject_professors (db campus))
    by (apply (bool_decide_unpack _); by vm_compute).
  assert (Hins : inscriptions_of 5 10 (db campus) ≠ []) by (by vm_compute).
  assert (Hkept : "status" ∉ changed_data
                    (example_GradeForm [("nota", "4"); ("status", "REGULAR")]
                       (mkGrade 1 5 10 "REGULAR" [("nota", "7")])))
    by (apply (bool_decide_unpack _); by vm_compute).
  assert (Hset : "status" ∈ changed_data
                   (example_GradeForm [("nota", "7"); ("status", "APROBADO")]
                      (mkGrade 1 5 10 "REGULAR" [("nota", "7")])))
    by (apply (bool_decide_unpack _); by vm_compute).
  split; [split; [exact Hass|split; [exact Hins|split; [exact Hkept|exact Hset]]]|].
  destruct (grade_edit_status_rule example_GradeForm example_update_status
              (post_by professor_50 [("nota", "4"); ("status", "REGULAR")]) 1 campus
              professor_50 50 (mkGrade 1 5 10 "REGULAR" [("nota", "7")])
              (mkSubject 10 "ALG" 1))
    as (Hresp & _ & Hrun & _); try reflexivity; try assumption.
  destruct (grade_edit_status_rule example_GradeForm example_update_status
              (post_by professor_50 [("nota", "7"); ("status", "APROBADO")]) 1 campus
              professor_50 50 (mkGrade 1 5 10 "REGULAR" [("nota", "7")])
              (mkSubject 10 "ALG" 1))
    as (_ & Hskip & _); try reflexivity; try assumption.
  destruct (Hrun Hkept) as (Hcalls & _ & Hrow).
  destruct (Hskip Hset) as (Hcalls' & _ & Hrow').
  split; [exact Hresp|]. split; [exact Hcalls|]. split; [exact Hrow|].
  split; [exact Hcalls'|exact Hrow'].
Defined.

(** Professor 50 opens the grades of FIS, where students 5 and 6 are
    inscribed and nobody has a grade; the set of the two is walked by
    falling key. *)
Lemma grade_list_backfill_witness :
  let rq := get_by professor_50 in
  let missing := enrolled_student_ids 11 (db campus)
                   ∖ existing_grade_student_ids 11 (db campus) in
  let gs := new_grades "" [] (next_id (grade_id <$> grades (db campus))) 11
              (iter descending missing) in
  let run1 := grade_list "" [] descending rq "FIS" campus in
  let run2 := grade_list "" [] descending rq "FIS" run1.2 in
  filter (λ s, code s = "FIS" ∧ (subject_id s, 50) ∈ subject_professors (db campus))
    (subjects (db campus)) = [mkSubject 11 "FIS" 1]
  ∧ run1.1 = Ok (Render "users/grade_list.html")
  ∧ grades (db run1.2) = grades (db campus) ++ gs
  ∧ calls run1.2
    = calls campus ++ (if decide (missing = ∅) then [] else [BulkCreateGrade gs])
  ∧ (∀ sid, sid ∈ grade_student <$> gs
            ↔ (∃ r, r ∈ subject_inscriptions (db campus) ∧ si_subject r = 11
                    ∧ si_student r = sid)
              ∧ ¬ (∃ g, g ∈ grades (db campus) ∧ grade_subject g = 11
                        ∧ grade_student g = sid))
  ∧ NoDup (grade_student <$> gs)
  ∧ grade_id <$> gs
    = (λ k, next_id (grade_id <$> grades (db campus)) + Z.of_nat k) <$> seq 0 (length gs)
  ∧ Forall (λ g, grade_subject g = 11 ∧ status g = "" ∧ fields g = []) gs
  ∧ run2 = (Ok (Render "users/grade_list.html"), run1.2).
Proof.
  assert (Hsb : filter (λ s, code s = "FIS"
                             ∧ (subject_id s, 50) ∈ subject_professors (db campus))
                  (subjects (db campus)) = [mkSubject 11 "FIS" 1])
    by (by vm_compute).
  split; [exact Hsb|].
  apply (grade_list_backfill "" [] descending (get_by professor_50) "FIS" campus
           professor_50 50 (mkSubject 11 "FIS" 1)); try reflexivity; exact Hsb.
Defined.

(** What the backfill of the example writes: two rows, in one call, with
    the keys given in the order of the walk. *)
Lemma grade_list_backfill_example :
  let up := grade_list "" [] ascending (get_by professor_50) "FIS" campus in
  let down := grade_list "" [] descending (get_by professor_50) "FIS" campus in
  grades (db up.2)
  = [mkGrade 1 5 10 "REGULAR" [("nota", "7")]; mkGrade 2 5 11 "" []; mkGrade 3 6 11 "" []]
  ∧ calls up.2 = [BulkCreateGrade [mkGrade 2 5 11 "" []; mkGrade 3 6 11 "" []]]
  ∧ grades (db down.2)
    = [mkGrade 1 5 10 "REGULAR" [("nota", "7")]; mkGrade 2 6 11 "" []; mkGrade 3 5 11 "" []]
  ∧ calls down.2 = [BulkCreateGrade [mkGrade 2 6 11 "" []; mkGrade 3 5 11 "" []]].
Proof. repeat split; by vm_compute. Qed.

End AcademicsFacts.

(** ** The student file *)

Module StudentFileFacts.
Import StudentFile.

Lemma string_length_append (s t : string) :
  String.length (s +:+ t) = (String.length s + String.length t)%nat.
Proof. induction s as [|a s IH]; simpl; [done|]. by rewrite IH. Qed.









Lemma is_dd_mm_yyyy_length s d : is_dd_mm_yyyy s d → String.length s = 10%nat.
Proof.
  intros (dd & mm & yyyy & -> & Hdd & Hmm & Hyyyy & _).
  rewrite !string_length_append, Hdd, Hmm, Hyyyy. reflexivity.
Qed.




Section Service.

Variable get_full_name : CustomUser → string.



(** The service never changes the store, whatever it returns. *)
Lemma get_student_file_data_reads_only sid d :
  (get_student_file_data get_full_name sid d).2 = d.
Proof.
  unfold get_student_file_data. destruct (qs_get _) as [s|[]]; reflexivity.
Qed.

Lemma StudentFileJSONView_get_reads_only sid d :
  (StudentFileJSONView_get get_full_name sid d).2 = d.
Proof.
  unfold StudentFileJSONView_get.
  pose proof (get_student_file_data_reads_only sid d) as H.
  destruct (get_student_file_data _ _ _) as [[[[|? ?]|]|] d']; cbn in *; by subst.
Qed.


End Service.


(** The claim as it was stated fails on an enrollment date before the
    year 1000: the student of [old_registry] enrolled on 31 December 999,
    and the date of the mapping has three digits for the year. *)
Lemma student_file_data_counterexample :
  valid_date (mkDate 999 12 31)
  ∧ get_student_file_data django_get_full_name "L-1" old_registry
    = (Ok (Some [ ("nro_legajo", "L-1");
                  ("apellido_nombre", "Ana Paz");
                  ("dni", "30111222");
                  ("facultad_nombre", "Facultad Regional");
                  ("carrera_nombre", "Ingeniería en Sistemas");
                  ("fecha_inscripcion", "31/12/999") ]), old_registry)
  ∧ ¬ is_dd_mm_yyyy "31/12/999" (mkDate 999 12 31).
Proof.
  split; [cbv [valid_date year month day]; lia|]. split; [reflexivity|].
  intros Hlen%is_dd_mm_yyyy_length. discriminate Hlen.
Qed.

End StudentFileFacts.

(** ** More on users and profiles *)

Module UsersFacts.
Import Profiles ProfilesInv.

Lemma foldr_max_bound (l : list Z) x : x ∈ l → (x ≤ foldr Z.max 0 l)%Z.
Proof.
  induction l as [|y l IH]; [by intros ?%not_elem_of_nil|].
  intros [->|Hin]%elem_of_cons; cbn; [lia|]. specialize (IH Hin). lia.
Qed.

Lemma new_pk_fresh (us : gmap Z CustomUser) : us !! UserCreateView.new_pk us = None.
Proof.
  destruct (us !! _) as [u|] eqn:Hu; [|done]. exfalso.
  apply elem_of_map_to_list in Hu.
  assert (Hin : UserCreateView.new_pk us ∈ (map_to_list us).*1).
  { apply list_elem_of_fmap. by exists (UserCreateView.new_pk us, u). }
  apply foldr_max_bound in Hin. unfold UserCreateView.new_pk in Hin at 1. lia.
Qed.

Lemma profile_table_set_users f r d :
  profile_table r (set_users f d) = profile_table r d.
Proof. by destruct r. Qed.

Lemma profile_table_set r r' t d :
  profile_table r (UserCreateView.set_profile_table r' t d)
  = if decide (r = r') then t else profile_table r d.
Proof. by destruct r, r'. Qed.

Lemma users_set_profile_table r t d :
  users (UserCreateView.set_profile_table r t d) = users d.
Proof. by destruct r. Qed.

Lemma profile_table_delete_profiles r k d :
  profile_table r (delete_profiles k d) = delete k (profile_table r d).
Proof. by destruct r. Qed.

(** The block of the update view, by the role of the form. *)
Lemma form_valid_block_by_role rq d :
  form_valid_block rq d
  = let d1 := set_users <[pk rq := form rq]> d in
    match profile_form (role (form rq)) rq with
    | Some p =>
        match save_profile (pk rq) p (profile_table (role (form rq)) d1) with
        | Ok t => (Ok None, UserCreateView.set_profile_table (role (form rq)) t d1)
        | Raise e => (Raise e, d1)
        end
    | None => (Ok (Some form_invalid), d1)
    end.
Proof. unfold form_valid_block, profile_form. by destruct (role (form rq)). Qed.

(** *** [UserCreateView.form_valid] *)

(** X1: creating a user is all or nothing.  From a store without
    mismatched profiles the view never raises: either the selected profile
    form is invalid, and then the form is shown again and nothing at all is
    stored, or the user is stored under a key no user had, together with
    the profile of the selected role when its form is valid and with no
    other profile; every other user and profile is left as it was. *)
Theorem create_all_or_nothing (rq : UserCreateView.Request) (w : World) :
  no_mismatched_profile (db w) →
  let out := UserCreateView.form_valid rq w in
  let k := UserCreateView.new_pk (users (db w)) in
  ((∃ r, UserCreateView.selected_form rq = Some (r, None))
   ∧ out = (Ok form_invalid, w))
  ∨ ((∀ r, UserCreateView.selected_form rq ≠ Some (r, None))
     ∧ out.1 = Ok (Redirect success_url)
     ∧ users (db w) !! k = None
     ∧ users (db out.2) = <[k := UserCreateView.user_form rq]> (users (db w))
     ∧ (∀ r, profile_table r (db out.2) !! k
             = match UserCreateView.selected_form rq with
               | Some (r', Some p) => if decide (r = r') then Some p else None
               | _ => None
               end)
     ∧ (∀ r k', k' ≠ k → profile_table r (db out.2) !! k' = profile_table r (db w) !! k')
     ∧ messages out.2 = messages w ++ [(SUCCESS, "Usuario creado correctamente.")]).
Proof.
  intros Hinv out k.
  assert (Hfree : ∀ r, profile_table r (db w) !! k = None).
  { intros r. destruct (profile_table r (db w) !! k) as [p|] eqn:Hp; [|done].
    destruct (Hinv k r) as (u & Hu & _); [by rewrite Hp|].
    subst k. by rewrite new_pk_fresh in Hu. }
  subst out. unfold UserCreateView.form_valid, atomic, UserCreateView.form_valid_block.
  destruct (UserCreateView.selected_form rq) as [[r [p|]]|] eqn:Hsel.
  - right. fold k. unfold save_profile.
    rewrite profile_table_set_users, Hfree. cbn [fst snd db messages add_message].
    split; [done|]. split; [done|]. split; [apply new_pk_fresh|].
    split; [by rewrite users_set_profile_table|]. split; [|split; [|done]].
    + intros r'. rewrite profile_table_set, profile_table_set_users.
      destruct (decide (r' = r)) as [->|]; [by rewrite lookup_insert_eq|apply Hfree].
    + intros r' k' Hk'. rewrite profile_table_set, profile_table_set_users.
      destruct (decide (r' = r)) as [->|]; [by rewrite lookup_insert_ne|done].
  - left. eauto.
  - right. fold k. cbn [fst snd db messages add_message].
    split; [done|]. split; [done|]. split; [apply new_pk_fresh|].
    split; [done|]. split; [|split; [|done]].
    + intros r'. by rewrite profile_table_set_users.
    + intros r' k' _. by rewrite profile_table_set_users.
Qed.

(** *** [UserUpdateView.form_valid] *)

(** X2: a role change with a valid profile form swaps the profiles: the
    view redirects to the user list, the user row carries the posted
    fields, the user's only profile is the posted one of the new role, and
    no other user's profile is touched. *)
Theorem update_role_change_swaps (rq : Request) (w : World) u p :
  users (db w) !! pk rq = Some u →
  role (form rq) ≠ role u →
  profile_form (role (form rq)) rq = Some p →
  let out := form_valid rq w in
  out.1 = Ok (Redirect success_url)
  ∧ users (db out.2) = <[pk rq := form rq]> (users (db w))
  ∧ (∀ r, profile_table r (db out.2) !! pk rq
          = if decide (r = role (form rq)) then Some p else None)
  ∧ (∀ r k', k' ≠ pk rq →
       profile_table r (db out.2) !! k' = profile_table r (db w) !! k')
  ∧ messages out.2
    = messages w
        ++ [(INFO, "El perfil anterior ha sido eliminado debido al cambio de rol.");
            (SUCCESS, "Usuario actualizado correctamente.")].
Proof.
  intros Hu Hrole Hform out. subst out. unfold form_valid. rewrite Hu.
  rewrite decide_True by done. cbn [db messages add_message].
  unfold atomic. rewrite form_valid_block_by_role. cbv zeta. rewrite Hform.
  unfold save_profile.
  rewrite profile_table_set_users, profile_table_delete_profiles, lookup_delete_eq.
  cbn [fst snd db messages add_message].
  split; [done|]. split; [by rewrite users_set_profile_table|].
  split; [|split].
  - intros r. rewrite profile_table_set, profile_table_set_users,
      profile_table_delete_profiles.
    destruct (decide (r = role (form rq))) as [->|];
      [by rewrite lookup_insert_eq|by rewrite lookup_delete_eq].
  - intros r k' Hk'. rewrite profile_table_set, profile_table_set_users,
      profile_table_delete_profiles.
    destruct (decide (r = role (form rq))) as [->|].
    + by rewrite lookup_insert_ne, lookup_delete_ne.
    + by rewrite lookup_delete_ne.
  - by rewrite <- app_assoc.
Qed.

(** X3: an update that keeps the role of a user who has the profile of
    that role, with a valid profile form, saves a second profile row for
    the same user: the one-to-one constraint refuses it, the transaction
    takes the user update back, and the store is exactly as before. *)
Theorem update_same_role_conflict (rq : Request) (w : World) u p q :
  users (db w) !! pk rq = Some u →
  role (form rq) = role u →
  profile_form (role (form rq)) rq = Some p →
  profile_table (role u) (db w) !! pk rq = Some q →
  form_valid rq w = (Raise IntegrityError, w).
Proof.
  intros Hu Hrole Hform Hq. unfold form_valid. rewrite Hu.
  rewrite decide_False by (intros H; by apply H).
  unfold atomic. rewrite form_valid_block_by_role. cbv zeta. rewrite Hform.
  unfold save_profile. rewrite profile_table_set_users, Hrole, Hq.
  by destruct w.
Qed.

(** *** No profile of another role *)

Lemma no_mismatched_set_users (d : DB) k u :
  no_mismatched_profile d →
  (∀ r, is_Some (profile_table r d !! k) → role u = r) →
  no_mismatched_profile (set_users <[k := u]> d).
Proof.
  intros Hinv Hk k' r. rewrite profile_table_set_users. intros Hsome.
  cbn [users set_users]. destruct (decide (k' = k)) as [->|Hne].
  - exists u. rewrite lookup_insert_eq. split; [done|]. by apply Hk.
  - rewrite lookup_insert_ne by done. by apply Hinv.
Qed.

Lemma no_mismatched_insert_profile (d : DB) k u p :
  no_mismatched_profile d →
  users d !! k = Some u →
  no_mismatched_profile
    (UserCreateView.set_profile_table (role u) (<[k := p]> (profile_table (role u) d)) d).
Proof.
  intros Hinv Hu k' r. rewrite profile_table_set, users_set_profile_table.
  destruct (decide (r = role u)) as [->|Hr]; [|by apply Hinv].
  destruct (decide (k' = k)) as [->|Hne]; [by eauto|].
  rewrite lookup_insert_ne by done. by apply Hinv.
Qed.

Lemma no_mismatched_delete_profiles (d : DB) k :
  no_mismatched_profile d → no_mismatched_profile (delete_profiles k d).
Proof.
  intros Hinv k' r. rewrite profile_table_delete_profiles.
  destruct (decide (k' = k)) as [->|Hne].
  - rewrite lookup_delete_eq. by intros [? ?].
  - rewrite lookup_delete_ne by done. intros H.
    destruct (Hinv k' r H) as (u & Hu & Hr). exists u. split; [|done].
    by destruct d.
Qed.

(** X4: neither view ever leaves a profile of a role its user does not
    have.  The update view keeps that for every request, whether it
    succeeds, shows the form again or raises; the creation view keeps it
    whenever the role it selects the profile form by is the role of the
    validated user form. *)
Theorem no_mismatched_profile_preserved (w : World) :
  no_mismatched_profile (db w) →
  (∀ rq, no_mismatched_profile (db (form_valid rq w).2))
  ∧ (∀ rq,
       (∀ r p, UserCreateView.selected_form rq = Some (r, p) →
               r = role (UserCreateView.user_form rq)) →
       no_mismatched_profile (db (UserCreateView.form_valid rq w).2)).
Proof.
  intros Hinv. split.
  - intros rq. unfold form_valid.
    destruct (users (db w) !! pk rq) as [u|] eqn:Hu; [|done].
    set (w1 := if decide (role (form rq) ≠ role u) then _ else w).
    assert (Hinv1 : no_mismatched_profile (db w1)).
    { subst w1. case_decide; [|done]. by apply no_mismatched_delete_profiles. }
    assert (Hk : ∀ r, is_Some (profile_table r (db w1) !! pk rq) → role (form rq) = r).
    { subst w1. intros r. case_decide as Hc.
      - cbn [db add_message]. rewrite profile_table_delete_profiles, lookup_delete_eq.
        by intros [? ?].
      - intros Hsome.
        destruct (Hinv _ _ Hsome) as (u' & Hu' & <-). congruence. }
    pose proof (no_mismatched_set_users _ _ _ Hinv1 Hk) as Hinv2.
    unfold atomic. rewrite form_valid_block_by_role. cbv zeta.
    destruct (profile_form _ rq) as [p|]; [|exact Hinv2].
    unfold save_profile. rewrite profile_table_set_users.
    destruct (profile_table _ (db w1) !! pk rq) eqn:Hq; [exact Hinv1|].
    cbn [snd db add_message].
    pose proof (no_mismatched_insert_profile
                  (set_users <[pk rq := form rq]> (db w1)) (pk rq) (form rq) p Hinv2) as H.
    rewrite profile_table_set_users in H. apply H.
    cbn [users set_users]. by rewrite lookup_insert_eq.
  - intros rq Hsel. unfold UserCreateView.form_valid.
    set (k := UserCreateView.new_pk (users (db w))).
    assert (Hfree : ∀ r, profile_table r (db w) !! k = None).
    { intros r. destruct (profile_table r (db w) !! k) as [p|] eqn:Hp; [|done].
      destruct (Hinv k r) as (u & Hu & _); [by rewrite Hp|].
      subst k. by rewrite new_pk_fresh in Hu. }
    assert (Hinv2 : no_mismatched_profile
                      (set_users <[k := UserCreateView.user_form rq]> (db w))).
    { apply no_mismatched_set_users; [done|]. intros r. rewrite Hfree. by intros [? ?]. }
    unfold atomic, UserCreateView.form_valid_block. fold k.
    destruct (UserCreateView.selected_form rq) as [[r [p|]]|] eqn:Hs;
      [|done|exact Hinv2].
    rewrite (Hsel r (Some p) eq_refl).
    unfold save_profile. rewrite profile_table_set_users, Hfree. cbn [snd db add_message].
    pose proof (no_mismatched_insert_profile _ k (UserCreateView.user_form rq) p Hinv2)
      as H.
    rewrite profile_table_set_users in H. apply H.
    cbn [users set_users]. by rewrite lookup_insert_eq.
Qed.

(** The example store has no mismatched profile. *)
Lemma two_users_no_mismatched : no_mismatched_profile (db two_users).
Proof.
  intros k r [p Hp]. destruct r; cbn in Hp.
  - apply lookup_singleton_Some in Hp as [<- _]. eexists. split; [reflexivity|done].
  - apply lookup_singleton_Some in Hp as [<- _]. eexists. split; [reflexivity|done].
  - by rewrite lookup_empty in Hp.
Defined.

Lemma create_all_or_nothing_witness :
  no_mismatched_profile (db two_users)
  ∧ (let out := UserCreateView.form_valid create_professor two_users in
     let k := UserCreateView.new_pk (users (db two_users)) in
     ((∃ r, UserCreateView.selected_form create_professor = Some (r, None))
      ∧ out = (Ok form_invalid, two_users))
     ∨ ((∀ r, UserCreateView.selected_form create_professor ≠ Some (r, None))
        ∧ out.1 = Ok (Redirect success_url)
        ∧ users (db two_users) !! k = None
        ∧ users (db out.2)
          = <[k := UserCreateView.user_form create_professor]> (users (db two_users))
        ∧ (∀ r, profile_table r (db out.2) !! k
                = match UserCreateView.selected_form create_professor with
                  | Some (r', Some p) => if decide (r = r') then Some p else None
                  | _ => None
                  end)
        ∧ (∀ r k', k' ≠ k →
             profile_table r (db out.2) !! k' = profile_table r (db two_users) !! k')
        ∧ messages out.2
          = messages two_users ++ [(SUCCESS, "Usuario creado correctamente.")])).
Proof.
  split; [exact two_users_no_mismatched|].
  exact (create_all_or_nothing create_professor two_users two_users_no_mismatched).
Defined.

(** The professor of the example is stored under key 8 with the posted
    profile. *)
Lemma create_professor_example :
  let out := UserCreateView.form_valid create_professor two_users in
  out.1 = Ok (Redirect success_url)
  ∧ users (db out.2) !! 8 = Some (mkUser PROFESSOR "Luz" "Rey" "28123456")
  ∧ professor (db out.2) !! 8 = Some [("degree", "Dra.")]
  ∧ student (db out.2) !! 8 = None.
Proof. cbv zeta. repeat split; by vm_compute. Qed.

Lemma update_role_change_swaps_witness :
  let out := form_valid to_professor_valid student_7 in
  (users (db student_7) !! 7 = Some (mkUser STUDENT "Ana" "Paz" "30111222")
   ∧ PROFESSOR ≠ STUDENT
   ∧ profile_form PROFESSOR to_professor_valid = Some [("degree", "Lic.")])
  ∧ out.1 = Ok (Redirect success_url)
  ∧ users (db out.2) = <[7 := form to_professor_valid]> (users (db student_7))
  ∧ (∀ r, profile_table r (db out.2) !! 7
          = if decide (r = PROFESSOR) then Some [("degree", "Lic.")] else None)
  ∧ (∀ r k', k' ≠ 7 →
       profile_table r (db out.2) !! k' = profile_table r (db student_7) !! k')
  ∧ messages out.2
    = messages student_7
        ++ [(INFO, "El perfil anterior ha sido eliminado debido al cambio de rol.");
            (SUCCESS, "Usuario actualizado correctamente.")].
Proof.
  split; [split; [reflexivity|split; [discriminate|reflexivity]]|].
  apply (update_role_change_swaps to_professor_valid student_7
           (mkUser STUDENT "Ana" "Paz" "30111222") [("degree", "Lic.")]);
    [reflexivity|discriminate|reflexivity].
Defined.

Lemma update_same_role_conflict_witness :
  (users (db student_7) !! 7 = Some (mkUser STUDENT "Ana" "Paz" "30111222")
   ∧ profile_form STUDENT same_role_valid = Some [("student_id", "L-100")]
   ∧ student (db student_7) !! 7 = Some [("student_id", "L-100")])
  ∧ form_valid same_role_valid student_7 = (Raise IntegrityError, student_7).
Proof.
  split; [repeat split; reflexivity|].
  apply (update_same_role_conflict same_role_valid student_7
           (mkUser STUDENT "Ana" "Paz" "30111222")
           [("student_id", "L-100")] [("student_id", "L-100")]); reflexivity.
Defined.

Lemma no_mismatched_profile_preserved_witness :
  no_mismatched_profile (db two_users)
  ∧ (∀ rq, no_mismatched_profile (db (form_valid rq two_users).2))
  ∧ (∀ rq,
       (∀ r p, UserCreateView.selected_form rq = Some (r, p) →
               r = role (UserCreateView.user_form rq)) →
       no_mismatched_profile (db (UserCreateView.form_valid rq two_users).2)).
Proof.
  split; [exact two_users_no_mismatched|].
  exact (no_mismatched_profile_preserved two_users two_users_no_mismatched).
Defined.

End UsersFacts.

(** ** More on the assignment views *)

Module AssignmentsMore.
Import Assignments AssignmentsFacts.

Lemma values_list_pk_add_other (e e' : Z) (rel : gset (Z * PyVal)) (ids : gset PyVal) :
  e' ≠ e →
  values_list_pk e' (rel ∪ set_map (λ p, (e, p)) ids) = values_list_pk e' rel.
Proof.
  intros Hne. apply set_eq. intros p.
  rewrite !elem_of_values_list_pk, elem_of_union, elem_of_map.
  split; [intros [?|[q [[= ? ?] ?]]]; [done|congruence]|auto].
Qed.

Lemma values_list_pk_remove_other (e e' : Z) (rel : gset (Z * PyVal)) (ids : gset PyVal) :
  e' ≠ e →
  values_list_pk e' (rel ∖ set_map (λ p, (e, p)) ids) = values_list_pk e' rel.
Proof.
  intros Hne. apply set_eq. intros p.
  rewrite !elem_of_values_list_pk, elem_of_difference, elem_of_map.
  split; [by intros [? _]|]. intros Hin. split; [done|].
  intros [q [[= ? ?] ?]]. congruence.
Qed.

Section KeyField.

Variable get_prep_value : PyVal → option PyVal.

Lemma apply_diff_other (e e' : Z) (a r profs : gset PyVal) (rel rel' : gset (Z * PyVal)) :
  e' ≠ e →
  apply_diff get_prep_value e a r profs rel = Ok rel' →
  values_list_pk e' rel' = values_list_pk e' rel.
Proof.
  intros Hne. rewrite apply_diff_unguarded. unfold m2m_add, m2m_remove.
  destruct (target_ids _ a) as [ia|]; [|done].
  case_decide; [|done].
  destruct (target_ids _ r) as [ir|]; [|done].
  intros [= <-].
  by rewrite values_list_pk_remove_other, values_list_pk_add_other.
Qed.

(** X5: an exception in either assignment view leaves nothing behind.
    Whatever is posted and whatever the key field makes of it (a value
    that does not convert, a key of no professor), when the view raises,
    the store, assignments and messages included, is exactly as before. *)
Theorem assign_raise_leaves_store (rq : Request) (c : string) (i : Z) (w : World) :
  (∀ x, (assign_subject_professors get_prep_value rq c w).1 = Raise x →
        (assign_subject_professors get_prep_value rq c w).2 = w)
  ∧ (∀ x, (assign_final_professors get_prep_value rq i w).1 = Raise x →
          (assign_final_professors get_prep_value rq i w).2 = w).
Proof.
  split; intros x.
  - unfold assign_subject_professors, atomic.
    repeat (case_match; simplify_eq/=); try done; by destruct w.
  - unfold assign_final_professors, atomic.
    repeat (case_match; simplify_eq/=); try done; by destruct w.
Qed.

(** X6: the subject view touches the assignments of the addressed
    subject only: the subjects, the final exams, the professors and the
    assignments of finals are as before, and so is the professor set of
    every key that is not the key of a subject with the posted code. *)
Theorem assign_subject_professors_frame (rq : Request) (c : string) (w : World) :
  let w' := (assign_subject_professors get_prep_value rq c w).2 in
  subjects (db w') = subjects (db w)
  ∧ finals (db w') = finals (db w)
  ∧ professors (db w') = professors (db w)
  ∧ final_professors (db w') = final_professors (db w)
  ∧ ∀ e', (∀ sb, sb ∈ subjects (db w) → code sb = c → subject_pk sb ≠ e') →
          values_list_pk e' (subject_professors (db w'))
          = values_list_pk e' (subject_professors (db w)).
Proof.
  cbv zeta. unfold assign_subject_professors, atomic.
  destruct (negb _); [done|].
  destruct (get_object_or_404 _) as [sb|x] eqn:Hget; [|done].
  assert (Hsb : sb ∈ subjects (db w) ∧ code sb = c).
  { unfold get_object_or_404, qs_get in Hget.
    destruct (filter _ _) as [|s [|? ?]] eqn:Hf; simplify_eq.
    pose proof (list_elem_of_here sb []) as H. rewrite <- Hf in H.
    by apply list_elem_of_filter in H as [? ?]. }
  destruct (method rq); [done|]. cbv zeta.
  case_decide; [|done].
  destruct (apply_diff _ _ _ _ _ _) as [rel'|x] eqn:Hdiff; [|done].
  cbn [snd db add_message set_subject_professors subjects finals professors
       final_professors subject_professors].
  repeat split; try done. intros e' He'.
  apply (apply_diff_other _ _ _ _ _ _ _ (not_eq_sym (He' sb (proj1 Hsb) (proj2 Hsb))) Hdiff).
Qed.

(** X7: where the subject view is right on integer keys.  With stored
    integer keys, a selection that converts to keys of existing
    professors, and one of the two sets empty: a first assignment (nobody
    assigned yet) leaves exactly the selected professors; an empty
    selection removes every assigned professor; and with nothing selected
    and nobody assigned the view writes nothing and reports that nothing
    changed. *)
Theorem assign_subject_professors_empty_side (rq : Request) (c : string) (w : World)
    (sb : Subject) (ids : gset PyVal) :
  let cur := values_list_pk (subject_pk sb) (subject_professors (db w)) in
  let sel : gset PyVal := list_to_set (PyStr <$> POST_professors rq) in
  is_admin (user rq) = true →
  method rq = POST →
  filter (λ s, code s = c) (subjects (db w)) = [sb] →
  (∀ v, v ∈ cur → ∃ n, v = PyInt n ∧ get_prep_value v = Some v) →
  target_ids get_prep_value sel = Some ids →
  ids ⊆ professors (db w) →
  let out := assign_subject_professors get_prep_value rq c w in
  (cur = ∅ → sel ≠ ∅ →
   out.1 = Ok (Redirect "users:subject-list")
   ∧ values_list_pk (subject_pk sb) (subject_professors (db out.2)) = ids
   ∧ messages out.2
     = messages w ++ [(SUCCESS, "Asignaciones actualizadas correctamente.")])
  ∧ (POST_professors rq = [] → cur ≠ ∅ →
     out.1 = Ok (Redirect "users:subject-list")
     ∧ values_list_pk (subject_pk sb) (subject_professors (db out.2)) = ∅
     ∧ messages out.2
       = messages w ++ [(SUCCESS, "Asignaciones actualizadas correctamente.")])
  ∧ (POST_professors rq = [] → cur = ∅ →
     out = (Ok (Redirect "users:subject-list"),
            mkWorld (db w)
              (messages w ++ [(INFO, "No hubo cambios en las asignaciones.")]))).
Proof.
  intros cur sel Hadm Hm Hsb Hint Hids Hsub out.
  split; [|split].
  - intros Hcur Hsel.
    destruct (assign_subject_professors_integer_keys get_prep_value rq c w sb ids
                Hadm Hm Hsb Hint Hids Hsub (or_introl Hsel))
      as (w' & Hout & Hfinal & Hmsg).
    subst out. rewrite Hout. cbn [fst snd]. split; [done|]. split; [|done].
    rewrite Hfinal. fold cur. rewrite Hcur. set_solver.
  - intros Hposted Hcur.
    destruct (assign_subject_professors_integer_keys get_prep_value rq c w sb ids
                Hadm Hm Hsb Hint Hids Hsub (or_intror Hcur))
      as (w' & Hout & Hfinal & Hmsg).
    subst out. rewrite Hout. cbn [fst snd]. split; [done|]. split; [|done].
    rewrite Hfinal. subst sel. rewrite Hposted in Hids. cbn in Hids.
    rewrite target_ids_empty in Hids. simplify_eq. set_solver.
  - intros Hposted Hcur. subst out. unfold assign_subject_professors.
    rewrite Hadm, Hsb, Hm. cbn [negb]. unfold get_object_or_404, qs_get. cbv zeta.
    fold cur. rewrite Hcur, Hposted. cbn [fmap list_fmap list_to_set].
    rewrite decide_False; [done|]. intros [H|H]; apply H; set_solver.
Qed.

End KeyField.

Import AssignmentsExamples.

(** A value that is no number, and the key of no professor: both raise,
    and the assignments of the example are as before. *)
Lemma assign_raise_leaves_store_witness :
  assign_subject_professors int_prep_value post_abc "MAT1" two_assigned
  = (Raise ValueError, two_assigned)
  ∧ assign_final_professors int_prep_value post_9 20 two_assigned
    = (Raise IntegrityError, two_assigned).
Proof.
  destruct (assign_raise_leaves_store int_prep_value post_abc "MAT1" 20 two_assigned)
    as [Hs _].
  destruct (assign_raise_leaves_store int_prep_value post_9 "MAT1" 20 two_assigned)
    as [_ Hf].
  split.
  - rewrite (surjective_pairing (assign_subject_professors _ _ _ _)).
    rewrite (Hs ValueError); [|by vm_compute]. f_equal; by vm_compute.
  - rewrite (surjective_pairing (assign_final_professors _ _ _ _)).
    rewrite (Hf IntegrityError); [|by vm_compute]. f_equal; by vm_compute.
Defined.

(** A first assignment of professors 2 and 3 to subject MAT1. *)
Lemma assign_subject_professors_empty_side_witness :
  let w := none_assigned in
  let rq := post_2_3 in
  let ids : gset PyVal := {[PyInt 2; PyInt 3]} in
  let cur := values_list_pk 10 (subject_professors (db w)) in
  let sel : gset PyVal := list_to_set (PyStr <$> POST_professors rq) in
  let out := assign_subject_professors int_prep_value rq "MAT1" w in
  (target_ids int_prep_value sel = Some ids ∧ ids ⊆ professors (db w) ∧ cur = ∅)
  ∧ (cur = ∅ → sel ≠ ∅ →
     out.1 = Ok (Redirect "users:subject-list")
     ∧ values_list_pk 10 (subject_professors (db out.2)) = ids
     ∧ messages out.2
       = messages w ++ [(SUCCESS, "Asignaciones actualizadas correctamente.")])
  ∧ (POST_professors rq = [] → cur ≠ ∅ →
     out.1 = Ok (Redirect "users:subject-list")
     ∧ values_list_pk 10 (subject_professors (db out.2)) = ∅
     ∧ messages out.2
       = messages w ++ [(SUCCESS, "Asignaciones actualizadas correctamente.")])
  ∧ (POST_professors rq = [] → cur = ∅ →
     out = (Ok (Redirect "users:subject-list"),
            mkWorld (db w)
              (messages w ++ [(INFO, "No hubo cambios en las asignaciones.")]))).
Proof.
  cbv zeta.
  assert (Hids : target_ids int_prep_value
                   (list_to_set (PyStr <$> POST_professors post_2_3))
                 = Some ({[PyInt 2; PyInt 3]} : gset PyVal)) by (by vm_compute).
  assert (Hsub : ({[PyInt 2; PyInt 3]} : gset PyVal) ⊆ professors (db none_assigned))
    by (apply (bool_decide_unpack _); by vm_compute).
  assert (Hcur : values_list_pk 10 (subject_professors (db none_assigned)) = ∅)
    by (by vm_compute).
  split; [split; [exact Hids|split; [exact Hsub|exact Hcur]]|].
  apply (assign_subject_professors_empty_side int_prep_value post_2_3 "MAT1"
           none_assigned (mkSubject 10 "MAT1") {[PyInt 2; PyInt 3]});
    try reflexivity; try assumption.
  intros v Hv. change (v ∈ values_list_pk 10 (subject_professors (db none_assigned))) in Hv.
  rewrite Hcur in Hv. by apply not_elem_of_empty in Hv.
Defined.

End AssignmentsMore.

(** ** More on enrollment and grades *)

Module AcademicsMore.
Import Academics AcademicsFacts AcademicsInv.

(** Case analysis over a whole view; the redirect to the grade list does
    not touch the store. *)
Ltac split_view :=
  run;
  repeat (rewrite ?redirect_grade_list_snd; case_match; simplify_eq/=);
  rewrite ?redirect_grade_list_snd; simpl.

(** *** Fresh keys *)

Lemma foldr_max_ge (l : list Z) x : x ∈ l → (x ≤ foldr Z.max 0 l)%Z.
Proof.
  induction l as [|y l IH]; [by intros ?%not_elem_of_nil|].
  intros [->|Hin]%elem_of_cons; cbn; [lia|]. specialize (IH Hin). lia.
Qed.

Lemma next_id_above (ids : list Z) x : x ∈ ids → (x < next_id ids)%Z.
Proof. intros H%foldr_max_ge. unfold next_id. lia. Qed.

Lemma next_id_fresh (ids : list Z) : next_id ids ∉ ids.
Proof. intros H%next_id_above. lia. Qed.

Lemma NoDup_snoc_fresh (ids : list Z) : NoDup ids → NoDup (ids ++ [next_id ids]).
Proof.
  intros Hnd. apply NoDup_app. split; [done|]. split; [|apply NoDup_singleton].
  intros x Hx ->%list_elem_of_singleton. by apply next_id_fresh in Hx.
Qed.

(** *** Single inserts *)

Lemma wf_add_subject_inscription d st sb :
  wf_db d →
  inscriptions_of st sb d = [] →
  wf_db (add_subject_inscription
           (mkSubjectInscription (next_id (si_id <$> subject_inscriptions d)) st sb) d).
Proof.
  intros [K1 K2 K3 P1 P2 P3] Hnone. split; try done.
  - cbn. rewrite fmap_app. by apply NoDup_snoc_fresh.
  - intros st' sb'. rewrite inscriptions_of_add. cbn [si_student si_subject].
    case_decide as Hc; [|rewrite app_nil_r; apply P1].
    destruct Hc as [<- <-]. by rewrite Hnone.
Qed.

Lemma wf_add_grade d st sb s f :
  wf_db d →
  grades_of st sb d = [] →
  wf_db (add_grades [mkGrade (next_id (grade_id <$> grades d)) st sb s f] d).
Proof.
  intros [K1 K2 K3 P1 P2 P3] Hnone. split; try done.
  - cbn. rewrite fmap_app. by apply NoDup_snoc_fresh.
  - intros st' sb'. rewrite grades_of_add.
    destruct (decide (st = st' ∧ sb = sb')) as [[<- <-]|Hne].
    + rewrite Hnone, filter_cons_True by done. cbn. lia.
    + rewrite filter_cons_False by (cbn; intros [? ?]; by apply Hne).
      rewrite filter_nil, app_nil_r. apply P2.
Qed.

Lemma wf_add_final_exam_inscription d st fe :
  wf_db d →
  final_inscriptions_of st fe d = [] →
  wf_db (add_final_exam_inscription
           (mkFinalExamInscription (next_id (fi_id <$> final_exam_inscriptions d)) st fe)
           d).
Proof.
  intros [K1 K2 K3 P1 P2 P3] Hnone. split; try done.
  - cbn. rewrite fmap_app. by apply NoDup_snoc_fresh.
  - intros st' fe'. rewrite final_inscriptions_of_add. cbn [fi_student fi_final_exam].
    case_decide as Hc; [|rewrite app_nil_r; apply P3].
    destruct Hc as [<- <-]. by rewrite Hnone.
Qed.

(** *** Saving a stored grade *)

Lemma same_key_same_row (l : list Grade) r g :
  NoDup (grade_id <$> l) → r ∈ l → g ∈ l → grade_id r = grade_id g → r = g.
Proof.
  induction l as [|x l IH]; [by intros _ ?%not_elem_of_nil|].
  rewrite fmap_cons. intros [Hx Hnd]%NoDup_cons Hr Hg Heq.
  apply elem_of_cons in Hr as [->|Hr], Hg as [->|Hg]; [done| | |by apply IH].
  - exfalso. apply Hx. apply list_elem_of_fmap. exists g. by split.
  - exfalso. apply Hx. apply list_elem_of_fmap. exists r. by split.
Qed.

Lemma length_filter_fmap_iff (F : Grade → Grade) (P : Grade → Prop)
    `{!∀ x, Decision (P x)} (l : list Grade) :
  (∀ r, r ∈ l → (P (F r) ↔ P r)) →
  length (filter P (F <$> l)) = length (filter P l).
Proof.
  induction l as [|x l IH]; intros HP; [done|]. rewrite fmap_cons.
  assert (Hx : P (F x) ↔ P x) by (apply HP; left).
  assert (Hl : ∀ r, r ∈ l → (P (F r) ↔ P r)) by (intros r ?; apply HP; by right).
  destruct (decide (P x)) as [Hp|Hp].
  - rewrite !filter_cons_True by tauto. cbn. by rewrite IH.
  - rewrite !filter_cons_False by tauto. by apply IH.
Qed.

(** [store_grade] keeps the identity of every row when the saved row
    carries the identity of the stored row with its key. *)
Lemma store_grade_identity d g s f :
  (∀ r, r ∈ grades d → grade_id r = grade_id g → r = g) →
  grade_identity
    <$> grades (store_grade
                  (mkGrade (grade_id g) (grade_student g) (grade_subject g) s f) d)
  = grade_identity <$> grades d.
Proof.
  intros Huniq. unfold store_grade. cbn [grades grade_id].
  rewrite <- list_fmap_compose. apply list_fmap_ext. intros _ r Hr%list_elem_of_lookup_2.
  cbn. case_decide as Hc; [|done]. by rewrite (Huniq r Hr Hc).
Qed.

Lemma wf_db_identity d d' :
  subject_inscriptions d' = subject_inscriptions d →
  final_exam_inscriptions d' = final_exam_inscriptions d →
  grade_identity <$> grades d' = grade_identity <$> grades d →
  wf_db d → wf_db d'.
Proof.
  intros Hsi Hfi Hg [K1 K2 K3 P1 P2 P3].
  assert (Hlen : ∀ l l' : list Grade,
            grade_identity <$> l' = grade_identity <$> l →
            ∀ st sb,
              length (filter (λ g, grade_student g = st ∧ grade_subject g = sb) l')
              = length (filter (λ g, grade_student g = st ∧ grade_subject g = sb) l)).
  { intros l l'. revert l. induction l' as [|x' l' IH]; intros [|x l] Heq st sb;
      try done. rewrite !fmap_cons in Heq.
    apply (f_equal head) in Heq as Hx. apply (f_equal tail) in Heq as Hl.
    cbn in Hx, Hl. unfold grade_identity in Hx.
    assert (Hst : grade_student x' = grade_student x) by congruence.
    assert (Hsb : grade_subject x' = grade_subject x) by congruence.
    destruct (decide (grade_student x = st ∧ grade_subject x = sb)) as [Hp|Hp].
    - rewrite !filter_cons_True by (by rewrite ?Hst, ?Hsb). cbn. by rewrite (IH l).
    - rewrite !filter_cons_False by (by rewrite ?Hst, ?Hsb). by apply IH. }
  split.
  - by rewrite Hsi.
  - replace (grade_id <$> grades d') with ((λ x, x.1.1) <$> (grade_identity <$> grades d'))
      by (by rewrite <- list_fmap_compose).
    rewrite Hg, <- list_fmap_compose. exact K2.
  - by rewrite Hfi.
  - intros st sb. unfold inscriptions_of. rewrite Hsi. apply P1.
  - intros st sb. unfold grades_of. rewrite (Hlen _ _ Hg). apply P2.
  - intros st fe. unfold final_inscriptions_of. rewrite Hfi. apply P3.
Qed.

(** *** The batch of the backfill *)

Lemma length_filter_eq_NoDup (l : list Z) st :
  NoDup l → (length (filter (λ x, x = st) l) ≤ 1)%nat.
Proof.
  induction l as [|x l IH]; [cbn; lia|]. intros [Hx Hnd]%NoDup_cons.
  destruct (decide (x = st)) as [->|Hne].
  - rewrite filter_cons_True by done.
    assert (Hnone : filter (λ x, x = st) l = []).
    { destruct (filter _ l) as [|y ys] eqn:Hf; [done|]. exfalso. apply Hx.
      pose proof (list_elem_of_here y ys) as Hy. rewrite <- Hf in Hy.
      by apply list_elem_of_filter in Hy as [-> ?]. }
    rewrite Hnone. cbn. lia.
  - rewrite filter_cons_False by done. auto.
Qed.

Lemma filter_eq_not_elem_of (l : list Z) st : st ∉ l → filter (λ x, x = st) l = [].
Proof.
  intros Hn. destruct (filter _ l) as [|y ys] eqn:Hf; [done|]. exfalso. apply Hn.
  pose proof (list_elem_of_here y ys) as Hy. rewrite <- Hf in Hy.
  by apply list_elem_of_filter in Hy as [-> ?].
Qed.

Lemma store_grade_fixes_key d g' r :
  r ∈ grades (store_grade g' d) → grade_id r = grade_id g' → r = g'.
Proof.
  unfold store_grade. cbn [grades]. intros [r0 [-> Hr0]]%list_elem_of_fmap.
  case_decide; [done|]. intros Heq. congruence.
Qed.

Lemma filter_key_unique d pk g r :
  filter (λ x, grade_id x = pk) (grades d) = [g] →
  r ∈ grades d → grade_id r = grade_id g → r = g.
Proof.
  intros Hf Hr Heq.
  assert (Hg : g ∈ filter (λ x, grade_id x = pk) (grades d))
    by (rewrite Hf; apply list_elem_of_here).
  apply list_elem_of_filter in Hg as [Hpk _].
  assert (Hin : r ∈ filter (λ x, grade_id x = pk) (grades d))
    by (apply list_elem_of_filter; split; [congruence|done]).
  rewrite Hf in Hin. by apply list_elem_of_singleton in Hin.
Qed.

Lemma filter_fmap_preserved (F : Grade → Grade) (P : Grade → Prop)
    `{!∀ x, Decision (P x)} (l : list Grade) :
  (∀ r, r ∈ l → (P (F r) ↔ P r)) →
  filter P (F <$> l) = F <$> filter P l.
Proof.
  induction l as [|x l IH]; intros HP; [done|]. rewrite fmap_cons.
  assert (Hx : P (F x) ↔ P x) by (apply HP; left).
  assert (Hl : ∀ r, r ∈ l → (P (F r) ↔ P r)) by (intros r ?; apply HP; by right).
  destruct (decide (P x)) as [Hp|Hp].
  - rewrite !filter_cons_True by tauto. rewrite fmap_cons. by rewrite IH.
  - rewrite !filter_cons_False by tauto. by apply IH.
Qed.

(** The grades of a pair after the only grade of the pair is saved. *)
Lemma grades_of_store_grade d pk g s f :
  wf_db d →
  filter (λ x, grade_id x = pk) (grades d) = [g] →
  grades_of (grade_student g) (grade_subject g)
    (store_grade (mkGrade (grade_id g) (grade_student g) (grade_subject g) s f) d)
  = [mkGrade (grade_id g) (grade_student g) (grade_subject g) s f].
Proof.
  intros Hwf Hf.
  assert (Hg : g ∈ grades d).
  { pose proof (list_elem_of_here g []) as H. rewrite <- Hf in H.
    by apply list_elem_of_filter in H as [_ ?]. }
  assert (Hone : grades_of (grade_student g) (grade_subject g) d = [g]).
  { pose proof (wf_grade_pairs d Hwf (grade_student g) (grade_subject g)) as Hlen.
    assert (Hin : g ∈ grades_of (grade_student g) (grade_subject g) d)
      by (by apply list_elem_of_filter).
    destruct (at_most_one _ Hlen) as [H0|[x H1]]; rewrite ?H0, ?H1 in Hin.
    - by apply not_elem_of_nil in Hin.
    - apply list_elem_of_singleton in Hin as ->. done. }
  unfold grades_of, store_grade in *. cbn [grades].
  rewrite filter_fmap_preserved.
  - rewrite Hone. cbn. by rewrite decide_True.
  - intros r Hr. case_decide as Hc; [|done].
    rewrite (filter_key_unique d pk g r Hf Hr Hc). done.
Qed.

Section Model.

Variable REGULAR : string.
Variable default_status : string.
Variable default_fields : list (string * string).
Variable GradeForm : list (string * string) → Grade → BoundForm.
Variable update_status : Grade → string.
Variable set_iter : SetIter.

Lemma new_grades_filter_length first sb sb' st sids :
  (length (filter (λ g, grade_student g = st ∧ grade_subject g = sb')
             (new_grades default_status default_fields first sb sids))
   ≤ length (filter (λ x, x = st) sids))%nat.
Proof.
  revert first. induction sids as [|sid sids IH]; intros first; cbn [new_grades];
    [cbn; lia|].
  specialize (IH (first + 1)%Z).
  destruct (decide (sid = st)) as [->|Hne].
  - rewrite (filter_cons_True (λ x, x = st)) by done.
    destruct (decide (sb = sb')) as [->|Hsb].
    + rewrite filter_cons_True by done. cbn. lia.
    + rewrite filter_cons_False by (cbn; intros [_ ?]; done). cbn. lia.
  - rewrite (filter_cons_False (λ x, x = st)) by done.
    rewrite filter_cons_False by (cbn; intros [? _]; done). done.
Qed.

Lemma new_grades_filter_other_subject first sb sb' st sids :
  sb' ≠ sb →
  filter (λ g, grade_student g = st ∧ grade_subject g = sb')
    (new_grades default_status default_fields first sb sids) = [].
Proof.
  intros Hne. revert first. induction sids as [|sid sids IH]; intros first;
    cbn [new_grades]; [done|].
  rewrite filter_cons_False by (cbn; intros [_ ?]; done). apply IH.
Qed.

Lemma wf_backfill d sb :
  wf_db d →
  wf_db (add_grades
           (new_grades default_status default_fields
              (next_id (grade_id <$> grades d)) sb
              (iter set_iter
                 (enrolled_student_ids sb d ∖ existing_grade_student_ids sb d)))
           d).
Proof.
  intros [K1 K2 K3 P1 P2 P3].
  set (missing := enrolled_student_ids sb d ∖ existing_grade_student_ids sb d).
  assert (Hnd : NoDup (iter set_iter missing))
    by (rewrite (iter_perm set_iter missing); apply NoDup_elements).
  split; try done.
  - cbn [grades add_grades]. rewrite fmap_app, new_grades_ids.
    apply NoDup_app. split; [done|]. split.
    + intros x Hx [k [-> _]]%list_elem_of_fmap. apply next_id_above in Hx. lia.
    + apply NoDup_fmap_2; [intros a b ?; lia|]. apply NoDup_seq.
  - intros st sb'. rewrite grades_of_add, length_app.
    destruct (decide (sb' = sb)) as [->|Hsb].
    2: { rewrite new_grades_filter_other_subject by done. cbn. specialize (P2 st sb'). lia. }
    pose proof (new_grades_filter_length (next_id (grade_id <$> grades d)) sb sb st
                  (iter set_iter missing)) as Hnew.
    destruct (decide (st ∈ missing)) as [Hin|Hout].
    + assert (Hnone : grades_of st sb d = []).
      { destruct (grades_of st sb d) as [|g gs] eqn:Hg; [done|]. exfalso.
        apply elem_of_difference in Hin as [_ Hn]. apply Hn.
        apply elem_of_existing_grade_student_ids. exists g.
        pose proof (list_elem_of_here g gs) as Hmem. rewrite <- Hg in Hmem.
        apply list_elem_of_filter in Hmem as [[? ?] ?]. done. }
      rewrite Hnone. cbn [length].
      pose proof (length_filter_eq_NoDup (iter set_iter missing) st Hnd). lia.
    + rewrite filter_eq_not_elem_of in Hnew
        by (by rewrite (iter_perm set_iter missing), elem_of_elements).
      cbn in Hnew. specialize (P2 st sb). lia.
Qed.

Lemma wf_store_grade d pk g s f :
  wf_db d →
  filter (λ x, grade_id x = pk) (grades d) = [g] →
  wf_db (store_grade (mkGrade (grade_id g) (grade_student g) (grade_subject g) s f) d).
Proof.
  intros Hwf Hf. apply (wf_db_identity d); [done|done| |done].
  apply store_grade_identity. intros r. by apply filter_key_unique with pk.
Qed.

Lemma wf_store_grade_again d g' s f :
  wf_db (store_grade g' d) →
  wf_db (store_grade
           (mkGrade (grade_id g') (grade_student g') (grade_subject g') s f)
           (store_grade g' d)).
Proof.
  intros Hwf. apply (wf_db_identity (store_grade g' d)); [done|done| |done].
  apply store_grade_identity. intros r. apply store_grade_fixes_key.
Qed.

Lemma wf_subject_inscribe rq code w :
  wf_db (db w) →
  wf_db (db (subject_inscribe default_status default_fields rq code w).2).
Proof.
  intros Hwf. unfold subject_inscribe, user_passes_test, request_student,
    SubjectInscription_get_or_create, Grade_get_or_create, get_object_or_404, qs_get.
  split_view; try done.
  all: first
         [ by apply wf_add_subject_inscription
         | by apply wf_add_grade
         | apply (wf_add_grade (add_subject_inscription _ _));
             [by apply wf_add_subject_inscription|done] ].
Qed.

Lemma wf_final_exam_inscribe rq i w :
  wf_db (db w) →
  wf_db (db (final_exam_inscribe REGULAR rq i w).2).
Proof.
  intros Hwf. unfold final_exam_inscribe, user_passes_test, request_student,
    FinalExamInscription_get_or_create, get_object_or_404, qs_get.
  split_view; try done.
  all: by apply wf_add_final_exam_inscription.
Qed.

Lemma wf_grade_list rq code w :
  wf_db (db w) →
  wf_db (db (grade_list default_status default_fields set_iter rq code w).2).
Proof.
  intros Hwf. unfold grade_list, user_passes_test, request_professor,
    get_object_or_404, qs_get.
  split_view; try done.
  all: by apply wf_backfill.
Qed.

Lemma wf_grade_edit rq pk w :
  wf_db (db w) →
  wf_db (db (grade_edit GradeForm update_status rq pk w).2).
Proof.
  intros Hwf. unfold grade_edit, user_passes_test, request_professor,
    get_object_or_404, qs_get.
  split_view; try done.
  - apply (wf_store_grade_again (db w0)
             (mkGrade (grade_id a) (grade_student a) (grade_subject a)
                (cleaned_status (GradeForm (POST_data rq) a))
                (cleaned_fields (GradeForm (POST_data rq) a)))).
    by apply (wf_store_grade _ pk).
  - by apply (wf_store_grade _ pk).
Qed.

(** X8: the four enrollment and grade views keep the store consistent.
    From a store with unique keys and at most one inscription, one grade
    and one final-exam inscription per pair, every request to
    [subject_inscribe], [final_exam_inscribe], [grade_list] or
    [grade_edit], with any argument and whatever its outcome, leaves a
    store with the same properties. *)
Theorem wf_db_preserved (w : World) (rq : Request) :
  wf_db (db w) →
  (∀ code, wf_db (db (subject_inscribe default_status default_fields rq code w).2))
  ∧ (∀ i, wf_db (db (final_exam_inscribe REGULAR rq i w).2))
  ∧ (∀ code, wf_db (db (grade_list default_status default_fields set_iter rq code w).2))
  ∧ (∀ pk, wf_db (db (grade_edit GradeForm update_status rq pk w).2)).
Proof.
  intros Hwf. split; [|split; [|split]]; intros x.
  - by apply wf_subject_inscribe.
  - by apply wf_final_exam_inscribe.
  - by apply wf_grade_list.
  - by apply wf_grade_edit.
Qed.

(** *** What [grade_edit] can change *)

Lemma store_grade_other d g' k r :
  grades d !! k = Some r → grade_id r ≠ grade_id g' →
  grades (store_grade g' d) !! k = Some r.
Proof.
  intros Hk Hne. unfold store_grade. cbn [grades].
  rewrite list_lookup_fmap, Hk. cbn. by rewrite decide_False.
Qed.

(** What [grade_edit] leaves in place, for every request and outcome. *)
Lemma grade_edit_keeps (rq : Request) (pk : Z) (w : World) :
  let w' := (grade_edit GradeForm update_status rq pk w).2 in
  subjects (db w') = subjects (db w)
  ∧ final_exams (db w') = final_exams (db w)
  ∧ subject_inscriptions (db w') = subject_inscriptions (db w)
  ∧ final_exam_inscriptions (db w') = final_exam_inscriptions (db w)
  ∧ subject_professors (db w') = subject_professors (db w)
  ∧ grade_identity <$> grades (db w') = grade_identity <$> grades (db w)
  ∧ ∀ k r, grades (db w) !! k = Some r → grade_id r ≠ pk →
           grades (db w') !! k = Some r.
Proof.
  cbv zeta. unfold grade_edit, user_passes_test, request_professor,
    get_object_or_404, qs_get.
  split_view; try done.
  - assert (Hpk : grade_id a = pk).
    { pose proof (list_elem_of_here a []) as Ha. rewrite <- H0 in Ha.
      by apply list_elem_of_filter in Ha as [? _]. }
    repeat split; try done.
    + etrans.
      * apply (store_grade_identity
                 (store_grade
                    (mkGrade (grade_id a) (grade_student a) (grade_subject a)
                       (cleaned_status (GradeForm (POST_data rq) a))
                       (cleaned_fields (GradeForm (POST_data rq) a)))
                    (db w0))
                 (mkGrade (grade_id a) (grade_student a) (grade_subject a)
                    (cleaned_status (GradeForm (POST_data rq) a))
                    (cleaned_fields (GradeForm (POST_data rq) a)))).
        intros r. apply store_grade_fixes_key.
      * apply store_grade_identity. intros r. by apply filter_key_unique with pk.
    + intros k r Hk Hne. rewrite !list_lookup_fmap, Hk. cbn.
      destruct (decide (grade_id r = grade_id a)); [congruence|].
      by rewrite decide_False by done.
  - assert (Hpk : grade_id a = pk).
    { pose proof (list_elem_of_here a []) as Ha. rewrite <- H0 in Ha.
      by apply list_elem_of_filter in Ha as [? _]. }
    repeat split; try done.
    + apply store_grade_identity. intros r. by apply filter_key_unique with pk.
    + intros k r Hk Hne. rewrite list_lookup_fmap, Hk. cbn.
      destruct (decide (grade_id r = grade_id a)); [congruence|done].
Qed.


(** *** From the inscription to the final exam *)

Lemma latest_singleton (g : Grade) : latest [g] = Some g.
Proof. reflexivity. Qed.

(** X10: a fresh inscription does not open the final exam.  When a
    student without a grade for a subject posts the inscription, and a new
    grade does not start as REGULAR, the final-exam view of any final exam
    of that subject then answers with the ineligible outcome. *)
Theorem fresh_inscription_is_ineligible (rq rq' : Request) code i w u st sb fe :
  user rq = Some u → role u = STUDENT → student u = Some st → method rq = POST →
  user rq' = Some u →
  subjects_in_career code (student_career st) (db w) = [sb] →
  finals_in_career i (student_career st) (db w) = [fe] →
  subject fe = subject_id sb →
  (length (inscriptions_of (student_pk st) (subject_id sb) (db w)) ≤ 1)%nat →
  grades_of (student_pk st) (subject_id sb) (db w) = [] →
  default_status ≠ REGULAR →
  let w1 := (subject_inscribe default_status default_fields rq code w).2 in
  final_exam_inscribe REGULAR rq' i w1 = IneligibleState w1.
Proof.
  intros Hu Hr Hs Hm Hu' Hsb Hfe Hsubj Hlen Hnone Hdef w1.
  assert (Hw1 : subjects (db w1) = subjects (db w)
                ∧ final_exams (db w1) = final_exams (db w)
                ∧ ∃ g, grades_of (student_pk st) (subject_id sb) (db w1) = [g]
                       ∧ status g = default_status).
  { subst w1. rewrite (subject_inscribe_found _ _ _ _ _ _ _ _ Hu Hr Hs Hsb), Hm.
    destruct (at_most_one _ Hlen) as [Hi0|[r Hi1]].
    - unfold bind. rewrite (SubjectInscription_get_or_create_missing _ _ _ Hi0).
      rewrite Grade_get_or_create_missing by exact Hnone. run.
      split; [done|]. split; [done|]. eexists.
      rewrite grades_of_add, grades_of_add_subject_inscription, Hnone.
      rewrite filter_cons_True by done. rewrite filter_nil. split; reflexivity.
    - unfold bind. rewrite (SubjectInscription_get_or_create_existing _ _ _ _ Hi1).
      rewrite (Grade_get_or_create_missing _ _ _ _ _ Hnone). run.
      split; [done|]. split; [done|]. eexists.
      rewrite grades_of_add, Hnone.
      rewrite filter_cons_True by done. rewrite filter_nil. split; reflexivity. }
  destruct Hw1 as (Hsubjects & Hfinals & g & Hg & Hstatus).
  apply (final_exam_inscribe_ineligible REGULAR rq' i w1 u st fe Hu' Hr Hs).
  - by rewrite (finals_in_career_frame _ _ _ _ Hsubjects Hfinals).
  - unfold ineligible. rewrite Hsubj, Hg, latest_singleton. by rewrite Hstatus.
Qed.

(** X11: a grade set to REGULAR by its professor opens the final exam.
    In a consistent store, after a valid POST of [grade_edit] that changes
    the status field to REGULAR, the student of that grade is no longer
    ineligible for a final exam of the grade's subject, and the student's
    POST of [final_exam_inscribe] succeeds and leaves exactly one
    inscription for the pair. *)
Theorem regular_grade_opens_final (rqp rqs : Request) pk i w up p g sbrow us st fe :
  wf_db (db w) →
  user rqp = Some up → role up = PROFESSOR → professor up = Some p →
  filter (λ r, grade_id r = pk) (grades (db w)) = [g] →
  filter (λ s, subject_id s = grade_subject g) (subjects (db w)) = [sbrow] →
  (subject_id sbrow, p) ∈ subject_professors (db w) →
  inscriptions_of (grade_student g) (grade_subject g) (db w) ≠ [] →
  method rqp = POST →
  is_valid (GradeForm (POST_data rqp) g) = true →
  "status" ∈ changed_data (GradeForm (POST_data rqp) g) →
  cleaned_status (GradeForm (POST_data rqp) g) = REGULAR →
  user rqs = Some us → role us = STUDENT → student us = Some st →
  method rqs = POST →
  student_pk st = grade_student g →
  finals_in_career i (student_career st) (db w) = [fe] →
  subject fe = grade_subject g →
  let w1 := (grade_edit GradeForm update_status rqp pk w).2 in
  let out := final_exam_inscribe REGULAR rqs i w1 in
  ¬ ineligible REGULAR (student_pk st) (subject fe) (db w1)
  ∧ out.1 = Ok (Redirect "users:student-dashboard")
  ∧ length (final_inscriptions_of (student_pk st) (final_id fe) (db out.2)) = 1%nat.
Proof.
  intros Hwf Hup Hrp Hp Hg Hsb Hass Hins Hmp Hval Hch Hreg Hus Hrs Hst Hms Hpk Hfe Hsubj
    w1 out.
  set (saved := mkGrade (grade_id g) (grade_student g) (grade_subject g)
                  (cleaned_status (GradeForm (POST_data rqp) g))
                  (cleaned_fields (GradeForm (POST_data rqp) g))).
  assert (Hw1 : db w1 = store_grade saved (db w)).
  { subst w1. rewrite (grade_edit_found _ _ _ _ _ _ _ _ _ Hup Hrp Hp Hg Hsb).
    rewrite (bool_decide_eq_true_2 _ Hass), (bool_decide_eq_false_2 _ Hins), Hmp.
    cbn [negb]. cbv zeta. rewrite Hval, (bool_decide_eq_true_2 _ Hch). cbn [negb].
    by rewrite redirect_grade_list_snd. }
  assert (Hnot : ¬ ineligible REGULAR (student_pk st) (subject fe) (db w1)).
  { unfold ineligible. rewrite Hw1, Hpk, Hsubj. subst saved.
    rewrite (grades_of_store_grade _ pk) by done. rewrite latest_singleton.
    cbn [status]. intros Hne. by apply Hne. }
  assert (Hfe1 : finals_in_career i (student_career st) (db w1) = [fe]).
  { rewrite <- Hfe. apply finals_in_career_frame; by rewrite Hw1. }
  assert (Hlen1 : (length (final_inscriptions_of (student_pk st) (final_id fe) (db w1))
                   ≤ 1)%nat).
  { rewrite Hw1. apply (wf_fi_pairs (db w) Hwf). }
  destruct (final_exam_inscribe_eligible_step REGULAR rqs i w1 us st fe
              Hus Hrs Hst Hfe1 Hnot Hlen1) as (Hresp & _ & _ & _ & _ & Hone & _).
  split; [done|]. rewrite Hms in Hresp. split; [done|]. by apply Hone.
Qed.

(** *** Nothing is ever removed *)

Lemma grades_prefix_identity (l l' : list Grade) :
  l `prefix_of` l' → (grade_identity <$> l) `prefix_of` (grade_identity <$> l').
Proof. intros [k ->]. rewrite fmap_app. by apply prefix_app_r. Qed.

(** X19: the four views never lose a row.  For every request and
    outcome, the subject inscriptions and the final-exam inscriptions
    before the view are a prefix of those after it, and so are the grade
    rows as far as their key, student and subject go: rows are only
    appended, and a stored grade changes at most its status and scores. *)
Theorem views_only_append (rq : Request) (code : string) (i pk : Z) (w : World) :
  let kept (w' : World) :=
    subject_inscriptions (db w) `prefix_of` subject_inscriptions (db w')
    ∧ final_exam_inscriptions (db w) `prefix_of` final_exam_inscriptions (db w')
    ∧ (grade_identity <$> grades (db w)) `prefix_of` (grade_identity <$> grades (db w')) in
  kept (subject_inscribe default_status default_fields rq code w).2
  ∧ kept (final_exam_inscribe REGULAR rq i w).2
  ∧ kept (grade_list default_status default_fields set_iter rq code w).2
  ∧ kept (grade_edit GradeForm update_status rq pk w).2.
Proof.
  cbv zeta. split; [|split; [|split]].
  - unfold subject_inscribe, user_passes_test, request_student,
      SubjectInscription_get_or_create, Grade_get_or_create, get_object_or_404, qs_get.
    split_view; repeat split; try done;
      try (by apply prefix_app_r); try (apply grades_prefix_identity; by apply prefix_app_r).
  - unfold final_exam_inscribe, user_passes_test, request_student,
      FinalExamInscription_get_or_create, get_object_or_404, qs_get.
    split_view; repeat split; try done; by apply prefix_app_r.
  - unfold grade_list, user_passes_test, request_professor, get_object_or_404, qs_get.
    split_view; repeat split; try done.
    apply grades_prefix_identity. by apply prefix_app_r.
  - destruct (grade_edit_keeps rq pk w) as (_ & _ & Hsi & Hfi & _ & Hid & _).
    rewrite Hsi, Hfi, Hid. done.
Qed.

End Model.

(** The example stores are consistent. *)
Ltac concrete_pairs :=
  intros ? ?; cbn; rewrite ?filter_cons, ?filter_nil;
  repeat case_decide; cbn; lia.

Lemma campus_wf : wf_db (db campus).
Proof.
  split; try (apply (bool_decide_unpack _); by vm_compute).
  - unfold inscriptions_of. concrete_pairs.
  - unfold grades_of. concrete_pairs.
  - unfold final_inscriptions_of. concrete_pairs.
Defined.

Lemma campus_libre_wf : wf_db (db campus_libre).
Proof.
  split; try (apply (bool_decide_unpack _); by vm_compute).
  - unfold inscriptions_of. concrete_pairs.
  - unfold grades_of. concrete_pairs.
  - unfold final_inscriptions_of. concrete_pairs.
Defined.

Lemma wf_db_preserved_witness :
  wf_db (db campus)
  ∧ (∀ code, wf_db (db (subject_inscribe "" [] (post_by student_5 []) code campus).2))
  ∧ (∀ i, wf_db (db (final_exam_inscribe "REGULAR" (post_by student_5 []) i campus).2))
  ∧ (∀ code, wf_db (db (grade_list "" [] ascending (post_by student_5 []) code campus).2))
  ∧ (∀ pk, wf_db (db (grade_edit example_GradeForm example_update_status
                        (post_by student_5 []) pk campus).2)).
Proof.
  split; [exact campus_wf|].
  exact (wf_db_preserved "REGULAR" "" [] example_GradeForm example_update_status
           ascending campus (post_by student_5 []) campus_wf).
Defined.

(** Student 7 enrolls in ALG and asks for final exam 100 right away. *)
Lemma fresh_inscription_is_ineligible_witness :
  let w1 := (subject_inscribe "" [] (post_by student_7 []) "ALG" campus).2 in
  (subjects_in_career "ALG" 1 (db campus) = [mkSubject 10 "ALG" 1]
   ∧ finals_in_career 100 1 (db campus) = [mkFinalExam 100 10]
   ∧ grades_of 7 10 (db campus) = []
   ∧ "" ≠ "REGULAR")
  ∧ final_exam_inscribe "REGULAR" (post_by student_7 []) 100 w1 = IneligibleState w1.
Proof.
  split; [repeat split; try reflexivity; discriminate|].
  apply (fresh_inscription_is_ineligible "REGULAR" "" [] (post_by student_7 [])
           (post_by student_7 []) "ALG" 100 campus student_7 (mkStudent 7 1)
           (mkSubject 10 "ALG" 1) (mkFinalExam 100 10));
    try reflexivity; try discriminate. vm_compute. lia.
Defined.

(** Professor 50 sets the grade of student 5 in ALG to REGULAR; student 5
    then asks for final exam 100. *)
Lemma regular_grade_opens_final_witness :
  let rqp := post_by professor_50 [("nota", "7"); ("status", "REGULAR")] in
  let rqs := post_by student_5 [] in
  let w1 := (grade_edit example_GradeForm example_update_status rqp 1 campus_libre).2 in
  let out := final_exam_inscribe "REGULAR" rqs 100 w1 in
  (wf_db (db campus_libre)
   ∧ ineligible "REGULAR" 5 10 (db campus_libre)
   ∧ changed_data (example_GradeForm (POST_data rqp) (mkGrade 1 5 10 "LIBRE" [("nota", "7")]))
     = ["status"])
  ∧ ¬ ineligible "REGULAR" 5 10 (db w1)
  ∧ out.1 = Ok (Redirect "users:student-dashboard")
  ∧ length (final_inscriptions_of 5 100 (db out.2)) = 1%nat.
Proof.
  split.
  { split; [exact campus_libre_wf|]. split; [by vm_compute|reflexivity]. }
  apply (regular_grade_opens_final "REGULAR" example_GradeForm example_update_status
           (post_by professor_50 [("nota", "7"); ("status", "REGULAR")])
           (post_by student_5 []) 1 100 campus_libre
           professor_50 50 (mkGrade 1 5 10 "LIBRE" [("nota", "7")]) (mkSubject 10 "ALG" 1)
           student_5 (mkStudent 5 1) (mkFinalExam 100 10));
    try reflexivity; try exact campus_libre_wf.
  all: apply (bool_decide_unpack _); by vm_compute.
Defined.

End AcademicsMore.

(** ** The dashboards and the roster *)

Module DashboardsFacts.
Import Academics AcademicsFacts AcademicsInv AcademicsMore Dashboards.

Lemma latest_elem (l : list Grade) g : latest l = Some g → g ∈ l.
Proof.
  revert g. induction l as [|x l IH]; intros g; cbn [latest]; [done|].
  destruct (latest l) as [h|].
  - case_decide; intros [= <-]; [left|right; by apply IH].
  - intros [= <-]. left.
Qed.

Lemma singleton_of_member {A} (l : list A) x :
  (length l ≤ 1)%nat → x ∈ l → l = [x].
Proof.
  intros Hlen Hx. destruct (at_most_one _ Hlen) as [->|[y ->]].
  - by apply not_elem_of_nil in Hx.
  - by apply list_elem_of_singleton in Hx as ->.
Qed.

Lemma filter_code_unique (Q : Subject → Prop) `{!∀ s, Decision (Q s)}
    (l : list Subject) c :
  NoDup (code <$> l) →
  (length (filter (λ s, code s = c ∧ Q s) l) ≤ 1)%nat.
Proof.
  induction l as [|x l IH]; [cbn; lia|]. rewrite fmap_cons.
  intros [Hx Hnd]%NoDup_cons. specialize (IH Hnd).
  destruct (decide (code x = c ∧ Q x)) as [[Hc Hq]|Hn].
  - rewrite filter_cons_True by done.
    assert (Hnone : filter (λ s, code s = c ∧ Q s) l = []).
    { destruct (filter _ l) as [|y ys] eqn:Hf; [done|]. exfalso. apply Hx.
      pose proof (list_elem_of_here y ys) as Hy. rewrite <- Hf in Hy.
      apply list_elem_of_filter in Hy as [[Hcy _] Hy].
      apply list_elem_of_fmap. exists y. split; [congruence|done]. }
    rewrite Hnone. cbn. lia.
  - by rewrite filter_cons_False.
Qed.

Lemma length_filter_and {A} (P Q : A → Prop) `{!∀ x, Decision (P x)}
    `{!∀ x, Decision (Q x)} (l : list A) :
  (length (filter (λ x, P x ∧ Q x) l) ≤ length (filter P l))%nat.
Proof.
  induction l as [|x l IH]; [done|].
  destruct (decide (P x)) as [Hp|Hp].
  - rewrite (filter_cons_True P) by done.
    destruct (decide (Q x)).
    + rewrite filter_cons_True by done. cbn. lia.
    + rewrite filter_cons_False by (intros [? ?]; done). cbn. lia.
  - rewrite (filter_cons_False P) by done.
    by rewrite filter_cons_False by (intros [? ?]; done).
Qed.

Section Views.

Variable REGULAR : string.
Variable default_status : string.
Variable default_fields : list (string * string).
Variable set_iter : SetIter.
Variable final_exam__date : FinalExamInscription → Z.
Variable by_student_name : FinalExamInscription → FinalExamInscription → Prop.
Context `{!RelDecision by_student_name}.
Variable final_professors : gset (Z * Z).

(** X12: the student dashboard agrees with the gate of the final-exam
    inscription.  For a student with a profile the dashboard is rendered
    and the store is left as it was; every final exam whose subject the
    gate finds REGULAR is among the eligible finals shown; and in a
    consistent store every final exam shown as eligible passes the gate's
    test on the grade. *)
Theorem student_dashboard_matches_gate (rq : Request) (w : World) u st :
  user rq = Some u → role u = STUDENT → student u = Some st →
  ∃ ctx,
    student_dashboard REGULAR final_exam__date rq w
    = (Ok (Render "users/student_dashboard.html", Some ctx), w)
    ∧ (∀ fe, fe ∈ final_exams (db w) →
             ¬ ineligible REGULAR (student_pk st) (subject fe) (db w) →
             fe ∈ ctx_eligible_finals ctx)
    ∧ (wf_db (db w) →
       ∀ fe, fe ∈ ctx_eligible_finals ctx →
             ¬ ineligible REGULAR (student_pk st) (subject fe) (db w)).
Proof.
  intros Hu Hr Hs. unfold student_dashboard.
  rewrite (is_student_intro _ _ Hu Hr), Hu. cbn [mbind option_bind]. rewrite Hs.
  run. eexists. split; [reflexivity|]. cbn [ctx_eligible_finals]. split.
  - intros fe Hfe Hel. apply list_elem_of_filter. split; [|done].
    apply elem_of_remove_dups, list_elem_of_fmap.
    unfold ineligible in Hel.
    destruct (latest _) as [g|] eqn:Hl; [|by destruct Hel].
    apply latest_elem, list_elem_of_filter in Hl as [[Hst Hsb] Hg].
    exists g. split; [done|].
    apply list_elem_of_filter. split.
    + by destruct (decide (status g = REGULAR)).
    + by apply list_elem_of_filter.
  - intros Hwf fe [Hin Hfe]%list_elem_of_filter.
    apply elem_of_remove_dups, list_elem_of_fmap in Hin as [g [Hsb Hg]].
    apply list_elem_of_filter in Hg as [Hreg Hg].
    apply list_elem_of_filter in Hg as [Hst Hg].
    assert (Hmem : g ∈ grades_of (student_pk st) (subject fe) (db w))
      by (by apply list_elem_of_filter).
    apply singleton_of_member in Hmem; [|apply (wf_grade_pairs _ Hwf)].
    unfold ineligible. rewrite Hmem. cbn. intros Hne. by apply Hne.
Qed.

(** X13: the professor's roster shows a successful inscription.  After
    an eligible student's POST of [final_exam_inscribe] for a final exam
    with a unique key, the roster view of a professor of that final exam
    is rendered without writing anything; it holds the final exam's
    inscriptions, the student's among them. *)
Theorem roster_shows_inscription (rqs rqp : Request) i w us st fe up p :
  user rqs = Some us → role us = STUDENT → student us = Some st → method rqs = POST →
  finals_in_career i (student_career st) (db w) = [fe] →
  ¬ ineligible REGULAR (student_pk st) (subject fe) (db w) →
  (length (final_inscriptions_of (student_pk st) (final_id fe) (db w)) ≤ 1)%nat →
  user rqp = Some up → role up = PROFESSOR → professor up = Some p →
  filter (λ f, final_id f = i) (final_exams (db w)) = [fe] →
  (final_id fe, p) ∈ final_professors →
  let w1 := (final_exam_inscribe REGULAR rqs i w).2 in
  ∃ roster,
    professor_final_inscriptions by_student_name final_professors rqp i w1
    = (Ok (Render "users/professor_final_inscriptions.html", Some (fe, roster)), w1)
    ∧ roster ≡ₚ filter (λ r, fi_final_exam r = final_id fe)
                  (final_exam_inscriptions (db w1))
    ∧ ∃ r, r ∈ roster ∧ fi_student r = student_pk st ∧ fi_final_exam r = final_id fe.
Proof.
  intros Hus Hrs Hst Hms Hfe Hel Hlen Hup Hrp Hp Hkey Hass w1.
  destruct (final_exam_inscribe_eligible_step REGULAR rqs i w us st fe
              Hus Hrs Hst Hfe Hel Hlen)
    as (_ & _ & Hfinals & _ & _ & Hone & _).
  fold w1 in Hfinals, Hone. specialize (Hone Hms).
  assert (Hrows : filter (λ f, final_id f = i ∧ (final_id f, p) ∈ final_professors)
                    (final_exams (db w1)) = [fe]).
  { rewrite Hfinals.
    assert (Hsub : fe ∈ filter (λ f, final_id f = i) (final_exams (db w)))
      by (rewrite Hkey; apply list_elem_of_here).
    apply list_elem_of_filter in Hsub as [Hid Hmem].
    apply singleton_of_member.
    - etrans; [apply (length_filter_and (λ f, final_id f = i))|]. by rewrite Hkey.
    - by apply list_elem_of_filter. }
  unfold professor_final_inscriptions.
  rewrite (is_professor_intro _ _ Hup Hrp).
  unfold bind at 1. rewrite (request_professor_ok _ _ _ _ Hup Hp).
  unfold bind at 1, query at 1. rewrite Hrows.
  unfold bind at 1, lift at 1. cbn [get_object_or_404 qs_get]. run.
  eexists. split; [reflexivity|]. split; [apply merge_sort_Permutation|].
  destruct (final_inscriptions_of _ _ (db w1)) as [|r [|? ?]] eqn:Hr; try done.
  assert (Hmem : r ∈ final_inscriptions_of (student_pk st) (final_id fe) (db w1))
    by (rewrite Hr; apply list_elem_of_here).
  apply list_elem_of_filter in Hmem as [[Hs Hf] Hmem].
  exists r. split; [|done]. rewrite merge_sort_Permutation.
  by apply list_elem_of_filter.
Qed.

(** X14: the subjects on the professor dashboard are the ones whose
    grades the professor can open.  With unique subject codes the
    dashboard is rendered without writing anything, and [grade_list]
    renders for a code exactly when a subject with that code is on the
    dashboard; for every other code it raises the 404. *)
Theorem professor_dashboard_opens_grade_list (rq : Request) (w : World) u p :
  user rq = Some u → role u = PROFESSOR → professor u = Some p →
  NoDup (code <$> subjects (db w)) →
  ∃ ctx,
    professor_dashboard final_professors rq w
    = (Ok (Render "users/professor_dashboard.html", Some ctx), w)
    ∧ ∀ c,
        ((∃ sb, sb ∈ ctx_assigned_subjects ctx ∧ code sb = c)
         → (grade_list default_status default_fields set_iter rq c w).1
           = Ok (Render "users/grade_list.html"))
        ∧ (¬ (∃ sb, sb ∈ ctx_assigned_subjects ctx ∧ code sb = c)
           → grade_list default_status default_fields set_iter rq c w = (Raise Http404, w)).
Proof.
  intros Hu Hr Hp Hnd. unfold professor_dashboard.
  rewrite (is_professor_intro _ _ Hu Hr), Hu. cbn [mbind option_bind]. rewrite Hp.
  run. eexists. split; [reflexivity|]. cbn [ctx_assigned_subjects]. intros c.
  pose proof (filter_code_unique (λ s, (subject_id s, p) ∈ subject_professors (db w))
                (subjects (db w)) c Hnd) as Hlen.
  split.
  - intros (sb & [Hass Hsb]%list_elem_of_filter & Hc).
    assert (Hrows : filter (λ s, code s = c
                                 ∧ (subject_id s, p) ∈ subject_professors (db w))
                      (subjects (db w)) = [sb]).
    { apply singleton_of_member; [done|]. by apply list_elem_of_filter. }
    by rewrite (grade_list_found default_status default_fields set_iter rq c w u p sb
                  Hu Hr Hp Hrows).
  - intros Hnone.
    assert (Hrows : filter (λ s, code s = c
                                 ∧ (subject_id s, p) ∈ subject_professors (db w))
                      (subjects (db w)) = []).
    { destruct (filter _ _) as [|sb l] eqn:Hf; [done|]. exfalso. apply Hnone.
      pose proof (list_elem_of_here sb l) as Hsb. rewrite <- Hf in Hsb.
      apply list_elem_of_filter in Hsb as [[Hc Hass] Hsb].
      exists sb. split; [|done]. by apply list_elem_of_filter. }
    unfold grade_list.
    rewrite (user_passes_test_pass _ _ _ (is_professor_intro _ _ Hu Hr)).
    unfold bind at 1. rewrite (request_professor_ok _ _ _ _ Hu Hp).
    unfold bind at 1, query at 1. rewrite Hrows. reflexivity.
Qed.

(** X20: a user without the profile of the role.  For a student
    account with no student profile the dashboard answers with a redirect
    to [home] and an error message, while both inscription views raise
    [RelatedObjectDoesNotExist]; for a professor account with no professor
    profile the dashboard does the same, while the grade list and the
    roster raise it; the tables are untouched in every case. *)
Theorem missing_profile (rq : Request) (w : World) u code i :
  user rq = Some u →
  (role u = STUDENT → student u = None →
   student_dashboard REGULAR final_exam__date rq w
   = (Ok (Redirect "home", None),
      mkWorld (db w)
        (messages w
           ++ [(ERROR,
                "Tu perfil de estudiante no está configurado. Contactá a un administrador.")])
        (calls w))
   ∧ subject_inscribe default_status default_fields rq code w
     = (Raise RelatedObjectDoesNotExist, w)
   ∧ final_exam_inscribe REGULAR rq i w = (Raise RelatedObjectDoesNotExist, w))
  ∧ (role u = PROFESSOR → professor u = None →
     professor_dashboard final_professors rq w
     = (Ok (Redirect "home", None),
        mkWorld (db w)
          (messages w
             ++ [(ERROR,
                  "Tu perfil de profesor no está configurado. Contactá a un administrador.")])
          (calls w))
     ∧ grade_list default_status default_fields set_iter rq code w
       = (Raise RelatedObjectDoesNotExist, w)
     ∧ professor_final_inscriptions by_student_name final_professors rq i w
       = (Raise RelatedObjectDoesNotExist, w)).
Proof.
  intros Hu. split.
  - intros Hr Hs.
    unfold student_dashboard, subject_inscribe, final_exam_inscribe.
    rewrite !(user_passes_test_pass _ _ _ (is_student_intro _ _ Hu Hr)).
    rewrite (is_student_intro _ _ Hu Hr).
    unfold request_student. rewrite Hu. cbn [mbind option_bind]. rewrite Hs.
    by run.
  - intros Hr Hp.
    unfold professor_dashboard, grade_list, professor_final_inscriptions.
    rewrite !(user_passes_test_pass _ _ _ (is_professor_intro _ _ Hu Hr)).
    rewrite (is_professor_intro _ _ Hu Hr).
    unfold request_professor. rewrite Hu. cbn [mbind option_bind]. rewrite Hp.
    by run.
Qed.

End Views.

(** A student account and a professor account without their profiles. *)
Lemma missing_profile_witness :
  let rqs := mkRequest (Some (mkUser STUDENT None None)) POST [] in
  let rqp := mkRequest (Some (mkUser PROFESSOR None None)) GET [] in
  (student_dashboard "REGULAR" example_date rqs campus).1 = Ok (Redirect "home", None)
  ∧ subject_inscribe "" [] rqs "ALG" campus = (Raise RelatedObjectDoesNotExist, campus)
  ∧ (professor_dashboard example_final_professors rqp campus).1
    = Ok (Redirect "home", None)
  ∧ grade_list "" [] ascending rqp "ALG" campus = (Raise RelatedObjectDoesNotExist, campus).
Proof.
  cbv zeta.
  destruct (missing_profile "REGULAR" "" [] ascending example_date example_by_name
              example_final_professors
              (mkRequest (Some (mkUser STUDENT None None)) POST []) campus
              (mkUser STUDENT None None) "ALG" 100 eq_refl) as [Hs _].
  destruct (missing_profile "REGULAR" "" [] ascending example_date example_by_name
              example_final_professors
              (mkRequest (Some (mkUser PROFESSOR None None)) GET []) campus
              (mkUser PROFESSOR None None) "ALG" 100 eq_refl) as [_ Hp].
  destruct (Hs eq_refl eq_refl) as (H1 & H2 & _).
  destruct (Hp eq_refl eq_refl) as (H3 & H4 & _).
  rewrite H1, H3. repeat split; assumption.
Defined.

(** The dashboard of student 5, whose only grade is REGULAR, in ALG. *)
Lemma student_dashboard_matches_gate_witness :
  let rq := get_by student_5 in
  ∃ ctx,
    student_dashboard "REGULAR" example_date rq campus
    = (Ok (Render "users/student_dashboard.html", Some ctx), campus)
    ∧ (∀ fe, fe ∈ final_exams (db campus) →
             ¬ ineligible "REGULAR" 5 (subject fe) (db campus) →
             fe ∈ ctx_eligible_finals ctx)
    ∧ (wf_db (db campus) →
       ∀ fe, fe ∈ ctx_eligible_finals ctx →
             ¬ ineligible "REGULAR" 5 (subject fe) (db campus)).
Proof.
  exact (student_dashboard_matches_gate "REGULAR" example_date (get_by student_5) campus
           student_5 (mkStudent 5 1) eq_refl eq_refl eq_refl).
Defined.

Lemma student_dashboard_example :
  (student_dashboard "REGULAR" example_date (get_by student_5) campus).1
  = Ok (Render "users/student_dashboard.html",
        Some (mkStudentDashboard
                [mkSubject 10 "ALG" 1; mkSubject 11 "FIS" 1]
                [mkSubjectInscription 1 5 10; mkSubjectInscription 2 5 11]
                [mkGrade 1 5 10 "REGULAR" [("nota", "7")]]
                [mkFinalExam 100 10] [] [] ["ALG"; "FIS"])).
Proof. by vm_compute. Qed.

(** Student 5 inscribes in final exam 100; professor 50 opens its roster. *)
Lemma roster_shows_inscription_witness :
  let w1 := (final_exam_inscribe "REGULAR" (post_by student_5 []) 100 campus).2 in
  (finals_in_career 100 1 (db campus) = [mkFinalExam 100 10]
   ∧ ¬ ineligible "REGULAR" 5 10 (db campus)
   ∧ (100, 50) ∈ example_final_professors)
  ∧ ∃ roster,
      professor_final_inscriptions example_by_name example_final_professors
        (get_by professor_50) 100 w1
      = (Ok (Render "users/professor_final_inscriptions.html",
             Some (mkFinalExam 100 10, roster)), w1)
      ∧ roster ≡ₚ filter (λ r, fi_final_exam r = 100) (final_exam_inscriptions (db w1))
      ∧ ∃ r, r ∈ roster ∧ fi_student r = 5 ∧ fi_final_exam r = 100.
Proof.
  assert (Hel : ¬ ineligible "REGULAR" 5 10 (db campus)).
  { apply (bool_decide_unpack _). by vm_compute. }
  assert (Hass : (100, 50) ∈ example_final_professors).
  { apply (bool_decide_unpack _). by vm_compute. }
  split; [split; [reflexivity|split; [exact Hel|exact Hass]]|].
  apply (roster_shows_inscription "REGULAR" example_by_name example_final_professors
           (post_by student_5 []) (get_by professor_50) 100 campus
           student_5 (mkStudent 5 1) (mkFinalExam 100 10) professor_50 50);
    try reflexivity; try assumption. vm_compute. lia.
Defined.

(** Professor 50, who teaches ALG and FIS, and the code QUI. *)
Lemma professor_dashboard_opens_grade_list_witness :
  let rq := get_by professor_50 in
  NoDup (code <$> subjects (db campus))
  ∧ ∃ ctx,
      professor_dashboard example_final_professors rq campus
      = (Ok (Render "users/professor_dashboard.html", Some ctx), campus)
      ∧ ∀ c,
          ((∃ sb, sb ∈ ctx_assigned_subjects ctx ∧ code sb = c)
           → (grade_list "" [] ascending rq c campus).1
             = Ok (Render "users/grade_list.html"))
          ∧ (¬ (∃ sb, sb ∈ ctx_assigned_subjects ctx ∧ code sb = c)
             → grade_list "" [] ascending rq c campus = (Raise Http404, campus)).
Proof.
  assert (Hnd : NoDup (code <$> subjects (db campus))).
  { apply (bool_decide_unpack _). by vm_compute. }
  split; [exact Hnd|].
  exact (professor_dashboard_opens_grade_list "" [] ascending example_final_professors
           (get_by professor_50) campus professor_50 50 eq_refl eq_refl eq_refl Hnd).
Defined.

End DashboardsFacts.

(** ** Redirects and guards across the views *)

Module ViewsFacts.
Import Urls.

Ltac split_cases := repeat (case_match; simplify_eq/=).

Section Params.

Variable get_prep_value : Assignments.PyVal → option Assignments.PyVal.
Variable REGULAR : string.
Variable default_status : string.
Variable default_fields : list (string * string).
Variable GradeForm : list (string * string) → Academics.Grade → Academics.BoundForm.
Variable update_status : Academics.Grade → string.
Variable set_iter : Academics.SetIter.
Variable final_exam__date : Academics.FinalExamInscription → Z.
Variable by_student_name :
  Academics.FinalExamInscription → Academics.FinalExamInscription → Prop.
Context `{!RelDecision by_student_name}.
Variable final_professors : gset (Z * Z).

Lemma users_views_redirects (rqu : Profiles.Request) (rqc : UserCreateView.Request)
    (wu : Profiles.World) r :
  ((Profiles.form_valid rqu wu).1 = Ok r → redirect_resolves r = true)
  ∧ ((UserCreateView.form_valid rqc wu).1 = Ok r → redirect_resolves r = true).
Proof.
  split.
  - unfold Profiles.form_valid, Profiles.atomic, Profiles.form_valid_block,
      Profiles.save_profile.
    split_cases; intros; simplify_eq/=; by vm_compute.
  - unfold UserCreateView.form_valid, Profiles.atomic, UserCreateView.form_valid_block,
      Profiles.save_profile.
    split_cases; intros; simplify_eq/=; by vm_compute.
Qed.

Lemma assignment_views_redirects (rq : Assignments.Request) c i
    (w : Assignments.World) r :
  ((Assignments.assign_subject_professors get_prep_value rq c w).1 = Ok r →
   redirect_resolves r = true)
  ∧ ((Assignments.assign_final_professors get_prep_value rq i w).1 = Ok r →
     redirect_resolves r = true).
Proof.
  split.
  - unfold Assignments.assign_subject_professors, Assignments.atomic.
    split_cases; intros; simplify_eq/=; by vm_compute.
  - unfold Assignments.assign_final_professors, Assignments.atomic.
    split_cases; intros; simplify_eq/=; by vm_compute.
Qed.

Import Academics AcademicsFacts Dashboards.

Lemma academic_views_redirects (rq : Request) code i pk (w : World) r :
  ((subject_inscribe default_status default_fields rq code w).1 = Ok r →
   redirect_resolves r = true)
  ∧ ((final_exam_inscribe REGULAR rq i w).1 = Ok r → redirect_resolves r = true)
  ∧ ((grade_list default_status default_fields set_iter rq code w).1 = Ok r →
     redirect_resolves r = true)
  ∧ ((grade_edit GradeForm update_status rq pk w).1 = Ok r →
     redirect_resolves r = true).
Proof.
  split; [|split; [|split]].
  - unfold subject_inscribe, user_passes_test, request_student,
      SubjectInscription_get_or_create, Grade_get_or_create, get_object_or_404, qs_get.
    run. split_cases; intros; simplify_eq/=; by vm_compute.
  - unfold final_exam_inscribe, user_passes_test, request_student,
      FinalExamInscription_get_or_create, get_object_or_404, qs_get.
    run. split_cases; intros; simplify_eq/=; by vm_compute.
  - unfold grade_list, user_passes_test, request_professor, get_object_or_404, qs_get.
    run. split_cases; intros; simplify_eq/=; by vm_compute.
  - unfold grade_edit, redirect_grade_list, user_passes_test, request_professor,
      get_object_or_404, qs_get.
    run. split_cases; intros; simplify_eq/=;
      first [by eapply UrlsFacts.reverse_grade_list_resolves | by vm_compute].
Qed.

Lemma dashboard_views_redirects (rq : Request) i (w : World) r :
  (∀ c, (student_dashboard REGULAR final_exam__date rq w).1 = Ok (r, c) →
        redirect_resolves r = true)
  ∧ (∀ c, (professor_dashboard final_professors rq w).1 = Ok (r, c) →
          redirect_resolves r = true)
  ∧ (∀ c, (professor_final_inscriptions by_student_name final_professors rq i w).1
          = Ok (r, c) →
          redirect_resolves r = true).
Proof.
  split; [|split]; intros c.
  - unfold student_dashboard. run. split_cases; intros; simplify_eq/=; by vm_compute.
  - unfold professor_dashboard. run. split_cases; intros; simplify_eq/=; by vm_compute.
  - unfold professor_final_inscriptions, request_professor, get_object_or_404, qs_get.
    run. split_cases; intros; simplify_eq/=; by vm_compute.
Qed.

(** X16: every redirect a view returns leads somewhere.  Whatever the
    request and the store, when one of the views answers with a redirect,
    its target is the project's [home], or [reverse] builds a path for
    the target and its arguments and that path resolves, in this
    application's table, to the route of that name with the same
    arguments.  ([grade_edit] passes a subject code; where the code cannot
    stand in the route, the view raises and returns no redirect.) *)
Theorem redirects_resolve (rqu : Profiles.Request) (rqc : UserCreateView.Request)
    (wu : Profiles.World) (rqa : Assignments.Request) (wa : Assignments.World)
    (rq : Request) (w : World) (code : string) (i pk : Z) (r : Response) :
  ((Profiles.form_valid rqu wu).1 = Ok r → redirect_resolves r = true)
  ∧ ((UserCreateView.form_valid rqc wu).1 = Ok r → redirect_resolves r = true)
  ∧ ((Assignments.assign_subject_professors get_prep_value rqa code wa).1 = Ok r →
     redirect_resolves r = true)
  ∧ ((Assignments.assign_final_professors get_prep_value rqa i wa).1 = Ok r →
     redirect_resolves r = true)
  ∧ ((subject_inscribe default_status default_fields rq code w).1 = Ok r →
     redirect_resolves r = true)
  ∧ ((final_exam_inscribe REGULAR rq i w).1 = Ok r → redirect_resolves r = true)
  ∧ ((grade_list default_status default_fields set_iter rq code w).1 = Ok r →
     redirect_resolves r = true)
  ∧ ((grade_edit GradeForm update_status rq pk w).1 = Ok r →
     redirect_resolves r = true)
  ∧ (∀ c, (student_dashboard REGULAR final_exam__date rq w).1 = Ok (r, c) →
          redirect_resolves r = true)
  ∧ (∀ c, (professor_dashboard final_professors rq w).1 = Ok (r, c) →
          redirect_resolves r = true)
  ∧ (∀ c, (professor_final_inscriptions by_student_name final_professors rq i w).1
          = Ok (r, c) →
          redirect_resolves r = true).
Proof.
  destruct (users_views_redirects rqu rqc wu r) as (? & ?).
  destruct (assignment_views_redirects rqa code i wa r) as (? & ?).
  destruct (academic_views_redirects rq code i pk w r) as (? & ? & ? & ?).
  destruct (dashboard_views_redirects rq i w r) as (? & ? & ?).
  repeat split; assumption.
Qed.

(** X17: the role guards.  A request whose user is anonymous or has
    another role is sent to the login page by every guarded view, and the
    store is left exactly as it was: the student views for a non-student,
    the professor views for a non-professor, the assignment views for a
    non-administrator. *)
Theorem role_guards (rqa : Assignments.Request) (wa : Assignments.World)
    (rq : Request) (w : World) (code : string) (i pk : Z) :
  (is_student (user rq) = false →
   subject_inscribe default_status default_fields rq code w = (Ok LoginRedirect, w)
   ∧ final_exam_inscribe REGULAR rq i w = (Ok LoginRedirect, w)
   ∧ student_dashboard REGULAR final_exam__date rq w = (Ok (LoginRedirect, None), w))
  ∧ (is_professor (user rq) = false →
     grade_list default_status default_fields set_iter rq code w = (Ok LoginRedirect, w)
     ∧ grade_edit GradeForm update_status rq pk w = (Ok LoginRedirect, w)
     ∧ professor_dashboard final_professors rq w = (Ok (LoginRedirect, None), w)
     ∧ professor_final_inscriptions by_student_name final_professors rq i w
       = (Ok (LoginRedirect, None), w))
  ∧ (Assignments.is_admin (Assignments.user rqa) = false →
     Assignments.assign_subject_professors get_prep_value rqa code wa
     = (Ok LoginRedirect, wa)
     ∧ Assignments.assign_final_professors get_prep_value rqa i wa
       = (Ok LoginRedirect, wa)).
Proof.
  split; [|split].
  - intros H. unfold subject_inscribe, final_exam_inscribe, student_dashboard.
    rewrite !user_passes_test_fail by done. by rewrite H.
  - intros H.
    unfold grade_list, grade_edit, professor_dashboard, professor_final_inscriptions.
    rewrite !user_passes_test_fail by done. by rewrite H.
  - intros H. unfold Assignments.assign_subject_professors,
      Assignments.assign_final_professors. by rewrite H.
Qed.

End Params.

Import Academics AcademicsFacts Dashboards.

(** A professor asks for the student views, a student for the professor
    views and for the assignment views. *)
Lemma role_guards_witness :
  let rqp := post_by professor_50 [] in
  let rqs := post_by student_5 [] in
  let rqa := Assignments.mkRequest (Some STUDENT) POST ["2"; "3"] in
  subject_inscribe "" [] rqp "ALG" campus = (Ok LoginRedirect, campus)
  ∧ final_exam_inscribe "REGULAR" rqp 100 campus = (Ok LoginRedirect, campus)
  ∧ grade_edit example_GradeForm example_update_status rqs 1 campus
    = (Ok LoginRedirect, campus)
  ∧ Assignments.assign_subject_professors Assignments.int_prep_value rqa "MAT1"
      Assignments.two_assigned
    = (Ok LoginRedirect, Assignments.two_assigned).
Proof.
  cbv zeta.
  destruct (role_guards Assignments.int_prep_value "REGULAR" "" [] example_GradeForm
              example_update_status ascending example_date example_by_name
              example_final_professors
              (Assignments.mkRequest (Some STUDENT) POST ["2"; "3"])
              Assignments.two_assigned (post_by professor_50 []) campus "ALG" 100 1)
    as (Hs & _ & _).
  destruct (role_guards Assignments.int_prep_value "REGULAR" "" [] example_GradeForm
              example_update_status ascending example_date example_by_name
              example_final_professors
              (Assignments.mkRequest (Some STUDENT) POST ["2"; "3"])
              Assignments.two_assigned (post_by student_5 []) campus "MAT1" 100 1)
    as (_ & Hp & Ha).
  destruct (Hs eq_refl) as (H1 & H2 & _).
  destruct (Hp eq_refl) as (_ & H3 & _).
  destruct (Ha eq_refl) as (H4 & _).
  repeat split; assumption.
Defined.

End ViewsFacts.

(** ** The student file as a document *)

Module StudentFileDocxFacts.
Import StudentFile StudentFileFacts StudentFileDocx.

Section View.

Variable get_full_name : CustomUser → string.
Variable doc_path_exists : bool.
Variable render : list (string * string) → string + string.


End View.


End StudentFileDocxFacts.
